(** * Industrial IoT demo: the acquire / validate / detect / buffer pipeline

    A shallow embedding of the data acquisition client
    ([daq_system/opc_client.py]), of the orchestrator
    ([daq_system/main.py]), of the configuration check
    ([daq_system/config.py]) and of the sensor simulator
    ([opc_server/opc_server.py]), followed by the properties of the
    specification that concern them and by further properties of the code.

    Conventions of the embedding.
    - Sensor values are Python floats: IEEE 754 binary64, here Rocq's
      primitive floats, so that concrete runs compute bit for bit.
    - Counters and configuration integers are Python ints: [N] for the
      counters that start at 0 and only grow, [Z] for values read from the
      environment.  [a / b] on two ints is the float nearest to their
      quotient, computed from the ints themselves.
    - A reading is the dictionary built by [read_sensor_data].  The two keys
      the pipeline looks up with [reading['...']] inside its [try] blocks,
      ['sensor_type'] and ['value'], may be missing ([None] below): that is
      how a per-reading exception arises.  The other keys are always set by
      [read_sensor_data].
    - The bus, the database, the clock and the random generator are outside
      the program: their answers are arguments of the functions, their
      calls are recorded in the returned trace. *)

From Stdlib Require Import Uint63 PrimFloat Floats ZArith NArith.
From Stdlib Require Import List Ascii String Bool Lia.
Import ListNotations.
Local Open Scope string_scope.
Local Open Scope list_scope.
Set Warnings "-inexact-float".

(** ** Python primitives used by the program *)

Module Py.

(** Exceptions the modelled code can raise. *)
Inductive exn : Type :=
| KeyError (key : string)
| ZeroDivisionError
| OverflowError.

(** A computation that returns a value or raises. *)
Inductive result (A : Type) : Type :=
| Ok (a : A)
| Raise (e : exn).
Arguments Ok {A} a.
Arguments Raise {A} e.

Definition bind {A B : Type} (m : result A) (k : A -> result B) : result B :=
  match m with
  | Ok a => k a
  | Raise e => Raise e
  end.

(** [d[key]] on a key that may be missing. *)
Definition getitem {A : Type} (key : string) (field : option A) : result A :=
  match field with
  | Some a => Ok a
  | None => Raise (KeyError key)
  end.

(** [l[-n:]] for [n >= 0]; note that [l[-0:]] is the whole list. *)
Definition last_n {A : Type} (n : nat) (l : list A) : list A :=
  match n with
  | O => l
  | S _ => skipn (List.length l - n) l
  end.

(** [l[k:]] for [k >= 0]. *)
Definition drop_first {A : Type} (k : Z) (l : list A) : list A :=
  skipn (Z.to_nat k) l.

(** [len(l)] as a Python int. *)
Definition len {A : Type} (l : list A) : Z := Z.of_nat (List.length l).

(** Truth value of a float: everything but [0.0] and [-0.0]. *)
Definition truthy (x : float) : bool := negb (PrimFloat.eqb x 0%float).

(** [sum(l)]: left to right from the int [0]. *)
Definition sum (l : list float) : float :=
  fold_left PrimFloat.add l 0%float.

(** The float a (small) list length converts to in [x / len(l)]. *)
Definition float_of_nat (n : nat) : float :=
  PrimFloat.of_uint63 (Uint63.of_Z (Z.of_nat n)).

(** The numbers a statistic holds: the int it was initialised with or the
    float a division gave. *)
Inductive number : Type :=
| Int (n : Z)
| Float (x : float).

(** An int as a binary number of unbounded precision. *)
Definition SF_of_N (n : N) : spec_float :=
  match n with
  | N0 => S754_zero false
  | Npos p => S754_finite false p 0
  end.

(** [a / b] on ints: true division, raising on a zero divisor.  The float
    Python returns is the quotient of the two ints, not of their
    conversions, rounded once to the nearest binary64 (even on ties); a
    quotient beyond the floats raises. *)
Definition truediv (a b : N) : result float :=
  if N.eqb b 0 then Raise ZeroDivisionError
  else
    match SFdiv prec emax (SF_of_N a) (SF_of_N b) with
    | S754_infinity _ => Raise OverflowError
    | quotient => Ok (SF2Prim quotient)
    end.

(** [time.sleep(seconds)] returns: the argument is a number, is not
    negative, and its nanoseconds, rounded up, fit the clock's 64-bit
    integer; otherwise the call raises (ValueError or OverflowError)
    without sleeping. *)
Definition sleep_ok (seconds : float) : bool :=
  PrimFloat.leb 0 seconds
  && PrimFloat.ltb (PrimFloat.mul seconds 1e9) 9223372036854775808.

(** [min <= v <= max] is [min <= v and v <= max]. *)
Definition between (lo v hi : float) : bool :=
  PrimFloat.leb lo v && PrimFloat.leb v hi.

(** [c.lower()] on an ASCII character; the names handled are ASCII. *)
Definition lower_ascii (c : ascii) : ascii :=
  let n := nat_of_ascii c in
  if (65 <=? n)%nat && (n <=? 90)%nat then ascii_of_nat (n + 32) else c.

(** [s.lower()] *)
Fixpoint lower (s : string) : string :=
  match s with
  | EmptyString => EmptyString
  | String c rest => String (lower_ascii c) (lower rest)
  end.

(** [sub in s] on strings. *)
Fixpoint contains (sub s : string) : bool :=
  if String.prefix sub s then true
  else
    match s with
    | EmptyString => false
    | String _ rest => contains sub rest
    end.

(** [s.startswith(p)] *)
Definition startswith (s p : string) : bool := String.prefix p s.

(** Truth value of a string: everything but the empty one. *)
Definition truthy_str (s : string) : bool :=
  match s with
  | EmptyString => false
  | String _ _ => true
  end.

(** [max(a, b)] and [min(a, b)] on two floats: the first is kept unless
    the second is greater (smaller). *)
Definition max2 (a b : float) : float := if PrimFloat.ltb a b then b else a.
Definition min2 (a b : float) : float := if PrimFloat.ltb b a then b else a.

End Py.

Notation "x <- m ;; k" := (Py.bind m (fun x => k))
  (at level 61, m at next level, right associativity).

(** ** Configuration ([daq_system/config.py]) *)

Module DAQConfig.

Record t : Type := mk {
  machine_id : string;
  location : string;
  acquisition_interval : float;
  batch_size : Z;
  temperature_max : float;
  temperature_min : float;
  pressure_max : float;
  pressure_min : float;
  vibration_max : float;
  min_quality_threshold : Z;
  max_buffer_size : Z
}.

(** The values taken when the environment sets nothing. *)
Definition default : t := {|
  machine_id := "MACHINE_001";
  location := "Plant_A_Line_1";
  acquisition_interval := 5%float;
  batch_size := 10;
  temperature_max := 40%float;
  temperature_min := 18%float;
  pressure_max := 2%float;
  pressure_min := 0.9%float;
  vibration_max := 2.5%float;
  min_quality_threshold := 80;
  max_buffer_size := 1000
|}.

End DAQConfig.

(** The whole configuration: the database and server parts that
    [validate] looks at, and the acquisition part. *)
Module Config.

Record t : Type := mk {
  database_host : string;
  database_port : Z;
  database_name : string;
  opc_endpoint : string;
  daq : DAQConfig.t
}.

Definition default : t :=
  mk "localhost" 5431 "industrial_iot" "opc.tcp://localhost:4840"
     DAQConfig.default.

(** [validate]: the asserts in order; a failed assert is caught and gives
    [False]. *)
Definition validate (self : t) : bool :=
  Py.truthy_str self.(database_host)
  && ((1 <=? self.(database_port))%Z && (self.(database_port) <=? 65535)%Z)
  && Py.truthy_str self.(database_name)
  && Py.startswith self.(opc_endpoint) "opc.tcp://"
  && PrimFloat.ltb 0%float self.(daq).(DAQConfig.acquisition_interval)
  && (0 <? self.(daq).(DAQConfig.batch_size))%Z.

End Config.

(** ** Readings *)

Module Reading.

Record t : Type := mk {
  timestamp : Z;
  machine_id : string;
  sensor_type : option string;
  location : string;
  value : option float;
  unit_ : string;
  quality : Z;
  status : string;
  (* annotations added downstream; a missing key is [None] / [false] *)
  anomaly : option string;
  processed_at : option Z;
  moving_average : option float;
  deviation_from_avg : option float;
  high_deviation : bool;
  processing_version : option string;
  daq_system_id : option string
}.

(** [reading['anomaly'] = tag] *)
Definition set_anomaly (r : t) (tag : string) : t :=
  mk r.(timestamp) r.(machine_id) r.(sensor_type) r.(location) r.(value)
     r.(unit_) r.(quality) r.(status) (Some tag) r.(processed_at)
     r.(moving_average) r.(deviation_from_avg) r.(high_deviation)
     r.(processing_version) r.(daq_system_id).

Definition set_processed_at (r : t) (now : Z) : t :=
  mk r.(timestamp) r.(machine_id) r.(sensor_type) r.(location) r.(value)
     r.(unit_) r.(quality) r.(status) r.(anomaly) (Some now)
     r.(moving_average) r.(deviation_from_avg) r.(high_deviation)
     r.(processing_version) r.(daq_system_id).

Definition set_moving_average (r : t) (m : float) : t :=
  mk r.(timestamp) r.(machine_id) r.(sensor_type) r.(location) r.(value)
     r.(unit_) r.(quality) r.(status) r.(anomaly) r.(processed_at)
     (Some m) r.(deviation_from_avg) r.(high_deviation)
     r.(processing_version) r.(daq_system_id).

Definition set_deviation_from_avg (r : t) (d : float) : t :=
  mk r.(timestamp) r.(machine_id) r.(sensor_type) r.(location) r.(value)
     r.(unit_) r.(quality) r.(status) r.(anomaly) r.(processed_at)
     r.(moving_average) (Some d) r.(high_deviation)
     r.(processing_version) r.(daq_system_id).

Definition set_high_deviation (r : t) : t :=
  mk r.(timestamp) r.(machine_id) r.(sensor_type) r.(location) r.(value)
     r.(unit_) r.(quality) r.(status) r.(anomaly) r.(processed_at)
     r.(moving_average) r.(deviation_from_avg) true
     r.(processing_version) r.(daq_system_id).

Definition set_metadata (r : t) (version system : string) : t :=
  mk r.(timestamp) r.(machine_id) r.(sensor_type) r.(location) r.(value)
     r.(unit_) r.(quality) r.(status) r.(anomaly) r.(processed_at)
     r.(moving_average) r.(deviation_from_avg) r.(high_deviation)
     (Some version) (Some system).

(** The dictionary [read_sensor_data] builds for one sensor. *)
Definition acquired (ts : Z) (cfg : DAQConfig.t) (sensor : string)
    (v : float) (u : string) (q : Z) (st : string) : t :=
  mk ts cfg.(DAQConfig.machine_id) (Some sensor) cfg.(DAQConfig.location)
     (Some v) u q st None None None None false None None.

(** [point.get('sensor_type') == sensor_type] *)
Definition has_type (point : t) (sensor : string) : bool :=
  match point.(sensor_type) with
  | Some s => String.eqb s sensor
  | None => false
  end.

End Reading.

(** ** What the program does to the outside world *)

Module Trace.

Inductive event : Type :=
| Sleep (seconds : float)                  (* time.sleep(seconds) *)
| InsertBatch (rows : list Reading.t)      (* sensor_db.insert_batch_readings *)
| InsertReading (row : Reading.t).         (* sensor_db.insert_sensor_reading *)

End Trace.

(** ** The storage capability, as far as the client observes it
    ([daq_system/database.py]) *)

Module SensorDatabase.

(** The tuple built for a row needs every key of the reading. *)
Definition row_complete (reading : Reading.t) : bool :=
  match reading.(Reading.sensor_type), reading.(Reading.value) with
  | Some _, Some _ => true
  | _, _ => false
  end.

(** [insert_batch_readings]: the number of rows inserted; 0 for an empty
    batch and whenever anything raises, which it catches itself.  [db_ok]
    says whether the database accepts the batch. *)
Definition insert_batch_readings (db_ok : bool) (readings : list Reading.t) : Z :=
  match readings with
  | [] => 0
  | _ :: _ =>
      if forallb row_complete readings && db_ok then Py.len readings else 0
  end.

End SensorDatabase.

(** ** The acquisition client ([daq_system/opc_client.py]) *)

Module IndustrialOPCClient.

Record Stats : Type := mkStats {
  total_readings : N;
  successful_readings : N;
  failed_readings : N;
  last_reading_time : option Z;
  connection_attempts : N
}.

Record t : Type := mk {
  connected : bool;
  sensor_nodes : list string;      (* the mapped sensor types, in order *)
  data_buffer : list Reading.t;
  stats : Stats
}.

(** [IndustrialOPCClient()] *)
Definition init : t :=
  mk false [] [] (mkStats 0 0 0 None 0).

Definition set_data_buffer (self : t) (buffer : list Reading.t) : t :=
  mk self.(connected) self.(sensor_nodes) buffer self.(stats).

Definition set_connected (self : t) (b : bool) : t :=
  mk b self.(sensor_nodes) self.(data_buffer) self.(stats).

Definition set_stats (self : t) (s : Stats) : t :=
  mk self.(connected) self.(sensor_nodes) self.(data_buffer) s.

(** [self.stats['connection_attempts'] += 1] *)
Definition count_attempt (self : t) : t :=
  let s := self.(stats) in
  set_stats self
    (mkStats s.(total_readings) s.(successful_readings) s.(failed_readings)
             s.(last_reading_time) (s.(connection_attempts) + 1)).

(** *** connect *)

(** What the bus answers during one attempt: whether creating the client
    and connecting went through, and whether each of the two checks that
    follow did. *)
Record attempt : Type := mkAttempt {
  connect_ok : bool;
  server_node_ok : bool;
  root_node_ok : bool
}.

(** The body of the [try] reaches [return True]: the connection is made
    and the server node is read, or else the root node is. *)
Definition attempt_succeeds (a : attempt) : bool :=
  a.(connect_ok) && (a.(server_node_ok) || a.(root_node_ok)).

Definition max_retries : nat := 5.
Definition initial_retry_delay : float := 2%float.

(** The [for attempt in range(max_retries)] loop, from a given attempt on.
    [None] is what a Python function returns when it falls off its end. *)
Fixpoint connect_loop (attempts : list nat) (retry_delay : float)
    (bus : nat -> attempt) (self : t) : t * option bool * list Trace.event :=
  match attempts with
  | [] => (self, None, [])
  | attempt :: rest =>
      let self := count_attempt self in
      if attempt_succeeds (bus attempt) then
        (set_connected self true, Some true, [])
      else if (attempt <? max_retries - 1)%nat then
        let '(self', r, tr) :=
          connect_loop rest (PrimFloat.mul retry_delay 1.5%float) bus self in
        (self', r, Trace.Sleep retry_delay :: tr)
      else
        (self, Some false, [])
  end.

Definition connect (bus : nat -> attempt) (self : t)
    : t * option bool * list Trace.event :=
  connect_loop (seq 0 max_retries) initial_retry_delay bus self.

(** *** read_sensor_data *)

(** What the bus returns for one sensor when its value can be read; the
    optional nodes may be missing or unreadable. *)
Record sample : Type := mkSample {
  sample_value : float;
  sample_quality : option Z;
  sample_status : option string;
  sample_timestamp : option Z
}.

Definition _get_sensor_unit (sensor_type : string) : string :=
  if String.eqb sensor_type "temperature" then "°C"
  else if String.eqb sensor_type "pressure" then "bar"
  else if String.eqb sensor_type "vibration" then "mm/s"
  else "unknown".

Definition default {A : Type} (d : A) (o : option A) : A :=
  match o with Some a => a | None => d end.

(** One turn of the loop over [self.sensor_nodes]: [None] from the bus is
    a value that could not be read. *)
Definition read_sensor (cfg : DAQConfig.t) (current_time : Z)
    (bus : string -> option sample)
    (acc : list Reading.t * Stats) (sensor_type : string)
    : list Reading.t * Stats :=
  let '(readings, s) := acc in
  match bus sensor_type with
  | Some x =>
      let reading :=
        Reading.acquired (default current_time x.(sample_timestamp)) cfg
          sensor_type x.(sample_value) (_get_sensor_unit sensor_type)
          (default 100%Z x.(sample_quality)) (default "OK" x.(sample_status)) in
      (readings ++ [reading],
       mkStats s.(total_readings) (s.(successful_readings) + 1)
               s.(failed_readings) s.(last_reading_time)
               s.(connection_attempts))
  | None =>
      (readings,
       mkStats s.(total_readings) s.(successful_readings)
               (s.(failed_readings) + 1) s.(last_reading_time)
               s.(connection_attempts))
  end.

Definition read_sensor_data (cfg : DAQConfig.t) (current_time : Z)
    (bus : string -> option sample) (self : t) : t * list Reading.t :=
  if negb self.(connected) then (self, [])
  else
    let '(readings, s) :=
      fold_left (read_sensor cfg current_time bus) self.(sensor_nodes)
                ([], self.(stats)) in
    (set_stats self
       (mkStats (s.(total_readings) + N.of_nat (List.length readings))
                s.(successful_readings) s.(failed_readings)
                (Some current_time) s.(connection_attempts)),
     readings).

(** *** store_readings *)

Definition store_readings (cfg : DAQConfig.t) (db_ok : bool)
    (readings : list Reading.t) (self : t) : t * bool * list Trace.event :=
  match readings with
  | [] => (self, true, [])
  | _ :: _ =>
      let buffer := self.(data_buffer) ++ readings in
      if (cfg.(DAQConfig.batch_size) <=? Py.len buffer)%Z then
        let inserted_count := SensorDatabase.insert_batch_readings db_ok buffer in
        if (0 <? inserted_count)%Z then
          (set_data_buffer self [], true, [Trace.InsertBatch buffer])
        else
          let buffer' :=
            if (cfg.(DAQConfig.max_buffer_size) <? Py.len buffer)%Z then
              let overflow := (Py.len buffer - cfg.(DAQConfig.max_buffer_size))%Z in
              Py.drop_first overflow buffer
            else buffer in
          (set_data_buffer self buffer', false, [Trace.InsertBatch buffer])
      else
        (set_data_buffer self buffer, true, [])
  end.

(** *** get_statistics *)

Record Statistics : Type := mkStatistics {
  counters : Stats;
  success_rate : Py.number;
  is_connected : bool;
  buffer_size : Z;
  sensors_mapped : Z
}.

Definition get_statistics (self : t) : Py.result Statistics :=
  success_rate <-
    (if (0 <? self.(stats).(total_readings))%N then
       ratio <- Py.truediv self.(stats).(successful_readings)
                           self.(stats).(total_readings) ;;
       Py.Ok (Py.Float (PrimFloat.mul ratio 100))
     else Py.Ok (Py.Int 0)) ;;
  Py.Ok (mkStatistics self.(stats) success_rate self.(connected)
           (Py.len self.(data_buffer)) (Py.len self.(sensor_nodes))).

(** *** discover_sensor_nodes *)

(** A node of the server's address space as the discovery sees it: its
    display name and its browse name ([None] when reading the name raises)
    and its children ([None] when listing them raises). *)
#[warnings="-register-all"]
Inductive node : Type :=
| Node (display_name : option string) (browse_name : option string)
       (children : option (list node)).

Definition children_of (n : node) : option (list node) :=
  match n with Node _ _ c => c end.

(** The name the [try] / [except] pair obtains: the display name, the
    browse name when that raises, nothing when both raise. *)
Definition name_of (n : node) : option string :=
  match n with
  | Node (Some text) _ _ => Some text
  | Node None (Some name) _ => Some name
  | Node None None _ => None
  end.

(** The first child whose name contains the pattern; children without a
    name are skipped. *)
Fixpoint find_folder (pattern : string) (children : list node) : option node :=
  match children with
  | [] => None
  | child :: rest =>
      match name_of child with
      | Some name =>
          if Py.contains pattern name then Some child
          else find_folder pattern rest
      | None => find_folder pattern rest
      end
  end.

Definition _determine_sensor_type (display_name : string) : option string :=
  let display_name_lower := Py.lower display_name in
  if Py.contains "temperature" display_name_lower
     || Py.contains "temp" display_name_lower
  then Some "temperature"
  else if Py.contains "pressure" display_name_lower
          || Py.contains "press" display_name_lower
  then Some "pressure"
  else if Py.contains "vibration" display_name_lower
          || Py.contains "vib" display_name_lower
  then Some "vibration"
  else None.

(** ['value' in sensor_nodes], the keys being the lower-cased names of the
    children that have a name. *)
Definition has_value_node (nodes : list node) : bool :=
  existsb (fun n => match name_of n with
                    | Some name => String.eqb (Py.lower name) "value"
                    | None => false
                    end) nodes.

(** [self.sensor_nodes[sensor_type] = ...]: a new key goes last, a known
    key keeps its place. *)
Definition map_sensor (mapped : list string) (sensor_type : string) : list string :=
  if existsb (String.eqb sensor_type) mapped then mapped
  else mapped ++ [sensor_type].

(** The loop over the sensor folders; [false] is an exception, which leaves
    the loop with what has been mapped so far. *)
Fixpoint discover_loop (sensor_folders : list node) (mapped : list string)
    : list string * bool :=
  match sensor_folders with
  | [] => (mapped, true)
  | sensor_folder :: rest =>
      match name_of sensor_folder with
      | None => discover_loop rest mapped
      | Some sensor_name_text =>
          match children_of sensor_folder with
          | None => (mapped, false)
          | Some nodes =>
              if has_value_node nodes then
                match _determine_sensor_type sensor_name_text with
                | Some sensor_type =>
                    discover_loop rest (map_sensor mapped sensor_type)
                | None => discover_loop rest mapped
                end
              else discover_loop rest mapped
          end
      end
  end.

Definition set_sensor_nodes (self : t) (mapped : list string) : t :=
  mk self.(connected) mapped self.(data_buffer) self.(stats).

(** [objects] is the list of children of the objects node, [None] when
    obtaining it raises. *)
Definition discover_sensor_nodes (cfg : DAQConfig.t)
    (objects : option (list node)) (self : t) : t * bool :=
  if negb self.(connected) then (self, false)
  else
    match objects with
    | None => (self, false)
    | Some children =>
        match find_folder ("Machine_" ++ cfg.(DAQConfig.machine_id)) children with
        | None => (self, false)
        | Some machine_folder =>
            match children_of machine_folder with
            | None => (self, false)
            | Some machine_children =>
                match find_folder "Sensors" machine_children with
                | None => (self, false)
                | Some sensors_folder =>
                    match children_of sensors_folder with
                    | None => (self, false)
                    | Some sensor_folders =>
                        let '(mapped, completed) :=
                          discover_loop sensor_folders self.(sensor_nodes) in
                        if completed then
                          (set_sensor_nodes self mapped,
                           (0 <? List.length mapped)%nat)
                        else (set_sensor_nodes self mapped, false)
                    end
                end
            end
        end
    end.

(** *** disconnect *)

(** [bus_ok] says whether the client's own disconnect goes through; the
    answer of the database to the last batch is not looked at.  A connected
    client has its [self.client] set, by [connect]. *)
Definition disconnect (bus_ok : bool) (self : t) : t * list Trace.event :=
  if self.(connected) then
    let '(self, tr) :=
      match self.(data_buffer) with
      | _ :: _ =>
          (set_data_buffer self [], [Trace.InsertBatch self.(data_buffer)])
      | [] => (self, [])
      end in
    if bus_ok then (set_connected self false, tr) else (self, tr)
  else (self, []).

End IndustrialOPCClient.

(** ** The orchestrator ([daq_system/main.py]) *)

Module IndustrialDAQSystem.

Inductive Severity : Type := LOW | MEDIUM | HIGH | CRITICAL.

(** The formatted messages, kept as their arguments. *)
Inductive text : Type :=
| OutOfRangeText (value : float) (unit_ : string)
| HighVibrationText (value : float)
| LowQualityText (quality : Z)
| OtherAnomalyText (anomaly_type : string)
| DeviationText (deviation : float)
| ChangeText (change_rate : float) (unit_ : string)
| RapidChangeText (rapid_change : text).

Record Anomaly : Type := mkAnomaly {
  timestamp : Z;
  machine_id : string;
  sensor_type : string;
  value : float;
  anomaly_type : string;
  severity : Severity;
  description : text
}.

Record Stats : Type := mkStats {
  total_cycles : N;
  successful_cycles : N;
  failed_cycles : N;
  total_data_points : N;
  anomalies_detected : N
}.

Record t : Type := mk {
  running : bool;
  paused : bool;
  stats : Stats;
  data_history : list Reading.t;
  anomaly_buffer : list Anomaly;
  opc_client : IndustrialOPCClient.t      (* the module-level client *)
}.

(** [IndustrialDAQSystem()] *)
Definition init : t :=
  mk false false (mkStats 0 0 0 0 0) [] [] IndustrialOPCClient.init.

Definition set_stats (self : t) (s : Stats) : t :=
  mk self.(running) self.(paused) s self.(data_history)
     self.(anomaly_buffer) self.(opc_client).

Definition set_data_history (self : t) (h : list Reading.t) : t :=
  mk self.(running) self.(paused) self.(stats) h
     self.(anomaly_buffer) self.(opc_client).

Definition set_anomaly_buffer (self : t) (b : list Anomaly) : t :=
  mk self.(running) self.(paused) self.(stats) self.(data_history)
     b self.(opc_client).

Definition set_opc_client (self : t) (c : IndustrialOPCClient.t) : t :=
  mk self.(running) self.(paused) self.(stats) self.(data_history)
     self.(anomaly_buffer) c.

Definition set_running (self : t) (b : bool) : t :=
  mk b self.(paused) self.(stats) self.(data_history)
     self.(anomaly_buffer) self.(opc_client).



(** *** validate_readings *)

(** The body of the [try]: [Ok None] is the [continue] of the quality
    check, [Ok (Some r)] the reading that is appended.  The quality key is
    always present, so the default of [reading.get('quality', 100)] is
    never taken. *)
Definition check_reading (cfg : DAQConfig.t) (reading : Reading.t)
    : Py.result (option Reading.t) :=
  sensor_type <- Py.getitem "sensor_type" reading.(Reading.sensor_type) ;;
  value <- Py.getitem "value" reading.(Reading.value) ;;
  let quality := reading.(Reading.quality) in
  if (quality <? cfg.(DAQConfig.min_quality_threshold))%Z then Py.Ok None
  else
    Py.Ok (Some (
      if String.eqb sensor_type "temperature" then
        if negb (Py.between cfg.(DAQConfig.temperature_min) value
                            cfg.(DAQConfig.temperature_max))
        then Reading.set_anomaly reading "OUT_OF_RANGE" else reading
      else if String.eqb sensor_type "pressure" then
        if negb (Py.between cfg.(DAQConfig.pressure_min) value
                            cfg.(DAQConfig.pressure_max))
        then Reading.set_anomaly reading "OUT_OF_RANGE" else reading
      else if String.eqb sensor_type "vibration" then
        if PrimFloat.ltb cfg.(DAQConfig.vibration_max) value
        then Reading.set_anomaly reading "HIGH_VIBRATION" else reading
      else reading)).

(** One turn of the [for] loop; an exception is logged and skipped. *)
Definition validate_step (cfg : DAQConfig.t) (validated : list Reading.t)
    (reading : Reading.t) : list Reading.t :=
  match check_reading cfg reading with
  | Py.Ok (Some r) => validated ++ [r]
  | Py.Ok None => validated
  | Py.Raise _ => validated
  end.

Definition validate_readings (cfg : DAQConfig.t) (readings : list Reading.t)
    : list Reading.t :=
  fold_left (validate_step cfg) readings [].

(** *** calculate_moving_average *)

(** [[point['value'] for point in points
      if point.get('sensor_type') == sensor_type]] *)
Fixpoint values_of_type (points : list Reading.t) (sensor_type : string)
    : Py.result (list float) :=
  match points with
  | [] => Py.Ok []
  | point :: rest =>
      if Reading.has_type point sensor_type then
        v <- Py.getitem "value" point.(Reading.value) ;;
        vs <- values_of_type rest sensor_type ;;
        Py.Ok (v :: vs)
      else values_of_type rest sensor_type
  end.

Definition calculate_moving_average (self : t) (sensor_type : string)
    (current_value : float) (window : nat) : Py.result float :=
  sensor_history <- values_of_type self.(data_history) sensor_type ;;
  let sensor_history := sensor_history ++ [current_value] in
  let recent_values := Py.last_n window sensor_history in
  match recent_values with
  | _ :: _ =>
      Py.Ok (PrimFloat.div (Py.sum recent_values)
                           (Py.float_of_nat (List.length recent_values)))
  | [] => Py.Ok current_value
  end.

(** *** process_readings *)

(** The body of the [try]. *)
Definition enrich (self : t) (now : Z) (reading : Reading.t)
    : Py.result Reading.t :=
  let processed_reading := Reading.set_processed_at reading now in
  sensor_type <- Py.getitem "sensor_type" reading.(Reading.sensor_type) ;;
  value <- Py.getitem "value" reading.(Reading.value) ;;
  moving_avg <- calculate_moving_average self sensor_type value 5 ;;
  let processed_reading :=
    Reading.set_moving_average processed_reading moving_avg in
  let processed_reading :=
    if Py.truthy moving_avg then
      let deviation := PrimFloat.abs (PrimFloat.sub value moving_avg) in
      let processed_reading :=
        Reading.set_deviation_from_avg processed_reading deviation in
      if PrimFloat.ltb (PrimFloat.mul moving_avg 0.1%float) deviation
      then Reading.set_high_deviation processed_reading
      else processed_reading
    else processed_reading in
  Py.Ok (Reading.set_metadata processed_reading "1.0" "DAQ_001").

(** One turn of the [for] loop: on an exception the original reading is
    appended. *)
Definition process_step (self : t) (now : Z) (processed : list Reading.t)
    (reading : Reading.t) : list Reading.t :=
  match enrich self now reading with
  | Py.Ok processed_reading => processed ++ [processed_reading]
  | Py.Raise _ => processed ++ [reading]
  end.

Definition process_readings (now : Z) (readings : list Reading.t) (self : t)
    : t * list Reading.t :=
  let processed := fold_left (process_step self now) readings [] in
  let history := self.(data_history) ++ processed in
  let history :=
    if (1000 <? List.length history)%nat then Py.last_n 1000 history
    else history in
  (set_data_history self history, processed).

(** *** detect_anomalies *)

Definition _calculate_severity (reading : Reading.t) : Py.result Severity :=
  let anomaly_type := IndustrialOPCClient.default "" reading.(Reading.anomaly) in
  sensor_type <- Py.getitem "sensor_type" reading.(Reading.sensor_type) ;;
  value <- Py.getitem "value" reading.(Reading.value) ;;
  if String.eqb anomaly_type "OUT_OF_RANGE" then
    if String.eqb sensor_type "temperature" then
      if PrimFloat.ltb 35%float value || PrimFloat.ltb value 20%float
      then Py.Ok HIGH else Py.Ok MEDIUM
    else if String.eqb sensor_type "pressure" then
      if PrimFloat.ltb 1.8%float value || PrimFloat.ltb value 1%float
      then Py.Ok HIGH else Py.Ok MEDIUM
    else Py.Ok LOW
  else if String.eqb anomaly_type "HIGH_VIBRATION" then
    if PrimFloat.ltb 2%float value then Py.Ok CRITICAL else Py.Ok HIGH
  else Py.Ok LOW.

Definition _get_anomaly_description (anomaly_type : string)
    (reading : Reading.t) : Py.result text :=
  value <- Py.getitem "value" reading.(Reading.value) ;;
  if String.eqb anomaly_type "OUT_OF_RANGE"
  then Py.Ok (OutOfRangeText value reading.(Reading.unit_))
  else if String.eqb anomaly_type "HIGH_VIBRATION"
  then Py.Ok (HighVibrationText value)
  else if String.eqb anomaly_type "LOW_QUALITY"
  then Py.Ok (LowQualityText reading.(Reading.quality))
  else Py.Ok (OtherAnomalyText anomaly_type).

(** The per-type thresholds, [thresholds.get(sensor_type, 1.0)]. *)
Definition rapid_change_threshold (sensor_type : string) : float :=
  if String.eqb sensor_type "temperature" then 5%float
  else if String.eqb sensor_type "pressure" then 0.3%float
  else if String.eqb sensor_type "vibration" then 0.5%float
  else 1%float.

(** [None] is Python's [None]; [Some] carries the message. *)
Definition _detect_rapid_change (self : t) (reading : Reading.t)
    : Py.result (option text) :=
  sensor_type <- Py.getitem "sensor_type" reading.(Reading.sensor_type) ;;
  current_value <- Py.getitem "value" reading.(Reading.value) ;;
  previous_values <-
    values_of_type (Py.last_n 10 self.(data_history)) sensor_type ;;
  if (2 <=? List.length previous_values)%nat then
    let last_value := last previous_values 0%float in
    let change_rate := PrimFloat.abs (PrimFloat.sub current_value last_value) in
    let threshold := rapid_change_threshold sensor_type in
    if PrimFloat.ltb threshold change_rate
    then Py.Ok (Some (ChangeText change_rate reading.(Reading.unit_)))
    else Py.Ok None
  else Py.Ok None.

(** A string is true unless it is empty. *)
Definition truthy_tag (tag : option string) : bool :=
  match tag with
  | Some s => negb (String.eqb s "")
  | None => false
  end.

(** The three [if] blocks of the loop body, each returning what it
    appends. *)
Definition tagged_anomaly (reading : Reading.t) : Py.result (list Anomaly) :=
  if truthy_tag reading.(Reading.anomaly) then
    sensor_type <- Py.getitem "sensor_type" reading.(Reading.sensor_type) ;;
    value <- Py.getitem "value" reading.(Reading.value) ;;
    anomaly_type <- Py.getitem "anomaly" reading.(Reading.anomaly) ;;
    severity <- _calculate_severity reading ;;
    description <- _get_anomaly_description anomaly_type reading ;;
    Py.Ok [mkAnomaly reading.(Reading.timestamp) reading.(Reading.machine_id)
             sensor_type value anomaly_type severity description]
  else Py.Ok [].

Definition deviation_anomaly (reading : Reading.t) : Py.result (list Anomaly) :=
  if reading.(Reading.high_deviation) then
    sensor_type <- Py.getitem "sensor_type" reading.(Reading.sensor_type) ;;
    value <- Py.getitem "value" reading.(Reading.value) ;;
    Py.Ok [mkAnomaly reading.(Reading.timestamp) reading.(Reading.machine_id)
             sensor_type value "HIGH_DEVIATION" MEDIUM
             (DeviationText (IndustrialOPCClient.default 0%float
                               reading.(Reading.deviation_from_avg)))]
  else Py.Ok [].

Definition rapid_change_anomaly (self : t) (reading : Reading.t)
    : Py.result (list Anomaly) :=
  rapid_change <- _detect_rapid_change self reading ;;
  match rapid_change with
  | Some message =>
      sensor_type <- Py.getitem "sensor_type" reading.(Reading.sensor_type) ;;
      value <- Py.getitem "value" reading.(Reading.value) ;;
      Py.Ok [mkAnomaly reading.(Reading.timestamp) reading.(Reading.machine_id)
               sensor_type value "RAPID_CHANGE" HIGH (RapidChangeText message)]
  | None => Py.Ok []
  end.

(** One turn of the [for] loop: what was appended before an exception
    stays appended. *)
Definition detect_step (self : t) (anomalies : list Anomaly)
    (reading : Reading.t) : list Anomaly :=
  match tagged_anomaly reading with
  | Py.Raise _ => anomalies
  | Py.Ok a1 =>
      let anomalies := anomalies ++ a1 in
      match deviation_anomaly reading with
      | Py.Raise _ => anomalies
      | Py.Ok a2 =>
          let anomalies := anomalies ++ a2 in
          match rapid_change_anomaly self reading with
          | Py.Raise _ => anomalies
          | Py.Ok a3 => anomalies ++ a3
          end
      end
  end.

Definition count_anomalies (self : t) (n : nat) : t :=
  let s := self.(stats) in
  set_stats self
    (mkStats s.(total_cycles) s.(successful_cycles) s.(failed_cycles)
             s.(total_data_points) (s.(anomalies_detected) + N.of_nat n)).

Definition detect_anomalies (readings : list Reading.t) (self : t)
    : t * list Anomaly :=
  let anomalies := fold_left (detect_step self) readings [] in
  match anomalies with
  | _ :: _ => (count_anomalies self (List.length anomalies), anomalies)
  | [] => (self, anomalies)
  end.

(** *** handle_anomalies *)

(** The record [_store_anomaly] sends to the database. *)
Definition anomaly_record (cfg : DAQConfig.t) (anomaly : Anomaly) : Reading.t :=
  Reading.mk anomaly.(timestamp) anomaly.(machine_id) (Some "anomaly")
    cfg.(DAQConfig.location) (Some 1%float) "count" 100 anomaly.(anomaly_type)
    None None None None false None None.

Definition handle_step (cfg : DAQConfig.t) (acc : t * list Trace.event)
    (anomaly : Anomaly) : t * list Trace.event :=
  let '(self, tr) := acc in
  (set_anomaly_buffer self (self.(anomaly_buffer) ++ [anomaly]),
   tr ++ [Trace.InsertReading (anomaly_record cfg anomaly)]).

Definition handle_anomalies (cfg : DAQConfig.t) (anomalies : list Anomaly)
    (self : t) : t * list Trace.event :=
  fold_left (handle_step cfg) anomalies (self, []).

(** *** statistics and maintenance *)

Definition count_cycle (self : t) : t :=
  let s := self.(stats) in
  set_stats self
    (mkStats (s.(total_cycles) + 1) s.(successful_cycles) s.(failed_cycles)
             s.(total_data_points) s.(anomalies_detected)).

Definition count_success (self : t) : t :=
  let s := self.(stats) in
  set_stats self
    (mkStats s.(total_cycles) (s.(successful_cycles) + 1) s.(failed_cycles)
             s.(total_data_points) s.(anomalies_detected)).

(** The wall-clock fields (uptime, cycle duration) are left out. *)
Definition update_statistics (readings : list Reading.t)
    (storage_success : bool) (self : t) : t :=
  let s := self.(stats) in
  set_stats self
    (mkStats s.(total_cycles) s.(successful_cycles) s.(failed_cycles)
             (s.(total_data_points) + N.of_nat (List.length readings))
             s.(anomalies_detected)).

Definition maintenance_tasks (self : t) : t :=
  if (100 <? List.length self.(anomaly_buffer))%nat
  then set_anomaly_buffer self (Py.last_n 100 self.(anomaly_buffer))
  else self.

Record Statistics : Type := mkStatistics {
  counters : Stats;
  success_rate : Py.number;
  opc_client_statistics : IndustrialOPCClient.Statistics
}.

(** The uptime and the database statistics, which come from the clock and
    from the storage engine, are left out. *)
Definition get_detailed_statistics (self : t) : Py.result Statistics :=
  success_rate <-
    (if (0 <? self.(stats).(total_cycles))%N then
       ratio <- Py.truediv self.(stats).(successful_cycles)
                           self.(stats).(total_cycles) ;;
       Py.Ok (Py.Float (PrimFloat.mul ratio 100))
     else Py.Ok (Py.Int 0)) ;;
  opc_stats <- IndustrialOPCClient.get_statistics self.(opc_client) ;;
  Py.Ok (mkStatistics self.(stats) success_rate opc_stats).

(** *** acquisition_cycle *)

(** What the outside answers during one cycle: the clock, the bus for each
    sensor, and whether the database accepts a batch. *)
Record tick : Type := mkTick {
  tick_now : Z;
  tick_bus : string -> option IndustrialOPCClient.sample;
  tick_db_ok : bool
}.

Definition acquisition_cycle (cfg : DAQConfig.t) (x : tick) (self : t)
    : t * bool * list Trace.event :=
  let self := count_cycle self in
  let '(client, readings) :=
    IndustrialOPCClient.read_sensor_data cfg x.(tick_now) x.(tick_bus)
      self.(opc_client) in
  let self := set_opc_client self client in
  match readings with
  | [] => (self, false, [])
  | _ :: _ =>
      let validated_readings := validate_readings cfg readings in
      match validated_readings with
      | [] => (self, false, [])
      | _ :: _ =>
          let '(self, processed_readings) :=
            process_readings x.(tick_now) validated_readings self in
          let '(self, anomalies) := detect_anomalies processed_readings self in
          let '(self, tr1) :=
            match anomalies with
            | _ :: _ => handle_anomalies cfg anomalies self
            | [] => (self, [])
            end in
          let '(client, storage_success, tr2) :=
            IndustrialOPCClient.store_readings cfg x.(tick_db_ok)
              processed_readings self.(opc_client) in
          let self := set_opc_client self client in
          let self := update_statistics processed_readings storage_success self in
          let self := maintenance_tasks self in
          if storage_success
          then (count_success self, true, tr1 ++ tr2)
          else (self, false, tr1 ++ tr2)
      end
  end.

(** *** run *)

Definition max_consecutive_failures : N := 5.

(** The [if cycle_success: ... else: ...] statement of the loop: the new
    counter and the pause it takes. *)
Definition governor (cycle_success : bool) (consecutive_failures : N)
    : N * list Trace.event :=
  if cycle_success then (0%N, [])
  else
    let consecutive_failures := (consecutive_failures + 1)%N in
    if (max_consecutive_failures <=? consecutive_failures)%N
    then (0%N, [Trace.Sleep 30%float])
    else (consecutive_failures, []).

(** One turn of [while self.running]: the body of the [try] and, where it
    raises, the [except Exception] branch.  [acquisition_cycle] catches
    what its own body raises, and [time.sleep] accepts the constants 30, 1
    and 5 (lemma [constant_sleeps_accepted]).  The call that can raise is
    [time.sleep(settings.daq.acquisition_interval)]: [Config.validate] only
    asks the interval to be positive, which an interval of [1e10] or of
    [inf] is.  The call then raises without sleeping, the state the cycle
    left and the counter the governor left are kept, and the handler adds
    1 to the counter and sleeps 5 seconds.  [KeyboardInterrupt] and the
    signal handlers of [main] come from outside the loop and are not
    modelled. *)
Definition run_iteration (cfg : DAQConfig.t) (x : tick) (st : t * N)
    : t * N * list Trace.event :=
  let '(self, consecutive_failures) := st in
  if negb self.(paused) then
    let '(self, cycle_success, tr) := acquisition_cycle cfg x self in
    let '(consecutive_failures, pause_tr) :=
      governor cycle_success consecutive_failures in
    if Py.sleep_ok cfg.(DAQConfig.acquisition_interval) then
      (self, consecutive_failures,
       tr ++ pause_tr ++ [Trace.Sleep cfg.(DAQConfig.acquisition_interval)])
    else
      (self, (consecutive_failures + 1)%N,
       tr ++ pause_tr ++ [Trace.Sleep 5%float])
  else
    (self, consecutive_failures, [Trace.Sleep 1%float]).

(** [while self.running]: the turns the loop takes on the given answers of
    the outside.  The flag is tested before every turn; the loop ends when
    it is found cleared, or here when the answers run out. *)
Fixpoint run_loop (cfg : DAQConfig.t) (ticks : list tick) (st : t * N)
    : t * N * list Trace.event :=
  match ticks with
  | [] => (st, [])
  | x :: rest =>
      if (fst st).(running) then
        let '(st', tr) := run_iteration cfg x st in
        let '(st'', tr') := run_loop cfg rest st' in
        (st'', tr ++ tr')
      else (st, [])
  end.

Definition run (cfg : DAQConfig.t) (ticks : list tick) (self : t)
    : t * N * list Trace.event :=
  run_loop cfg ticks (set_running self true, 0%N).

(** *** initialize *)

(** What the outside answers during the start-up. *)
Record startup : Type := mkStartup {
  startup_db_reachable : bool;
  startup_connect_bus : nat -> IndustrialOPCClient.attempt;
  startup_objects : option (list IndustrialOPCClient.node);
  startup_now : Z;
  startup_bus : string -> option IndustrialOPCClient.sample
}.

(** The start time it records is a wall-clock field and is left out. *)
Definition initialize (settings : Config.t) (x : startup) (self : t)
    : t * bool * list Trace.event :=
  if negb (Config.validate settings) then (self, false, [])
  else if negb x.(startup_db_reachable) then (self, false, [])
  else
    let '(client, connected, tr) :=
      IndustrialOPCClient.connect x.(startup_connect_bus) self.(opc_client) in
    let self := set_opc_client self client in
    match connected with
    | Some true =>
        let '(client, discovered) :=
          IndustrialOPCClient.discover_sensor_nodes settings.(Config.daq)
            x.(startup_objects) self.(opc_client) in
        let self := set_opc_client self client in
        if negb discovered then (self, false, tr)
        else
          let '(client, test_readings) :=
            IndustrialOPCClient.read_sensor_data settings.(Config.daq)
              x.(startup_now) x.(startup_bus) self.(opc_client) in
          let self := set_opc_client self client in
          match test_readings with
          | [] => (self, false, tr)
          | _ :: _ => (self, true, tr)
          end
    | _ => (self, false, tr)
    end.

(** *** shutdown *)

(** [log_statistics] only reads and logs, and is left out. *)
Definition shutdown (bus_ok : bool) (self : t) : t * list Trace.event :=
  let self := set_running self false in
  let '(client, tr) := IndustrialOPCClient.disconnect bus_ok self.(opc_client) in
  let self := set_opc_client self client in
  match self.(opc_client).(IndustrialOPCClient.data_buffer) with
  | _ :: _ =>
      (self,
       tr ++ [Trace.InsertBatch self.(opc_client).(IndustrialOPCClient.data_buffer)])
  | [] => (self, tr)
  end.

End IndustrialDAQSystem.

(** ** The sensor simulator ([opc_server/opc_server.py]) *)

(** The address space is the one the client browses.  The library gives a
    folder, a variable or a property the name it is added with, as display
    name and as browse name, and lists children in the order they were
    added. *)
Module IndustrialOPCServer.

(** An entry of [settings.opc_server.sensors]. *)
Record SensorConfig : Type := mkSensorConfig {
  name : string;
  unit_ : string;
  min_value : float;
  max_value : float;
  base_value : float;
  noise_factor : float
}.

(** The sensors simulated when nothing else is configured, by key. *)
Definition default_sensors : list (string * SensorConfig) :=
  [ ("temperature",
     mkSensorConfig "Temperature Sensor" "°C" 15 45 25 2);
    ("pressure",
     mkSensorConfig "Pressure Sensor" "bar" 0.8 2.5 1.2 0.1);
    ("vibration",
     mkSensorConfig "Vibration Sensor" "mm/s" 0.1 3 0.8 0.2) ]%float.

(** *** create_sensor_nodes *)

(** A variable or property node: it has its name and no children. *)
Definition variable (name : string) : IndustrialOPCClient.node :=
  IndustrialOPCClient.Node (Some name) (Some name) (Some []).

(** A folder shows the name it was added with. *)
Definition folder (name : string) (children : list IndustrialOPCClient.node)
    : IndustrialOPCClient.node :=
  IndustrialOPCClient.Node (Some name) (Some name) (Some children).

(** The folder of one sensor, with the five nodes added to it. *)
Definition sensor_folder (entry : string * SensorConfig)
    : IndustrialOPCClient.node :=
  folder (snd entry).(name)
    [variable "Value"; variable "Unit"; variable "Quality";
     variable "Timestamp"; variable "Status"].

(** The children of the objects node after the call: the machine folder
    is added after those that were there. *)
Definition create_sensor_nodes (cfg : DAQConfig.t)
    (sensors : list (string * SensorConfig))
    (objects : list IndustrialOPCClient.node) : list IndustrialOPCClient.node :=
  objects
  ++ [folder ("Machine_" ++ cfg.(DAQConfig.machine_id))
        [folder "Sensors" (map sensor_folder sensors)]].

(** *** calculate_realistic_value *)

(** What the clock and the random generator give during one call: the two
    sines of the elapsed time and the numbers drawn. *)
Record draws : Type := mkDraws {
  cycle_sine : float;       (* math.sin(2 * math.pi * time_offset / cycle_duration) *)
  trend_sine : float;       (* math.sin(2 * math.pi * time_offset / (cycle_duration * 4)) *)
  noise_draw : float;       (* random.uniform(-1, 1) *)
  degrade_draw : float;     (* random.random() *)
  quality_loss : Z;         (* random.randint(10, 30) *)
  extreme_loss : Z;         (* random.randint(5, 15) *)
  warning_draw : float;     (* random.random() *)
  error_draw : float;       (* random.random() *)
  error_quality : Z         (* random.randint(0, 50) *)
}.

Definition calculate_realistic_value (config : SensorConfig) (d : draws)
    : Py.result (float * Z * string) :=
  let cycle_factor := d.(cycle_sine) in
  let trend_factor := PrimFloat.mul 0.1 d.(trend_sine) in
  let noise := PrimFloat.mul d.(noise_draw) config.(noise_factor) in
  let calculated_value :=
    PrimFloat.add
      (PrimFloat.add
         (PrimFloat.add config.(base_value)
            (PrimFloat.mul (PrimFloat.mul cycle_factor config.(noise_factor)) 2))
         (PrimFloat.mul trend_factor config.(noise_factor)))
      noise in
  let calculated_value :=
    Py.max2 config.(min_value)
      (Py.min2 config.(max_value) calculated_value) in
  let base_quality := 100%Z in
  let base_quality :=
    if PrimFloat.ltb d.(degrade_draw) 0.05
    then (base_quality - d.(quality_loss))%Z else base_quality in
  let value_range := PrimFloat.sub config.(max_value) config.(min_value) in
  if PrimFloat.eqb value_range 0 then Py.Raise Py.ZeroDivisionError
  else
    let value_position :=
      PrimFloat.div (PrimFloat.sub calculated_value config.(min_value))
                    value_range in
    let base_quality :=
      if PrimFloat.ltb value_position 0.1 || PrimFloat.ltb 0.9 value_position
      then (base_quality - d.(extreme_loss))%Z else base_quality in
    let quality := Z.max 70 (Z.min 100 base_quality) in
    let status :=
      if (quality <? 80)%Z then "WARNING"
      else if PrimFloat.ltb (PrimFloat.mul config.(max_value) 0.9) calculated_value
              || PrimFloat.ltb calculated_value
                               (PrimFloat.mul config.(min_value) 1.1)
      then (if PrimFloat.ltb d.(warning_draw) 0.3 then "WARNING" else "OK")
      else "OK" in
    if PrimFloat.ltb d.(error_draw) 0.001
    then Py.Ok (calculated_value, d.(error_quality), "ERROR")
    else Py.Ok (calculated_value, quality, status).

End IndustrialOPCServer.


(** ** Readings of the loops used in the statements *)

(** *** validate_readings *)

(** What one turn of the validation loop appends. *)
Definition validated_of (cfg : DAQConfig.t) (reading : Reading.t)
    : list Reading.t :=
  match IndustrialDAQSystem.check_reading cfg reading with
  | Py.Ok (Some r) => [r]
  | _ => []
  end.

(** The quality check of the loop, on a reading that has its keys. *)
Definition passes_quality (cfg : DAQConfig.t) (reading : Reading.t) : bool :=
  SensorDatabase.row_complete reading
  && (cfg.(DAQConfig.min_quality_threshold) <=? reading.(Reading.quality))%Z.

(** What the loop appends for a reading that has its keys and passes the
    quality check. *)
Definition range_tagged (cfg : DAQConfig.t) (reading : Reading.t)
    (sensor_type : string) (value : float) : Reading.t :=
  if String.eqb sensor_type "temperature" then
    if negb (Py.between cfg.(DAQConfig.temperature_min) value
                        cfg.(DAQConfig.temperature_max))
    then Reading.set_anomaly reading "OUT_OF_RANGE" else reading
  else if String.eqb sensor_type "pressure" then
    if negb (Py.between cfg.(DAQConfig.pressure_min) value
                        cfg.(DAQConfig.pressure_max))
    then Reading.set_anomaly reading "OUT_OF_RANGE" else reading
  else if String.eqb sensor_type "vibration" then
    if PrimFloat.ltb cfg.(DAQConfig.vibration_max) value
    then Reading.set_anomaly reading "HIGH_VIBRATION" else reading
  else reading.

(** Two readings hold the same value under every key but ['anomaly']. *)
Definition same_but_anomaly (reading r : Reading.t) : Prop :=
  r.(Reading.timestamp) = reading.(Reading.timestamp)
  /\ r.(Reading.machine_id) = reading.(Reading.machine_id)
  /\ r.(Reading.sensor_type) = reading.(Reading.sensor_type)
  /\ r.(Reading.location) = reading.(Reading.location)
  /\ r.(Reading.value) = reading.(Reading.value)
  /\ r.(Reading.unit_) = reading.(Reading.unit_)
  /\ r.(Reading.quality) = reading.(Reading.quality)
  /\ r.(Reading.status) = reading.(Reading.status)
  /\ r.(Reading.processed_at) = reading.(Reading.processed_at)
  /\ r.(Reading.moving_average) = reading.(Reading.moving_average)
  /\ r.(Reading.deviation_from_avg) = reading.(Reading.deviation_from_avg)
  /\ r.(Reading.high_deviation) = reading.(Reading.high_deviation)
  /\ r.(Reading.processing_version) = reading.(Reading.processing_version)
  /\ r.(Reading.daq_system_id) = reading.(Reading.daq_system_id).

(** The list holds the reading with the given tag under ['anomaly'] and
    its other keys untouched. *)
Definition holds_tagged (validated : list Reading.t) (reading : Reading.t)
    (tag : string) : Prop :=
  exists r, In r validated
            /\ r.(Reading.anomaly) = Some tag
            /\ same_but_anomaly reading r.

(** *** calculate_moving_average and process_readings *)

(** The arithmetic mean as the program computes it. *)
Definition arithmetic_mean (values : list float) : float :=
  PrimFloat.div (Py.sum values) (Py.float_of_nat (List.length values)).

(** What one turn of the processing loop appends. *)
Definition processed_of (self : IndustrialDAQSystem.t) (now : Z)
    (reading : Reading.t) : Reading.t :=
  match IndustrialDAQSystem.enrich self now reading with
  | Py.Ok processed_reading => processed_reading
  | Py.Raise _ => reading
  end.

(** *** detect_anomalies *)

(** The record the third block of the detection loop appends. *)
Definition rapid_change_record (reading : Reading.t) (sensor_type : string)
    (value change_rate : float) : IndustrialDAQSystem.Anomaly :=
  IndustrialDAQSystem.mkAnomaly
    reading.(Reading.timestamp) reading.(Reading.machine_id) sensor_type value
    "RAPID_CHANGE" IndustrialDAQSystem.HIGH
    (IndustrialDAQSystem.RapidChangeText
       (IndustrialDAQSystem.ChangeText change_rate reading.(Reading.unit_))).

(** The absolute difference to the most recent of the previous values. *)
Definition change_from (previous_values : list float) (current_value : float)
    : float :=
  PrimFloat.abs (PrimFloat.sub current_value (last previous_values 0%float)).

(** At least two previous values, and a change above the threshold of the
    sensor type. *)
Definition rapid_change_fires (previous_values : list float)
    (sensor_type : string) (current_value : float) : bool :=
  (2 <=? List.length previous_values)%nat
  && PrimFloat.ltb (IndustrialDAQSystem.rapid_change_threshold sensor_type)
                   (change_from previous_values current_value).

(** *** store_readings *)

(** The three components of what [store_readings] returns. *)
Definition buffer_after (cfg : DAQConfig.t) (db_ok : bool)
    (readings : list Reading.t) (self : IndustrialOPCClient.t) : list Reading.t :=
  IndustrialOPCClient.data_buffer
    (fst (fst (IndustrialOPCClient.store_readings cfg db_ok readings self))).

Definition store_result (cfg : DAQConfig.t) (db_ok : bool)
    (readings : list Reading.t) (self : IndustrialOPCClient.t) : bool :=
  snd (fst (IndustrialOPCClient.store_readings cfg db_ok readings self)).

Definition flush_attempts (cfg : DAQConfig.t) (db_ok : bool)
    (readings : list Reading.t) (self : IndustrialOPCClient.t)
    : list Trace.event :=
  snd (IndustrialOPCClient.store_readings cfg db_ok readings self).

(** A sequence of calls, each with the answer the database would give. *)
Fixpoint store_all (cfg : DAQConfig.t) (calls : list (bool * list Reading.t))
    (self : IndustrialOPCClient.t) : IndustrialOPCClient.t :=
  match calls with
  | [] => self
  | (db_ok, readings) :: rest =>
      store_all cfg rest
        (fst (fst (IndustrialOPCClient.store_readings cfg db_ok readings self)))
  end.

(** *** connect *)

(** The delays of the retries, in order. *)
Definition backoff_delays : list float := [2; 3; 4.5; 6.75]%float.

(** The first attempt the bus lets through, if any of the five. *)
Definition first_success (bus : nat -> IndustrialOPCClient.attempt) : option nat :=
  find (fun k => IndustrialOPCClient.attempt_succeeds (bus k))
       (seq 0 IndustrialOPCClient.max_retries).

Definition attempts_made (bus : nat -> IndustrialOPCClient.attempt)
    (self : IndustrialOPCClient.t) : N :=
  ((fst (fst (IndustrialOPCClient.connect bus self)))
     .(IndustrialOPCClient.stats).(IndustrialOPCClient.connection_attempts)
   - self.(IndustrialOPCClient.stats).(IndustrialOPCClient.connection_attempts))%N.

(** *** The main loop *)

(** The readings one cycle acquires, and the client after the read. *)
Definition acquired_readings (cfg : DAQConfig.t) (x : IndustrialDAQSystem.tick)
    (self : IndustrialDAQSystem.t) : list Reading.t :=
  snd (IndustrialOPCClient.read_sensor_data cfg
         x.(IndustrialDAQSystem.tick_now) x.(IndustrialDAQSystem.tick_bus)
         self.(IndustrialDAQSystem.opc_client)).

Definition client_after_read (cfg : DAQConfig.t) (x : IndustrialDAQSystem.tick)
    (self : IndustrialDAQSystem.t) : IndustrialOPCClient.t :=
  fst (IndustrialOPCClient.read_sensor_data cfg
         x.(IndustrialDAQSystem.tick_now) x.(IndustrialDAQSystem.tick_bus)
         self.(IndustrialDAQSystem.opc_client)).


Definition cycle_success (cfg : DAQConfig.t) (x : IndustrialDAQSystem.tick)
    (self : IndustrialDAQSystem.t) : bool :=
  snd (fst (IndustrialDAQSystem.acquisition_cycle cfg x self)).

Definition cycle_trace (cfg : DAQConfig.t) (x : IndustrialDAQSystem.tick)
    (self : IndustrialDAQSystem.t) : list Trace.event :=
  snd (IndustrialDAQSystem.acquisition_cycle cfg x self).

Definition after_cycle (cfg : DAQConfig.t) (x : IndustrialDAQSystem.tick)
    (self : IndustrialDAQSystem.t) : IndustrialDAQSystem.t :=
  fst (fst (IndustrialDAQSystem.acquisition_cycle cfg x self)).

(** The system after the cycles of the given ticks. *)
Definition after_cycles (cfg : DAQConfig.t)
    (ticks : list IndustrialDAQSystem.tick) (self : IndustrialDAQSystem.t)
    : IndustrialDAQSystem.t :=
  fold_left (fun s x => after_cycle cfg x s) ticks self.



(** *** The cycle up to the detection *)

(** What one turn of the reading loop appends. *)
Definition read_of (cfg : DAQConfig.t) (current_time : Z)
    (bus : string -> option IndustrialOPCClient.sample) (sensor_type : string)
    : list Reading.t :=
  match bus sensor_type with
  | Some x =>
      [Reading.acquired
         (IndustrialOPCClient.default current_time
            x.(IndustrialOPCClient.sample_timestamp))
         cfg sensor_type x.(IndustrialOPCClient.sample_value)
         (IndustrialOPCClient._get_sensor_unit sensor_type)
         (IndustrialOPCClient.default 100%Z x.(IndustrialOPCClient.sample_quality))
         (IndustrialOPCClient.default "OK" x.(IndustrialOPCClient.sample_status))]
  | None => []
  end.

(** The cycle up to the detection: the system after [process_readings] and
    the readings it returned. *)
Definition processed_cycle (cfg : DAQConfig.t) (x : IndustrialDAQSystem.tick)
    (self : IndustrialDAQSystem.t) : IndustrialDAQSystem.t * list Reading.t :=
  IndustrialDAQSystem.process_readings x.(IndustrialDAQSystem.tick_now)
    (IndustrialDAQSystem.validate_readings cfg (acquired_readings cfg x self))
    (IndustrialDAQSystem.set_opc_client (IndustrialDAQSystem.count_cycle self)
       (client_after_read cfg x self)).

(** *** Concrete inputs *)

(** A history with the five temperatures of the example, a pressure reading
    in between. *)
Definition example_history : list Reading.t :=
  [ Reading.acquired 1 DAQConfig.default "temperature" 20%float "°C" 100 "OK";
    Reading.acquired 2 DAQConfig.default "temperature" 22%float "°C" 100 "OK";
    Reading.acquired 2 DAQConfig.default "pressure" 1.2%float "bar" 100 "OK";
    Reading.acquired 3 DAQConfig.default "temperature" 24%float "°C" 100 "OK";
    Reading.acquired 4 DAQConfig.default "temperature" 23%float "°C" 100 "OK";
    Reading.acquired 5 DAQConfig.default "temperature" 25%float "°C" 100 "OK" ].

(** A reading to fill buffers with. *)
Definition sample_reading : Reading.t :=
  Reading.acquired 0 DAQConfig.default "temperature" 25%float "°C" 100 "OK".

(** The configuration with the default batch size of 10 and a buffer limit
    of 5. *)
Definition small_buffer_config : DAQConfig.t :=
  DAQConfig.mk "MACHINE_001" "Plant_A_Line_1" 5%float 10 40%float 18%float
    2%float 0.9%float 2.5%float 80 5.

(** A connected client with the three sensors mapped and 8 readings
    waiting in its buffer. *)
Definition three_sensor_client : IndustrialOPCClient.t :=
  IndustrialOPCClient.mk true ["temperature"; "pressure"; "vibration"]
    (repeat sample_reading 8) (IndustrialOPCClient.mkStats 0 0 0 None 1).

(** A bus on which every sensor reads a value inside its range. *)
Definition steady_bus (sensor_type : string) : option IndustrialOPCClient.sample :=
  if String.eqb sensor_type "temperature"
  then Some (IndustrialOPCClient.mkSample 25%float (Some 100%Z) (Some "OK") None)
  else if String.eqb sensor_type "pressure"
  then Some (IndustrialOPCClient.mkSample 1.2%float (Some 100%Z) (Some "OK") None)
  else Some (IndustrialOPCClient.mkSample 0.8%float (Some 100%Z) (Some "OK") None).

(** A cycle during which the database refuses the batch. *)
Definition storage_down : IndustrialDAQSystem.tick :=
  IndustrialDAQSystem.mkTick 10 steady_bus false.

(** A cycle during which the database accepts the batch, and one during
    which the bus answers for no sensor. *)
Definition storage_up : IndustrialDAQSystem.tick :=
  IndustrialDAQSystem.mkTick 10 steady_bus true.

Definition bus_down : IndustrialDAQSystem.tick :=
  IndustrialDAQSystem.mkTick 10 (fun _ => None) true.

Definition ready_system : IndustrialDAQSystem.t :=
  IndustrialDAQSystem.set_opc_client IndustrialDAQSystem.init three_sensor_client.

(** A system that has seen two temperatures of 20.0, with a connected
    client that maps the temperature sensor. *)
Definition settled_system : IndustrialDAQSystem.t :=
  IndustrialDAQSystem.mk false false (IndustrialDAQSystem.mkStats 2 2 0 2 0)
    [ Reading.acquired 1 DAQConfig.default "temperature" 20%float "°C" 100 "OK";
      Reading.acquired 2 DAQConfig.default "temperature" 20%float "°C" 100 "OK" ]
    []
    (IndustrialOPCClient.mk true ["temperature"] []
       (IndustrialOPCClient.mkStats 2 2 0 (Some 2%Z) 1)).

(** A cycle in which the temperature reads 26.0. *)
Definition temperature_jump : IndustrialDAQSystem.tick :=
  IndustrialDAQSystem.mkTick 3
    (fun _ => Some (IndustrialOPCClient.mkSample 26%float (Some 100%Z)
                      (Some "OK") None))
    true.

(** The default settings with an acquisition interval of [inf]. *)
Definition endless_interval_settings : Config.t :=
  Config.mk "localhost" 5431 "industrial_iot" "opc.tcp://localhost:4840"
    (DAQConfig.mk "MACHINE_001" "Plant_A_Line_1" infinity 10 40%float 18%float
       2%float 0.9%float 2.5%float 80 1000).

(** A client whose counters hold 3 readings, 1 of them successful, and a
    system on it whose counters hold 3 cycles, 2 of them successful. *)
Definition one_reading_of_three : IndustrialOPCClient.t :=
  IndustrialOPCClient.set_stats IndustrialOPCClient.init
    (IndustrialOPCClient.mkStats 3 1 2 None 0).

Definition two_cycles_of_three : IndustrialDAQSystem.t :=
  IndustrialDAQSystem.set_stats
    (IndustrialDAQSystem.set_opc_client IndustrialDAQSystem.init
       one_reading_of_three)
    (IndustrialDAQSystem.mkStats 3 2 0 0 0).

(** ** Runs of the client and parts of the cycle *)

(** The bus yields a value for the sensor. *)
Definition readable (bus : string -> option IndustrialOPCClient.sample)
    (sensor_type : string) : bool :=
  match bus sensor_type with Some _ => true | None => false end.

(** *** Calls on the client *)

(** A call on the client, with what the outside answers to it. *)
Inductive client_call : Type :=
| CallConnect (bus : nat -> IndustrialOPCClient.attempt)
| CallDiscover (objects : option (list IndustrialOPCClient.node))
| CallRead (now : Z) (bus : string -> option IndustrialOPCClient.sample)
| CallStore (db_ok : bool) (readings : list Reading.t)
| CallDisconnect (bus_ok : bool).

(** The client after one call. *)
Definition client_step (cfg : DAQConfig.t) (self : IndustrialOPCClient.t)
    (call : client_call) : IndustrialOPCClient.t :=
  match call with
  | CallConnect bus => fst (fst (IndustrialOPCClient.connect bus self))
  | CallDiscover objects =>
      fst (IndustrialOPCClient.discover_sensor_nodes cfg objects self)
  | CallRead now bus => fst (IndustrialOPCClient.read_sensor_data cfg now bus self)
  | CallStore db_ok readings =>
      fst (fst (IndustrialOPCClient.store_readings cfg db_ok readings self))
  | CallDisconnect bus_ok => fst (IndustrialOPCClient.disconnect bus_ok self)
  end.

(** The client after a sequence of calls. *)
Definition client_run (cfg : DAQConfig.t) (calls : list client_call)
    (self : IndustrialOPCClient.t) : IndustrialOPCClient.t :=
  fold_left (client_step cfg) calls self.

(** The sensor types [_determine_sensor_type] can return. *)
Definition known_sensor_types : list string :=
  ["temperature"; "pressure"; "vibration"].

(** Discharges the goals of a discovery that returns early. *)
Ltac unchanged_client :=
  cbn; repeat split; auto using incl_refl; try discriminate; try congruence.

(** What every call keeps: the successes counted equal the total counted,
    and the mapped types are distinct and known. *)
Definition client_invariant (self : IndustrialOPCClient.t) : Prop :=
  self.(IndustrialOPCClient.stats).(IndustrialOPCClient.successful_readings)
  = self.(IndustrialOPCClient.stats).(IndustrialOPCClient.total_readings)
  /\ NoDup self.(IndustrialOPCClient.sensor_nodes)
  /\ incl self.(IndustrialOPCClient.sensor_nodes) known_sensor_types.

(** *** The parts of a cycle *)

(** The cycle acquires and validates at least one reading, so that it goes
    on to the processing, the detection and the storage. *)
Definition reaches_storage (cfg : DAQConfig.t) (x : IndustrialDAQSystem.tick)
    (self : IndustrialDAQSystem.t) : bool :=
  match acquired_readings cfg x self,
        IndustrialDAQSystem.validate_readings cfg (acquired_readings cfg x self) with
  | _ :: _, _ :: _ => true
  | _, _ => false
  end.

(** The anomalies the cycle detects on its processed readings. *)
Definition cycle_anomalies (cfg : DAQConfig.t) (x : IndustrialDAQSystem.tick)
    (self : IndustrialDAQSystem.t) : list IndustrialDAQSystem.Anomaly :=
  snd (IndustrialDAQSystem.detect_anomalies
         (snd (processed_cycle cfg x self)) (fst (processed_cycle cfg x self))).

(** What [store_readings] returns in the cycle. *)
Definition cycle_store (cfg : DAQConfig.t) (x : IndustrialDAQSystem.tick)
    (self : IndustrialDAQSystem.t)
    : IndustrialOPCClient.t * bool * list Trace.event :=
  IndustrialOPCClient.store_readings cfg x.(IndustrialDAQSystem.tick_db_ok)
    (snd (processed_cycle cfg x self)) (client_after_read cfg x self).

(** The anomaly buffer as [maintenance_tasks] leaves it. *)
Definition trimmed_anomalies (buffer : list IndustrialDAQSystem.Anomaly)
    : list IndustrialDAQSystem.Anomaly :=
  if (100 <? List.length buffer)%nat then Py.last_n 100 buffer else buffer.

(** The events of the cycles of the given ticks, in order. *)
Fixpoint cycles_trace (cfg : DAQConfig.t)
    (ticks : list IndustrialDAQSystem.tick) (self : IndustrialDAQSystem.t)
    : list Trace.event :=
  match ticks with
  | [] => []
  | x :: rest =>
      cycle_trace cfg x self ++ cycles_trace cfg rest (after_cycle cfg x self)
  end.

(** The number of cycles of the ticks that return [True]. *)
Fixpoint successful_cycles_of (cfg : DAQConfig.t)
    (ticks : list IndustrialDAQSystem.tick) (self : IndustrialDAQSystem.t) : nat :=
  match ticks with
  | [] => 0
  | x :: rest =>
      (if cycle_success cfg x self then 1 else 0)
      + successful_cycles_of cfg rest (after_cycle cfg x self)
  end.

(** The number of cycles of the ticks that validate at least one reading,
    and the number of readings they process. *)
Fixpoint processed_points_of (cfg : DAQConfig.t)
    (ticks : list IndustrialDAQSystem.tick) (self : IndustrialDAQSystem.t) : nat :=
  match ticks with
  | [] => 0
  | x :: rest =>
      (if reaches_storage cfg x self
       then List.length (snd (processed_cycle cfg x self)) else 0)
      + processed_points_of cfg rest (after_cycle cfg x self)
  end.

(** The event is the insertion of an anomaly row. *)
Definition is_anomaly_row (e : Trace.event) : bool :=
  match e with
  | Trace.InsertReading _ => true
  | _ => false
  end.

(** Every row of the history and of the client's buffer has its sensor
    type and its value. *)
Definition complete_rows (self : IndustrialDAQSystem.t) : bool :=
  forallb SensorDatabase.row_complete self.(IndustrialDAQSystem.data_history)
  && forallb SensorDatabase.row_complete
       self.(IndustrialDAQSystem.opc_client).(IndustrialOPCClient.data_buffer).

(** The keys the enrichment adds to a reading at the given time. *)
Definition enriched (now : Z) (p : Reading.t) : Prop :=
  p.(Reading.processed_at) = Some now
  /\ p.(Reading.moving_average) <> None
  /\ p.(Reading.processing_version) = Some "1.0"
  /\ p.(Reading.daq_system_id) = Some "DAQ_001".

(** Computes the representation of a constant and compares two of them. *)
Ltac float_constants :=
  first [ vm_compute; reflexivity
        | left; reflexivity
        | right; split; reflexivity ].

(** What an anomaly record says about the reading it was raised for. *)
Definition raised_for (p : Reading.t) (a : IndustrialDAQSystem.Anomaly) : Prop :=
  p.(Reading.sensor_type) = Some a.(IndustrialDAQSystem.sensor_type)
  /\ p.(Reading.value) = Some a.(IndustrialDAQSystem.value)
  /\ a.(IndustrialDAQSystem.timestamp) = p.(Reading.timestamp)
  /\ a.(IndustrialDAQSystem.machine_id) = p.(Reading.machine_id)
  /\ ((p.(Reading.anomaly) = Some a.(IndustrialDAQSystem.anomaly_type)
       /\ a.(IndustrialDAQSystem.anomaly_type) <> "")
      \/ (a.(IndustrialDAQSystem.anomaly_type) = "HIGH_DEVIATION"
          /\ p.(Reading.high_deviation) = true
          /\ a.(IndustrialDAQSystem.severity) = IndustrialDAQSystem.MEDIUM)
      \/ (a.(IndustrialDAQSystem.anomaly_type) = "RAPID_CHANGE"
          /\ a.(IndustrialDAQSystem.severity) = IndustrialDAQSystem.HIGH)).

(** *** The simulator and the storage, end to end *)

(** The sensor types the client recognises in the configured names, each
    once, in the order of the configuration. *)
Definition published_types (sensors : list (string * IndustrialOPCServer.SensorConfig))
    (mapped : list string) : list string :=
  fold_left
    (fun acc entry =>
       match IndustrialOPCClient._determine_sensor_type
               (snd entry).(IndustrialOPCServer.name) with
       | Some sensor_type => IndustrialOPCClient.map_sensor acc sensor_type
       | None => acc
       end)
    sensors mapped.

(** The reading carries what was read from the bus for the sensor during
    the cycle, with the defaults for the fields that could not be read. *)
Definition read_from (cfg : DAQConfig.t) (x : IndustrialDAQSystem.tick)
    (sensor_type : string) (sample : IndustrialOPCClient.sample)
    (p : Reading.t) : Prop :=
  p.(Reading.sensor_type) = Some sensor_type
  /\ p.(Reading.value) = Some sample.(IndustrialOPCClient.sample_value)
  /\ p.(Reading.quality)
     = IndustrialOPCClient.default 100%Z sample.(IndustrialOPCClient.sample_quality)
  /\ p.(Reading.status)
     = IndustrialOPCClient.default "OK" sample.(IndustrialOPCClient.sample_status)
  /\ p.(Reading.timestamp)
     = IndustrialOPCClient.default x.(IndustrialDAQSystem.tick_now)
         sample.(IndustrialOPCClient.sample_timestamp)
  /\ p.(Reading.machine_id) = cfg.(DAQConfig.machine_id)
  /\ p.(Reading.location) = cfg.(DAQConfig.location)
  /\ p.(Reading.unit_) = IndustrialOPCClient._get_sensor_unit sensor_type.

(** The batch a cycle hands to the database, if any. *)
Definition cycle_batch (cfg : DAQConfig.t) (x : IndustrialDAQSystem.tick)
    (self : IndustrialDAQSystem.t) : list Trace.event :=
  let rows :=
    self.(IndustrialDAQSystem.opc_client).(IndustrialOPCClient.data_buffer)
    ++ snd (processed_cycle cfg x self) in
  if reaches_storage cfg x self
     && (cfg.(DAQConfig.batch_size) <=? Py.len rows)%Z
  then [Trace.InsertBatch rows] else [].

(** The readings the cycles of the ticks process, in order. *)
Fixpoint processed_during (cfg : DAQConfig.t)
    (ticks : list IndustrialDAQSystem.tick) (self : IndustrialDAQSystem.t)
    : list Reading.t :=
  match ticks with
  | [] => []
  | x :: rest =>
      snd (processed_cycle cfg x self)
      ++ processed_during cfg rest (after_cycle cfg x self)
  end.

(** The reading is among the rows of a batch handed to the database. *)
Definition offered (events : list Trace.event) (p : Reading.t) : Prop :=
  exists rows, In (Trace.InsertBatch rows) events /\ In p rows.

(** * Properties *)

(** ** Loops that append *)

Section AppendLoops.

Context {A B : Type}.
Variable step : list B -> A -> list B.
Variable emit : A -> list B.
Hypothesis step_appends : forall acc x, step acc x = acc ++ emit x.

(** A loop whose every turn appends to its accumulator builds the
    concatenation of what the turns append. *)
Lemma fold_left_appends (l : list A) (acc : list B) :
  fold_left step l acc = acc ++ flat_map emit l.
Proof.
  revert acc.
  induction l as [|x l IH]; intros acc; simpl.
  - now rewrite app_nil_r.
  - rewrite IH, step_appends, <- app_assoc. reflexivity.
Qed.

End AppendLoops.

(** ** Python slices *)

Lemma last_n_length {A : Type} (n : nat) (l : list A) :
  (0 < n)%nat -> List.length (Py.last_n n l) = Nat.min n (List.length l).
Proof.
  intros Hn. destruct n as [|n]; [lia|].
  unfold Py.last_n. rewrite length_skipn. lia.
Qed.

Lemma last_n_suffix {A : Type} (n : nat) (l : list A) :
  exists older, l = older ++ Py.last_n n l.
Proof.
  destruct n as [|n]; simpl.
  - exists []. reflexivity.
  - exists (firstn (List.length l - S n) l).
    symmetry. apply firstn_skipn.
Qed.

Lemma last_n_short {A : Type} (n : nat) (l : list A) :
  (List.length l <= n)%nat -> Py.last_n n l = l.
Proof.
  intros Hl. destruct n as [|n]; simpl; [reflexivity|].
  replace (List.length l - S n)%nat with 0%nat by lia. reflexivity.
Qed.

Lemma len_app {A : Type} (l1 l2 : list A) :
  Py.len (l1 ++ l2) = (Py.len l1 + Py.len l2)%Z.
Proof. unfold Py.len. rewrite length_app. lia. Qed.

Lemma len_nonneg {A : Type} (l : list A) : (0 <= Py.len l)%Z.
Proof. unfold Py.len. lia. Qed.

(** ** validate_readings *)

Section Validation.

Import IndustrialDAQSystem.
Variable cfg : DAQConfig.t.

Lemma validate_step_appends (validated : list Reading.t) (reading : Reading.t) :
  validate_step cfg validated reading = validated ++ validated_of cfg reading.
Proof.
  unfold validate_step, validated_of.
  destruct (check_reading cfg reading) as [[r|]|e]; simpl;
    now rewrite ?app_nil_r.
Qed.

Lemma validate_readings_flat_map (readings : list Reading.t) :
  validate_readings cfg readings = flat_map (validated_of cfg) readings.
Proof.
  unfold validate_readings.
  now rewrite (fold_left_appends _ _ validate_step_appends).
Qed.

(** A reading that is appended is the input reading, possibly with its
    anomaly key set, and passed the quality check. *)
Lemma check_reading_kept (reading r : Reading.t) :
  check_reading cfg reading = Py.Ok (Some r) ->
  (cfg.(DAQConfig.min_quality_threshold) <= reading.(Reading.quality))%Z
  /\ (r = reading \/ exists tag, r = Reading.set_anomaly reading tag).
Proof.
  unfold check_reading.
  destruct (Reading.sensor_type reading) as [st|]; simpl; [|discriminate].
  destruct (Reading.value reading) as [v|]; simpl; [|discriminate].
  destruct (Z.ltb_spec (Reading.quality reading)
              (DAQConfig.min_quality_threshold cfg)) as [Hq|Hq];
    [discriminate|].
  intros H. injection H as <-. split; [exact Hq|].
  repeat match goal with
         | |- context [if ?b then _ else _] => destruct b
         end; eauto.
Qed.

Lemma set_anomaly_quality (r : Reading.t) (tag : string) :
  Reading.quality (Reading.set_anomaly r tag) = Reading.quality r.
Proof. reflexivity. Qed.

Lemma validated_quality (readings : list Reading.t) (r : Reading.t) :
  In r (validate_readings cfg readings) ->
  (cfg.(DAQConfig.min_quality_threshold) <= r.(Reading.quality))%Z.
Proof.
  rewrite validate_readings_flat_map, in_flat_map.
  intros (reading & _ & Hr). unfold validated_of in Hr.
  destruct (check_reading cfg reading) as [[r'|]|e] eqn:E;
    simpl in Hr; try contradiction.
  destruct Hr as [<-|[]].
  destruct (check_reading_kept _ _ E) as (Hq & [->|(tag & ->)]);
    [|rewrite set_anomaly_quality]; exact Hq.
Qed.

(** C2. A reading whose quality is strictly below the configured minimum
    is absent from the list [validate_readings] returns, and every reading
    of that list has a quality at or above the minimum. *)
Theorem validate_readings_quality_gate (readings : list Reading.t) :
  (forall r, (r.(Reading.quality) < cfg.(DAQConfig.min_quality_threshold))%Z ->
             ~ In r (validate_readings cfg readings))
  /\ (forall r, In r (validate_readings cfg readings) ->
                (cfg.(DAQConfig.min_quality_threshold) <= r.(Reading.quality))%Z).
Proof.
  split.
  - intros r Hlow Hin. apply validated_quality in Hin. lia.
  - apply validated_quality.
Qed.

End Validation.

Lemma validate_readings_quality_gate_witness :
  let low := Reading.acquired 0 DAQConfig.default "pressure" 1.2%float "bar" 75 "WARNING" in
  let good := Reading.acquired 0 DAQConfig.default "temperature" 25%float "°C" 95 "OK" in
  ~ In low (IndustrialDAQSystem.validate_readings DAQConfig.default [low; good]).
Proof.
  intros low good.
  apply (proj1 (validate_readings_quality_gate DAQConfig.default [low; good]) low).
  vm_compute. reflexivity.
Defined.

(** ** The range gate *)

Section RangeGate.

Import IndustrialDAQSystem.
Variable cfg : DAQConfig.t.

Lemma validated_of_length (reading : Reading.t) :
  List.length (validated_of cfg reading)
  = if passes_quality cfg reading then 1%nat else 0%nat.
Proof.
  unfold validated_of, check_reading, passes_quality, SensorDatabase.row_complete.
  destruct (Reading.sensor_type reading) as [st|]; simpl; [|reflexivity].
  destruct (Reading.value reading) as [v|]; simpl; [|reflexivity].
  rewrite Z.leb_antisym.
  destruct (Reading.quality reading <? DAQConfig.min_quality_threshold cfg)%Z;
    reflexivity.
Qed.

Lemma validate_readings_length (readings : list Reading.t) :
  List.length (validate_readings cfg readings)
  = List.length (filter (passes_quality cfg) readings).
Proof.
  rewrite validate_readings_flat_map.
  induction readings as [|reading readings IH]; simpl; [reflexivity|].
  rewrite length_app, validated_of_length, IH.
  destruct (passes_quality cfg reading); reflexivity.
Qed.

Lemma validated_in (readings : list Reading.t) (reading r : Reading.t) :
  In reading readings ->
  check_reading cfg reading = Py.Ok (Some r) ->
  In r (validate_readings cfg readings).
Proof.
  intros Hin Hcheck.
  rewrite validate_readings_flat_map, in_flat_map.
  exists reading. split; [exact Hin|].
  unfold validated_of. rewrite Hcheck. now left.
Qed.

Lemma check_reading_passes (reading : Reading.t) (st : string) (v : float) :
  reading.(Reading.sensor_type) = Some st ->
  reading.(Reading.value) = Some v ->
  (cfg.(DAQConfig.min_quality_threshold) <= reading.(Reading.quality))%Z ->
  check_reading cfg reading = Py.Ok (Some (range_tagged cfg reading st v)).
Proof.
  intros Hst Hv Hq. unfold check_reading. rewrite Hst, Hv. simpl.
  destruct (Z.ltb_spec (Reading.quality reading)
              (DAQConfig.min_quality_threshold cfg)); [lia|].
  reflexivity.
Qed.

Lemma set_anomaly_tagged (reading : Reading.t) (tag : string) :
  (Reading.set_anomaly reading tag).(Reading.anomaly) = Some tag
  /\ same_but_anomaly reading (Reading.set_anomaly reading tag).
Proof. unfold same_but_anomaly. cbn. repeat split. Qed.

Lemma leb_45_40 : PrimFloat.leb 45 40 = false.
Proof. reflexivity. Qed.

(** C3. A reading that passes the quality gate and whose value violates its
    range is retained in the list [validate_readings] returns, and the
    entry retained carries the tag OUT_OF_RANGE (temperature, pressure) or
    HIGH_VIBRATION (vibration) under ['anomaly'], its other keys being
    those of the reading; a temperature of 45 against a maximum of 40 is
    retained and tagged OUT_OF_RANGE; a reading inside its range, or of
    another type, is retained as it is; and the range check drops nothing:
    the list returned has one entry for each reading that has its keys and
    passes the quality gate. *)
Theorem validate_readings_range_gate (readings : list Reading.t) :
  List.length (validate_readings cfg readings)
    = List.length (filter (passes_quality cfg) readings)
  /\ forall (reading : Reading.t) (st : string) (v : float),
      In reading readings ->
      reading.(Reading.sensor_type) = Some st ->
      reading.(Reading.value) = Some v ->
      (cfg.(DAQConfig.min_quality_threshold) <= reading.(Reading.quality))%Z ->
      (exists r, In r (validate_readings cfg readings)
                 /\ same_but_anomaly reading r)
      /\ (st = "temperature" ->
          Py.between cfg.(DAQConfig.temperature_min) v
                     cfg.(DAQConfig.temperature_max) = false ->
          holds_tagged (validate_readings cfg readings) reading "OUT_OF_RANGE")
      /\ (st = "pressure" ->
          Py.between cfg.(DAQConfig.pressure_min) v
                     cfg.(DAQConfig.pressure_max) = false ->
          holds_tagged (validate_readings cfg readings) reading "OUT_OF_RANGE")
      /\ (st = "vibration" ->
          PrimFloat.ltb cfg.(DAQConfig.vibration_max) v = true ->
          holds_tagged (validate_readings cfg readings) reading "HIGH_VIBRATION")
      /\ (st = "temperature" -> v = 45%float ->
          cfg.(DAQConfig.temperature_max) = 40%float ->
          holds_tagged (validate_readings cfg readings) reading "OUT_OF_RANGE")
      /\ (st = "temperature" ->
          Py.between cfg.(DAQConfig.temperature_min) v
                     cfg.(DAQConfig.temperature_max) = true ->
          In reading (validate_readings cfg readings))
      /\ (st = "pressure" ->
          Py.between cfg.(DAQConfig.pressure_min) v
                     cfg.(DAQConfig.pressure_max) = true ->
          In reading (validate_readings cfg readings))
      /\ (st = "vibration" ->
          PrimFloat.ltb cfg.(DAQConfig.vibration_max) v = false ->
          In reading (validate_readings cfg readings))
      /\ (st <> "temperature" -> st <> "pressure" -> st <> "vibration" ->
          In reading (validate_readings cfg readings)).
Proof.
  split; [apply validate_readings_length|].
  intros reading st v Hin Hst Hv Hq.
  pose proof (check_reading_passes reading st v Hst Hv Hq) as Hcheck.
  pose proof (validated_in readings reading _ Hin Hcheck) as Hkept.
  assert (Htag : forall tag,
    In (Reading.set_anomaly reading tag) (validate_readings cfg readings) ->
    holds_tagged (validate_readings cfg readings) reading tag).
  { intros tag Htagged. exists (Reading.set_anomaly reading tag).
    split; [exact Htagged|]. apply set_anomaly_tagged. }
  split.
  { exists (range_tagged cfg reading st v). split; [exact Hkept|].
    destruct (check_reading_kept cfg _ _ Hcheck) as [_ [->|[tag ->]]].
    - unfold same_but_anomaly. repeat split.
    - apply set_anomaly_tagged. }
  unfold range_tagged in Hkept.
  split; [|split; [|split; [|split; [|split; [|split; [|split]]]]]].
  - intros -> Hout. apply Htag. simpl in Hkept. rewrite Hout in Hkept.
    exact Hkept.
  - intros -> Hout. apply Htag. simpl in Hkept. rewrite Hout in Hkept.
    exact Hkept.
  - intros -> Hout. apply Htag. simpl in Hkept. rewrite Hout in Hkept.
    exact Hkept.
  - intros -> -> Hmax. apply Htag. simpl in Hkept. rewrite Hmax in Hkept.
    unfold Py.between in Hkept.
    rewrite leb_45_40, andb_false_r in Hkept. exact Hkept.
  - intros -> Hin_range. simpl in Hkept. rewrite Hin_range in Hkept.
    exact Hkept.
  - intros -> Hin_range. simpl in Hkept. rewrite Hin_range in Hkept.
    exact Hkept.
  - intros -> Hbelow. simpl in Hkept. rewrite Hbelow in Hkept. exact Hkept.
  - intros Ht Hpr Hvb.
    destruct (String.eqb_spec st "temperature") as [|_]; [contradiction|].
    destruct (String.eqb_spec st "pressure") as [|_]; [contradiction|].
    destruct (String.eqb_spec st "vibration") as [|_]; [contradiction|].
    exact Hkept.
Qed.

End RangeGate.

(** A temperature of 45 read under the default configuration, whose
    maximum is 40: the entry returned holds 45 and the tag. *)
Lemma validate_readings_range_gate_witness :
  let hot := Reading.acquired 0 DAQConfig.default "temperature" 45%float "°C" 95 "OK" in
  exists r,
    IndustrialDAQSystem.validate_readings DAQConfig.default [hot] = [r]
    /\ r.(Reading.anomaly) = Some "OUT_OF_RANGE"
    /\ r.(Reading.value) = Some 45%float
    /\ same_but_anomaly hot r.
Proof.
  intros hot.
  destruct (proj1 (proj2 (proj2 (proj2 (proj2
    (proj2 (validate_readings_range_gate DAQConfig.default [hot])
       hot "temperature" 45%float
       (or_introl eq_refl) eq_refl eq_refl
       ltac:(vm_compute; discriminate))))))
    eq_refl eq_refl eq_refl) as (r & Hin & Htag & Hsame).
  exists r. split; [|split; [exact Htag|split; [|exact Hsame]]].
  - pose proof (proj1 (validate_readings_range_gate DAQConfig.default [hot]))
      as Hlen.
    destruct (IndustrialDAQSystem.validate_readings DAQConfig.default [hot])
      as [|r0 [|r1 rest]]; [destruct Hin|destruct Hin as [->|[]]; reflexivity|].
    vm_compute in Hlen. discriminate.
  - destruct Hsame as (_ & _ & _ & _ & -> & _). reflexivity.
Defined.

(** ** calculate_moving_average *)

(** C8. [calculate_moving_average] returns the arithmetic mean of the last
    5 values of the sensor type, taken from the stored history with the
    current value appended; the window is never empty, holds the 5 most
    recent of these values (all of them when there are fewer), and for the
    history 20, 22, 24, 23, 25 and the current value 26 the result is
    24.0. *)
Theorem calculate_moving_average_mean (self : IndustrialDAQSystem.t)
    (sensor_type : string) (current_value : float) (history_values : list float) :
  IndustrialDAQSystem.values_of_type
    self.(IndustrialDAQSystem.data_history) sensor_type = Py.Ok history_values ->
  let recent := Py.last_n 5 (history_values ++ [current_value]) in
  IndustrialDAQSystem.calculate_moving_average self sensor_type current_value 5
    = Py.Ok (arithmetic_mean recent)
  /\ List.length recent = Nat.min 5 (S (List.length history_values))
  /\ (exists older, history_values ++ [current_value] = older ++ recent)
  /\ (history_values = [20; 22; 24; 23; 25]%float -> current_value = 26%float ->
      IndustrialDAQSystem.calculate_moving_average self sensor_type current_value 5
        = Py.Ok 24%float).
Proof.
  intros Hvalues recent.
  assert (Hlen : List.length recent = Nat.min 5 (S (List.length history_values))).
  { unfold recent. rewrite last_n_length by lia.
    rewrite length_app. cbn [List.length]. lia. }
  assert (Hmean : IndustrialDAQSystem.calculate_moving_average
                    self sensor_type current_value 5
                  = Py.Ok (arithmetic_mean recent)).
  { unfold IndustrialDAQSystem.calculate_moving_average.
    rewrite Hvalues. cbn [Py.bind]. fold recent.
    destruct recent as [|x rest] eqn:E; [simpl in Hlen; lia|].
    reflexivity. }
  repeat split.
  - exact Hmean.
  - exact Hlen.
  - apply last_n_suffix.
  - intros Hh Hc. rewrite Hmean. unfold recent. rewrite Hh, Hc. reflexivity.
Qed.

Lemma calculate_moving_average_mean_witness :
  IndustrialDAQSystem.calculate_moving_average
    (IndustrialDAQSystem.set_data_history IndustrialDAQSystem.init example_history)
    "temperature" 26%float 5
  = Py.Ok 24%float.
Proof.
  refine (proj2 (proj2 (proj2
    (calculate_moving_average_mean
       (IndustrialDAQSystem.set_data_history IndustrialDAQSystem.init example_history)
       "temperature" 26%float [20; 22; 24; 23; 25]%float _))) _ _);
    reflexivity.
Defined.

(** ** process_readings *)

Section Processing.

Import IndustrialDAQSystem.
Variable self : t.
Variable now : Z.

Lemma process_step_appends (processed : list Reading.t) (reading : Reading.t) :
  process_step self now processed reading = processed ++ [processed_of self now reading].
Proof.
  unfold process_step, processed_of.
  destruct (enrich self now reading); reflexivity.
Qed.

Lemma process_readings_map (readings : list Reading.t) :
  snd (process_readings now readings self) = map (processed_of self now) readings.
Proof.
  unfold process_readings. cbn [snd].
  rewrite (fold_left_appends _ (fun r => [processed_of self now r]) process_step_appends).
  simpl. induction readings as [|r readings IH]; simpl; congruence.
Qed.

(** C9. [process_readings] returns a list of the same length and in the
    same order as its input: the entry at each position is the enriched
    copy of the input reading at that position, or that reading itself,
    unmodified, when its enrichment raised. *)
Theorem process_readings_keeps_every_reading (readings : list Reading.t) :
  List.length (snd (process_readings now readings self)) = List.length readings
  /\ forall (i : nat) (reading : Reading.t),
      nth_error readings i = Some reading ->
      (forall e, enrich self now reading = Py.Raise e ->
         nth_error (snd (process_readings now readings self)) i = Some reading)
      /\ (forall p, enrich self now reading = Py.Ok p ->
         nth_error (snd (process_readings now readings self)) i = Some p).
Proof.
  rewrite process_readings_map. split; [apply length_map|].
  intros i reading Hi.
  rewrite nth_error_map, Hi. unfold processed_of. simpl.
  split; intros x Hx; rewrite Hx; reflexivity.
Qed.

End Processing.

Lemma process_readings_keeps_every_reading_witness :
  let broken :=
    Reading.mk 7 "MACHINE_001" (Some "temperature") "Plant_A_Line_1" None "°C"
               100 "OK" None None None None false None None in
  let good := Reading.acquired 7 DAQConfig.default "pressure" 1.2%float "bar" 100 "OK" in
  nth_error
    (snd (IndustrialDAQSystem.process_readings 8 [broken; good]
            IndustrialDAQSystem.init)) 0
  = Some broken.
Proof.
  intros broken good.
  refine (proj1 (proj2 (process_readings_keeps_every_reading
                          IndustrialDAQSystem.init 8 [broken; good])
                   0%nat broken _) (Py.KeyError "value") _);
    reflexivity.
Defined.

(** ** detect_anomalies: rapid change *)

Section Detection.

Import IndustrialDAQSystem.
Variable self : t.

Lemma detect_step_appends (anomalies : list Anomaly) (reading : Reading.t) :
  detect_step self anomalies reading = anomalies ++ detect_step self [] reading.
Proof.
  unfold detect_step.
  destruct (tagged_anomaly reading) as [a1|]; [|now rewrite app_nil_r].
  destruct (deviation_anomaly reading) as [a2|]; [|reflexivity].
  destruct (rapid_change_anomaly self reading) as [a3|]; simpl;
    now rewrite ?app_assoc.
Qed.

Lemma detect_anomalies_flat_map (readings : list Reading.t) :
  snd (detect_anomalies readings self) = flat_map (detect_step self []) readings.
Proof.
  unfold detect_anomalies.
  rewrite (fold_left_appends _ _ detect_step_appends). simpl.
  destruct (flat_map (detect_step self []) readings); reflexivity.
Qed.

Variable reading : Reading.t.
Variable st : string.
Variable v : float.
Hypothesis reading_type : reading.(Reading.sensor_type) = Some st.
Hypothesis reading_value : reading.(Reading.value) = Some v.

Lemma tagged_anomaly_returns : exists a1, tagged_anomaly reading = Py.Ok a1.
Proof.
  unfold tagged_anomaly, truthy_tag, _calculate_severity, _get_anomaly_description.
  rewrite reading_type, reading_value.
  destruct (Reading.anomaly reading) as [tag|]; simpl; [|eauto].
  repeat match goal with
         | |- context [if ?b then _ else _] => destruct b; simpl
         end; eauto.
Qed.

Lemma deviation_anomaly_returns : exists a2, deviation_anomaly reading = Py.Ok a2.
Proof.
  unfold deviation_anomaly. rewrite reading_type, reading_value.
  destruct (Reading.high_deviation reading); simpl; eauto.
Qed.

Variable previous_values : list float.
Hypothesis history_values :
  values_of_type (Py.last_n 10 self.(data_history)) st = Py.Ok previous_values.

Lemma _detect_rapid_change_returns :
  _detect_rapid_change self reading
  = Py.Ok (if rapid_change_fires previous_values st v
           then Some (ChangeText (change_from previous_values v)
                                 reading.(Reading.unit_))
           else None).
Proof.
  unfold _detect_rapid_change, rapid_change_fires, change_from.
  rewrite reading_type, reading_value. cbn [Py.getitem Py.bind].
  rewrite history_values. cbn [Py.bind].
  destruct (2 <=? List.length previous_values)%nat; simpl; [|reflexivity].
  destruct (PrimFloat.ltb _ _); reflexivity.
Qed.

Lemma rapid_change_anomaly_returns :
  rapid_change_anomaly self reading
  = Py.Ok (if rapid_change_fires previous_values st v
           then [rapid_change_record reading st v (change_from previous_values v)]
           else []).
Proof.
  unfold rapid_change_anomaly. rewrite _detect_rapid_change_returns.
  cbn [Py.bind].
  destruct (rapid_change_fires previous_values st v); [|reflexivity].
  rewrite reading_type, reading_value. reflexivity.
Qed.

Lemma detect_step_blocks :
  exists a1 a2,
    tagged_anomaly reading = Py.Ok a1
    /\ deviation_anomaly reading = Py.Ok a2
    /\ detect_step self [] reading
       = a1 ++ a2 ++
         (if rapid_change_fires previous_values st v
          then [rapid_change_record reading st v (change_from previous_values v)]
          else []).
Proof.
  destruct tagged_anomaly_returns as [a1 H1].
  destruct deviation_anomaly_returns as [a2 H2].
  exists a1, a2. repeat split; try assumption.
  unfold detect_step.
  rewrite H1, H2, rapid_change_anomaly_returns. simpl.
  now rewrite app_assoc.
Qed.

End Detection.

(** The detection on a given history.  [_detect_rapid_change] compares the
    current value with the most recent value of the same sensor type among
    the last 10 history entries, and [detect_anomalies] appends a
    RAPID_CHANGE record exactly when there are at least two such values
    and the absolute difference exceeds the threshold of the type
    (temperature 5.0, pressure 0.3, vibration 0.5, otherwise 1.0); with at
    least two earlier temperatures, the latest 20.0, a reading of 26.0
    yields a RAPID_CHANGE record with change rate 6.0. *)
Theorem detect_anomalies_rapid_change (self : IndustrialDAQSystem.t)
    (readings : list Reading.t) (reading : Reading.t) (st : string) (v : float)
    (previous_values : list float) :
  In reading readings ->
  reading.(Reading.sensor_type) = Some st ->
  reading.(Reading.value) = Some v ->
  IndustrialDAQSystem.values_of_type
    (Py.last_n 10 self.(IndustrialDAQSystem.data_history)) st
    = Py.Ok previous_values ->
  (IndustrialDAQSystem.rapid_change_threshold "temperature" = 5%float
   /\ IndustrialDAQSystem.rapid_change_threshold "pressure" = 0.3%float
   /\ IndustrialDAQSystem.rapid_change_threshold "vibration" = 0.5%float
   /\ forall s, String.eqb s "temperature" = false ->
                String.eqb s "pressure" = false ->
                String.eqb s "vibration" = false ->
                IndustrialDAQSystem.rapid_change_threshold s = 1%float)
  /\ IndustrialDAQSystem._detect_rapid_change self reading
     = Py.Ok (if rapid_change_fires previous_values st v
              then Some (IndustrialDAQSystem.ChangeText
                           (change_from previous_values v) reading.(Reading.unit_))
              else None)
  /\ (exists a1 a2,
         IndustrialDAQSystem.tagged_anomaly reading = Py.Ok a1
         /\ IndustrialDAQSystem.deviation_anomaly reading = Py.Ok a2
         /\ IndustrialDAQSystem.detect_step self [] reading
            = a1 ++ a2 ++
              (if rapid_change_fires previous_values st v
               then [rapid_change_record reading st v
                       (change_from previous_values v)]
               else []))
  /\ (rapid_change_fires previous_values st v = true ->
      In (rapid_change_record reading st v (change_from previous_values v))
         (snd (IndustrialDAQSystem.detect_anomalies readings self)))
  /\ (st = "temperature" -> v = 26%float ->
      (2 <= List.length previous_values)%nat ->
      last previous_values 0%float = 20%float ->
      In (rapid_change_record reading "temperature" 26%float 6%float)
         (snd (IndustrialDAQSystem.detect_anomalies readings self))).
Proof.
  intros Hin Hst Hv Hprev.
  pose proof (detect_step_blocks self reading st v Hst Hv previous_values Hprev)
    as Hblocks.
  assert (Hfires :
    rapid_change_fires previous_values st v = true ->
    In (rapid_change_record reading st v (change_from previous_values v))
       (snd (IndustrialDAQSystem.detect_anomalies readings self))).
  { intros Hf. rewrite detect_anomalies_flat_map, in_flat_map.
    exists reading. split; [exact Hin|].
    destruct Hblocks as (a1 & a2 & _ & _ & ->). rewrite Hf.
    rewrite !in_app_iff. right. right. now left. }
  split; [|split; [|split; [|split]]].
  - repeat split. intros s H1 H2 H3.
    unfold IndustrialDAQSystem.rapid_change_threshold. now rewrite H1, H2, H3.
  - now apply _detect_rapid_change_returns.
  - exact Hblocks.
  - exact Hfires.
  - intros -> -> Hlen Hlast.
    assert (Hchange : change_from previous_values 26%float = 6%float).
    { unfold change_from. rewrite Hlast. reflexivity. }
    rewrite <- Hchange. apply Hfires.
    unfold rapid_change_fires. rewrite Hchange.
    apply Nat.leb_le in Hlen. rewrite Hlen. reflexivity.
Qed.

Lemma detect_anomalies_rapid_change_witness :
  let earlier := Reading.acquired 1 DAQConfig.default "temperature" 20%float "°C" 100 "OK" in
  let current := Reading.acquired 3 DAQConfig.default "temperature" 26%float "°C" 100 "OK" in
  let self :=
    IndustrialDAQSystem.set_data_history IndustrialDAQSystem.init [earlier; earlier] in
  In (rapid_change_record current "temperature" 26%float 6%float)
     (snd (IndustrialDAQSystem.detect_anomalies [current] self)).
Proof.
  intros earlier current self.
  refine (proj2 (proj2 (proj2 (proj2
    (detect_anomalies_rapid_change self [current] current "temperature" 26%float
       [20; 20]%float _ _ _ _)))) _ _ _ _).
  - left. reflexivity.
  - reflexivity.
  - reflexivity.
  - reflexivity.
  - reflexivity.
  - reflexivity.
  - simpl. lia.
  - reflexivity.
Defined.

(** With a single earlier temperature, 20.0, in the history, a reading of
    26.0 differs from it by 6.0, above the threshold 5.0, and
    [detect_anomalies] returns no anomaly: the comparison is guarded by
    [len(previous_values) >= 2]. *)
Lemma rapid_change_single_previous_value :
  let earlier := Reading.acquired 1 DAQConfig.default "temperature" 20%float "°C" 100 "OK" in
  let current := Reading.acquired 3 DAQConfig.default "temperature" 26%float "°C" 100 "OK" in
  let self :=
    IndustrialDAQSystem.set_data_history IndustrialDAQSystem.init [earlier] in
  IndustrialDAQSystem.values_of_type
    (Py.last_n 10 self.(IndustrialDAQSystem.data_history)) "temperature"
    = Py.Ok [20%float]
  /\ PrimFloat.ltb (IndustrialDAQSystem.rapid_change_threshold "temperature")
                   (PrimFloat.abs (PrimFloat.sub 26 20)) = true
  /\ snd (IndustrialDAQSystem.detect_anomalies [current] self) = [].
Proof.
  repeat split.
Qed.

(** ** store_readings *)

Section Storage.

Import IndustrialOPCClient.
Variable cfg : DAQConfig.t.

Lemma store_readings_empty (db_ok : bool) (self : t) :
  store_readings cfg db_ok [] self = (self, true, []).
Proof. reflexivity. Qed.

(** Below the batch size nothing is sent. *)
Lemma store_readings_buffers (db_ok : bool) (readings : list Reading.t) (self : t) :
  readings <> [] ->
  (Py.len (self.(data_buffer) ++ readings) < cfg.(DAQConfig.batch_size))%Z ->
  store_readings cfg db_ok readings self
  = (set_data_buffer self (self.(data_buffer) ++ readings), true, []).
Proof.
  intros Hne Hlt. unfold store_readings.
  destruct readings as [|r readings]; [congruence|].
  destruct (Z.leb_spec (DAQConfig.batch_size cfg)
              (Py.len (data_buffer self ++ r :: readings))); [lia|reflexivity].
Qed.

(** A flush that the database accepts empties the buffer. *)
Lemma store_readings_flushed (db_ok : bool) (readings : list Reading.t) (self : t) :
  readings <> [] ->
  (cfg.(DAQConfig.batch_size) <= Py.len (self.(data_buffer) ++ readings))%Z ->
  (0 < SensorDatabase.insert_batch_readings db_ok (self.(data_buffer) ++ readings))%Z ->
  store_readings cfg db_ok readings self
  = (set_data_buffer self [], true,
     [Trace.InsertBatch (self.(data_buffer) ++ readings)]).
Proof.
  intros Hne Hge Hins. unfold store_readings.
  destruct readings as [|r readings]; [congruence|].
  destruct (Z.leb_spec (DAQConfig.batch_size cfg)
              (Py.len (data_buffer self ++ r :: readings))); [|lia].
  destruct (Z.ltb_spec 0
              (SensorDatabase.insert_batch_readings db_ok
                 (data_buffer self ++ r :: readings))); [reflexivity|lia].
Qed.

(** A flush that fails keeps the buffer, cut to its newest entries when it
    is over the limit. *)
Lemma store_readings_failed (db_ok : bool) (readings : list Reading.t) (self : t) :
  readings <> [] ->
  (cfg.(DAQConfig.batch_size) <= Py.len (self.(data_buffer) ++ readings))%Z ->
  (SensorDatabase.insert_batch_readings db_ok (self.(data_buffer) ++ readings) <= 0)%Z ->
  store_readings cfg db_ok readings self
  = (set_data_buffer self
       (if (cfg.(DAQConfig.max_buffer_size)
            <? Py.len (self.(data_buffer) ++ readings))%Z
        then Py.drop_first
               (Py.len (self.(data_buffer) ++ readings)
                - cfg.(DAQConfig.max_buffer_size))
               (self.(data_buffer) ++ readings)
        else self.(data_buffer) ++ readings),
     false,
     [Trace.InsertBatch (self.(data_buffer) ++ readings)]).
Proof.
  intros Hne Hge Hins. unfold store_readings.
  destruct readings as [|r readings]; [congruence|].
  destruct (Z.leb_spec (DAQConfig.batch_size cfg)
              (Py.len (data_buffer self ++ r :: readings))); [|lia].
  destruct (Z.ltb_spec 0
              (SensorDatabase.insert_batch_readings db_ok
                 (data_buffer self ++ r :: readings))); [lia|reflexivity].
Qed.

Lemma drop_first_length {A : Type} (k : Z) (l : list A) :
  (0 <= k <= Py.len l)%Z -> Py.len (Py.drop_first k l) = (Py.len l - k)%Z.
Proof.
  intros Hk. unfold Py.drop_first, Py.len in *. rewrite length_skipn. lia.
Qed.

Lemma drop_first_split {A : Type} (k : Z) (l : list A) :
  (0 <= k <= Py.len l)%Z ->
  exists evicted, l = evicted ++ Py.drop_first k l /\ Py.len evicted = k.
Proof.
  intros Hk. exists (firstn (Z.to_nat k) l). split.
  - symmetry. apply firstn_skipn.
  - unfold Py.len in *. rewrite length_firstn. lia.
Qed.

(** One call keeps the buffer within the limit. *)
Lemma store_readings_bound (db_ok : bool) (readings : list Reading.t) (self : t) :
  (0 <= cfg.(DAQConfig.max_buffer_size))%Z ->
  (cfg.(DAQConfig.batch_size) <= cfg.(DAQConfig.max_buffer_size) + 1)%Z ->
  (Py.len self.(data_buffer) <= cfg.(DAQConfig.max_buffer_size))%Z ->
  (Py.len (buffer_after cfg db_ok readings self)
   <= cfg.(DAQConfig.max_buffer_size))%Z.
Proof.
  intros Hmax Hbatch Hself. unfold buffer_after.
  destruct readings as [|r readings]; [exact Hself|].
  set (new := r :: readings).
  assert (Hne : new <> []) by discriminate.
  destruct (Z.lt_ge_cases (Py.len (data_buffer self ++ new))
              (DAQConfig.batch_size cfg)) as [Hlt|Hge].
  { rewrite (store_readings_buffers db_ok new self Hne Hlt). simpl. lia. }
  destruct (Z.lt_ge_cases 0
              (SensorDatabase.insert_batch_readings db_ok (data_buffer self ++ new)))
    as [Hok|Hfail].
  { rewrite (store_readings_flushed db_ok new self Hne Hge Hok). simpl.
    unfold Py.len. simpl. lia. }
  rewrite (store_readings_failed db_ok new self Hne Hge Hfail). simpl.
  destruct (Z.ltb_spec (DAQConfig.max_buffer_size cfg)
              (Py.len (data_buffer self ++ new))) as [Hover|Hfit].
  - rewrite drop_first_length; lia.
  - exact Hfit.
Qed.

End Storage.

(** C4 (as amended). When [max_buffer_size] is not negative and
    [batch_size] is at most [max_buffer_size + 1], a buffer within the limit
    is within the limit again after every [store_readings] call of any
    sequence, whatever the database answers; and when a failed flush leaves
    the buffer over the limit, exactly its oldest excess entries are
    evicted. *)
Theorem store_readings_buffer_bound (cfg : DAQConfig.t)
    (calls : list (bool * list Reading.t)) (self : IndustrialOPCClient.t) :
  (0 <= cfg.(DAQConfig.max_buffer_size))%Z ->
  (cfg.(DAQConfig.batch_size) <= cfg.(DAQConfig.max_buffer_size) + 1)%Z ->
  (Py.len self.(IndustrialOPCClient.data_buffer)
   <= cfg.(DAQConfig.max_buffer_size))%Z ->
  (Py.len (store_all cfg calls self).(IndustrialOPCClient.data_buffer)
   <= cfg.(DAQConfig.max_buffer_size))%Z
  /\ forall (db_ok : bool) (readings : list Reading.t),
      let buffer := self.(IndustrialOPCClient.data_buffer) ++ readings in
      readings <> [] ->
      (cfg.(DAQConfig.batch_size) <= Py.len buffer)%Z ->
      (SensorDatabase.insert_batch_readings db_ok buffer <= 0)%Z ->
      (cfg.(DAQConfig.max_buffer_size) < Py.len buffer)%Z ->
      exists evicted,
        buffer = evicted ++ buffer_after cfg db_ok readings self
        /\ Py.len evicted = (Py.len buffer - cfg.(DAQConfig.max_buffer_size))%Z
        /\ Py.len (buffer_after cfg db_ok readings self)
           = cfg.(DAQConfig.max_buffer_size).
Proof.
  intros Hmax Hbatch Hself. split.
  - revert self Hself.
    induction calls as [|[db_ok readings] calls IH]; intros self Hself; simpl.
    + exact Hself.
    + apply IH.
      apply (store_readings_bound cfg db_ok readings self Hmax Hbatch Hself).
  - intros db_ok readings buffer Hne Hge Hfail Hover.
    unfold buffer_after.
    rewrite (store_readings_failed cfg db_ok readings self Hne Hge Hfail).
    simpl. fold buffer.
    destruct (Z.ltb_spec (DAQConfig.max_buffer_size cfg) (Py.len buffer)); [|lia].
    destruct (drop_first_split
                (Py.len buffer - DAQConfig.max_buffer_size cfg) buffer)
      as (evicted & Hsplit & Hlen); [lia|].
    exists evicted. repeat split; try assumption.
    rewrite drop_first_length; lia.
Qed.

Lemma store_readings_buffer_bound_witness :
  (Py.len (store_all DAQConfig.default
             [(false, repeat sample_reading 6);
              (false, repeat sample_reading 6);
              (true, repeat sample_reading 3)]
             IndustrialOPCClient.init).(IndustrialOPCClient.data_buffer)
   <= 1000)%Z.
Proof.
  refine (proj1 (store_readings_buffer_bound DAQConfig.default
    [(false, repeat sample_reading 6);
     (false, repeat sample_reading 6);
     (true, repeat sample_reading 3)]
    IndustrialOPCClient.init _ _ _)); vm_compute; discriminate.
Defined.

(** C4 as stated fails: with a batch size of 10 and a buffer limit of 5,
    storing 7 readings leaves 7 readings in the buffer, no flush being
    attempted. *)
Lemma store_readings_exceeds_limit :
  flush_attempts small_buffer_config true
    (repeat sample_reading 7) IndustrialOPCClient.init = []
  /\ Py.len (buffer_after small_buffer_config true
               (repeat sample_reading 7) IndustrialOPCClient.init) = 7%Z
  /\ (small_buffer_config.(DAQConfig.max_buffer_size) < 7)%Z.
Proof.
  repeat split.
Qed.

(** With the default limits, 1000 readings retained and 3 new ones, a
    failing flush is handed 1003 readings, before the buffer is cut back
    to 1000: between the append and the eviction the buffer is over the
    limit. *)
Lemma store_readings_flush_sees_over_limit :
  let self :=
    IndustrialOPCClient.set_data_buffer IndustrialOPCClient.init
      (repeat sample_reading 1000) in
  flush_attempts DAQConfig.default false (repeat sample_reading 3) self
    = [Trace.InsertBatch (repeat sample_reading 1003)]
  /\ Py.len (buffer_after DAQConfig.default false (repeat sample_reading 3) self)
     = 1000%Z.
Proof.
  split; vm_compute; reflexivity.
Qed.

(** C5 (as amended). Called with a non-empty list of readings,
    [store_readings] attempts a batch flush exactly when the buffer with the
    new readings appended holds at least [batch_size] entries, and the
    flush sends that whole buffer; after a successful flush the buffer is
    empty; after a failed flush the buffer keeps its contents, cut to its
    newest [max_buffer_size] entries when there are more, and when nothing
    was cut the next non-empty call attempts the flush again with the
    retained contents. *)
Theorem store_readings_flush (cfg : DAQConfig.t) (db_ok : bool)
    (readings : list Reading.t) (self : IndustrialOPCClient.t) :
  readings <> [] ->
  let buffer := self.(IndustrialOPCClient.data_buffer) ++ readings in
  ((cfg.(DAQConfig.batch_size) <= Py.len buffer)%Z ->
     flush_attempts cfg db_ok readings self = [Trace.InsertBatch buffer])
  /\ ((Py.len buffer < cfg.(DAQConfig.batch_size))%Z ->
     flush_attempts cfg db_ok readings self = []
     /\ buffer_after cfg db_ok readings self = buffer
     /\ store_result cfg db_ok readings self = true)
  /\ ((cfg.(DAQConfig.batch_size) <= Py.len buffer)%Z ->
      (0 < SensorDatabase.insert_batch_readings db_ok buffer)%Z ->
      buffer_after cfg db_ok readings self = []
      /\ store_result cfg db_ok readings self = true)
  /\ ((cfg.(DAQConfig.batch_size) <= Py.len buffer)%Z ->
      (SensorDatabase.insert_batch_readings db_ok buffer <= 0)%Z ->
      store_result cfg db_ok readings self = false
      /\ ((Py.len buffer <= cfg.(DAQConfig.max_buffer_size))%Z ->
          buffer_after cfg db_ok readings self = buffer
          /\ forall db_ok' readings', readings' <> [] ->
               flush_attempts cfg db_ok' readings'
                 (fst (fst (IndustrialOPCClient.store_readings
                              cfg db_ok readings self)))
               = [Trace.InsertBatch (buffer ++ readings')])
      /\ ((cfg.(DAQConfig.max_buffer_size) < Py.len buffer)%Z ->
          buffer_after cfg db_ok readings self
          = skipn (Z.to_nat (Py.len buffer - cfg.(DAQConfig.max_buffer_size)))
                  buffer)).
Proof.
  intros Hne buffer.
  unfold flush_attempts, buffer_after, store_result.
  split; [|split; [|split]].
  - intros Hge.
    destruct (Z.lt_ge_cases 0 (SensorDatabase.insert_batch_readings db_ok buffer)).
    + now rewrite (store_readings_flushed cfg db_ok readings self Hne Hge).
    + now rewrite (store_readings_failed cfg db_ok readings self Hne Hge).
  - intros Hlt.
    now rewrite (store_readings_buffers cfg db_ok readings self Hne Hlt).
  - intros Hge Hok.
    now rewrite (store_readings_flushed cfg db_ok readings self Hne Hge Hok).
  - intros Hge Hfail.
    rewrite (store_readings_failed cfg db_ok readings self Hne Hge Hfail).
    cbn [fst snd IndustrialOPCClient.data_buffer
         IndustrialOPCClient.set_data_buffer]. fold buffer.
    split; [reflexivity|]. split.
    + intros Hfit.
      destruct (Z.ltb_spec (DAQConfig.max_buffer_size cfg) (Py.len buffer));
        [lia|].
      split; [reflexivity|].
      intros db_ok' readings' Hne'.
      set (self' := IndustrialOPCClient.set_data_buffer self buffer).
      assert (Hge' : (DAQConfig.batch_size cfg
                      <= Py.len (IndustrialOPCClient.data_buffer self' ++ readings'))%Z).
      { simpl. rewrite len_app. pose proof (len_nonneg readings'). lia. }
      destruct (Z.lt_ge_cases 0
                  (SensorDatabase.insert_batch_readings db_ok'
                     (IndustrialOPCClient.data_buffer self' ++ readings'))).
      * now rewrite (store_readings_flushed cfg db_ok' readings' self' Hne' Hge').
      * now rewrite (store_readings_failed cfg db_ok' readings' self' Hne' Hge').
    + intros Hover.
      destruct (Z.ltb_spec (DAQConfig.max_buffer_size cfg) (Py.len buffer));
        [reflexivity|lia].
Qed.

Lemma store_readings_flush_witness :
  flush_attempts DAQConfig.default true (repeat sample_reading 3)
    (IndustrialOPCClient.set_data_buffer IndustrialOPCClient.init
       (repeat sample_reading 8))
  = [Trace.InsertBatch (repeat sample_reading 11)].
Proof.
  refine (proj1 (store_readings_flush DAQConfig.default true
    (repeat sample_reading 3)
    (IndustrialOPCClient.set_data_buffer IndustrialOPCClient.init
       (repeat sample_reading 8)) _) _).
  - discriminate.
  - vm_compute. discriminate.
Defined.

(** C5 as stated fails: after a failed flush the buffer holds 10 readings,
    the batch size; a call with an empty list returns at once, and no flush
    is attempted although the buffer has reached the batch size. *)
Lemma store_readings_empty_call_skips_flush :
  let self :=
    fst (fst (IndustrialOPCClient.store_readings DAQConfig.default false
                (repeat sample_reading 10) IndustrialOPCClient.init)) in
  (DAQConfig.default.(DAQConfig.batch_size)
   <= Py.len (self.(IndustrialOPCClient.data_buffer) ++ []))%Z
  /\ flush_attempts DAQConfig.default true [] self = []
  /\ buffer_after DAQConfig.default true [] self = repeat sample_reading 10.
Proof.
  repeat split. vm_compute. discriminate.
Qed.

(** ** connect *)

(** C7. [connect] makes at most 5 attempts; it returns [True] at the first
    attempt that succeeds, having slept before each retry for 2.0 seconds
    multiplied by 1.5 per earlier failure (2.0, 3.0, 4.5, 6.75); when all 5
    attempts fail it returns [False], without raising, after these four
    delays. *)
Theorem connect_retries_with_backoff (bus : nat -> IndustrialOPCClient.attempt)
    (self : IndustrialOPCClient.t) :
  (attempts_made bus self <= 5)%N
  /\ backoff_delays
     = [2; 2 * 1.5; 2 * 1.5 * 1.5; 2 * 1.5 * 1.5 * 1.5]%float
  /\ match first_success bus with
     | Some k =>
         (k < 5)%nat
         /\ snd (fst (IndustrialOPCClient.connect bus self)) = Some true
         /\ snd (IndustrialOPCClient.connect bus self)
            = map Trace.Sleep (firstn k backoff_delays)
         /\ attempts_made bus self = N.of_nat (S k)
         /\ (fst (fst (IndustrialOPCClient.connect bus self)))
              .(IndustrialOPCClient.connected) = true
     | None =>
         snd (fst (IndustrialOPCClient.connect bus self)) = Some false
         /\ snd (IndustrialOPCClient.connect bus self)
            = map Trace.Sleep backoff_delays
         /\ attempts_made bus self = 5%N
         /\ (fst (fst (IndustrialOPCClient.connect bus self)))
              .(IndustrialOPCClient.connected)
            = self.(IndustrialOPCClient.connected)
     end.
Proof.
  assert (Hmain :
    match first_success bus with
    | Some k =>
        (k < 5)%nat
        /\ snd (fst (IndustrialOPCClient.connect bus self)) = Some true
        /\ snd (IndustrialOPCClient.connect bus self)
           = map Trace.Sleep (firstn k backoff_delays)
        /\ attempts_made bus self = N.of_nat (S k)
        /\ (fst (fst (IndustrialOPCClient.connect bus self)))
             .(IndustrialOPCClient.connected) = true
    | None =>
        snd (fst (IndustrialOPCClient.connect bus self)) = Some false
        /\ snd (IndustrialOPCClient.connect bus self)
           = map Trace.Sleep backoff_delays
        /\ attempts_made bus self = 5%N
        /\ (fst (fst (IndustrialOPCClient.connect bus self)))
             .(IndustrialOPCClient.connected)
           = self.(IndustrialOPCClient.connected)
    end).
  { unfold first_success, attempts_made, IndustrialOPCClient.connect.
    cbn [IndustrialOPCClient.max_retries seq find IndustrialOPCClient.connect_loop].
    destruct (IndustrialOPCClient.attempt_succeeds (bus 0%nat));
      [|destruct (IndustrialOPCClient.attempt_succeeds (bus 1%nat));
        [|destruct (IndustrialOPCClient.attempt_succeeds (bus 2%nat));
          [|destruct (IndustrialOPCClient.attempt_succeeds (bus 3%nat));
            [|destruct (IndustrialOPCClient.attempt_succeeds (bus 4%nat))]]]];
      cbn; repeat split; try reflexivity; lia. }
  split; [|split; [reflexivity|exact Hmain]].
  destruct (first_success bus) as [k|].
  - destruct Hmain as (Hk & _ & _ & -> & _). lia.
  - destruct Hmain as (_ & _ & -> & _). lia.
Qed.

(** ** Division of ints *)

Section Digits.

Local Open Scope Z_scope.

Lemma digits2_pos_size (p : positive) : digits2_pos p = Pos.size p.
Proof. induction p as [p IH|p IH|]; cbn; [rewrite IH ..|]; reflexivity. Qed.

Lemma Zdigits2_log2 (m : Z) : 0 < m -> Zdigits2 m = Z.log2 m + 1.
Proof.
  destruct m as [|p|p]; [lia| |lia]. intros _.
  cbn [Zdigits2]. rewrite digits2_pos_size.
  destruct p as [p|p|]; cbn [Pos.size Z.log2]; lia.
Qed.

Lemma Zdigits2_nonneg (m : Z) : 0 <= m -> 0 <= Zdigits2 m.
Proof. destruct m; cbn; lia. Qed.

Lemma Zdigits2_pos (m : Z) : 0 < m -> 0 < Zdigits2 m.
Proof. destruct m; cbn; lia. Qed.

(** A positive number lies between the powers of 2 its digits give. *)
Lemma Zdigits2_spec (m : Z) :
  0 < m -> 2 ^ (Zdigits2 m - 1) <= m < 2 ^ Zdigits2 m.
Proof.
  intros Hm. rewrite Zdigits2_log2 by exact Hm.
  replace (Z.log2 m + 1 - 1) with (Z.log2 m) by lia.
  pose proof (Z.log2_spec m Hm) as H. unfold Z.succ in H. exact H.
Qed.

Lemma Zdigits2_below (m k : Z) : 0 <= m < 2 ^ k -> 0 <= k -> Zdigits2 m <= k.
Proof.
  intros [Hm Hk] Hpos.
  destruct (Z.eq_dec m 0) as [->|Hnz]; [cbn; lia|].
  destruct (Zdigits2_spec m ltac:(lia)) as [Hlow _].
  destruct (Z.le_gt_cases (Zdigits2 m) k) as [|Hgt]; [assumption|].
  assert (2 ^ k <= 2 ^ (Zdigits2 m - 1)) by (apply Z.pow_le_mono_r; lia).
  lia.
Qed.

Lemma Zdigits2_above (m k : Z) : 2 ^ k <= m -> 0 <= k -> k + 1 <= Zdigits2 m.
Proof.
  intros Hk Hpos.
  assert (Hm : 0 < m) by (pose proof (Z.pow_pos_nonneg 2 k); lia).
  destruct (Zdigits2_spec m Hm) as [_ Hup].
  pose proof (Zdigits2_pos m Hm).
  destruct (Z.le_gt_cases (k + 1) (Zdigits2 m)) as [|Hgt]; [assumption|].
  assert (2 ^ Zdigits2 m <= 2 ^ k) by (apply Z.pow_le_mono_r; lia).
  lia.
Qed.

Lemma Zdigits2_bound (m k : Z) : 0 <= m <= 2 ^ k -> 0 <= k -> Zdigits2 m <= k + 1.
Proof.
  intros [Hm Hk] Hpos. apply Zdigits2_below; [|lia].
  split; [exact Hm|].
  replace (k + 1) with (Z.succ k) by lia. rewrite Z.pow_succ_r by lia.
  pose proof (Z.pow_pos_nonneg 2 k). lia.
Qed.

Lemma Zdigits2_mono (m n : Z) : 0 <= m <= n -> Zdigits2 m <= Zdigits2 n.
Proof.
  intros [Hm Hn].
  destruct (Z.eq_dec m 0) as [->|Hnz]; [apply Zdigits2_nonneg; lia|].
  rewrite !Zdigits2_log2 by lia.
  pose proof (Z.log2_le_mono m n Hn). lia.
Qed.

Lemma Zdigits2_succ (m : Z) : 0 <= m -> Zdigits2 (m + 1) <= Zdigits2 m + 1.
Proof.
  intros Hm.
  destruct (Z.eq_dec m 0) as [->|Hnz]; [cbn; lia|].
  rewrite !Zdigits2_log2 by lia.
  pose proof (Z.log2_succ_le m). unfold Z.succ in *. lia.
Qed.

(** The digits of a bound [k * 2 ^ j]. *)
Lemma Zdigits2_scaled (m k j : Z) :
  0 <= m <= k * 2 ^ j -> 0 < k -> 0 <= j -> Zdigits2 m <= Zdigits2 k + j.
Proof.
  intros [Hm Hk] Hpos Hj.
  destruct (Zdigits2_spec k Hpos) as [_ Hup].
  pose proof (Zdigits2_pos k Hpos).
  apply Zdigits2_below; [|lia].
  split; [exact Hm|]. rewrite Z.pow_add_r by lia.
  pose proof (Z.pow_pos_nonneg 2 j). nia.
Qed.

Lemma shr_1_half (mrs : shr_record) :
  0 <= shr_m mrs -> shr_m (shr_1 mrs) = shr_m mrs / 2.
Proof.
  destruct mrs as [m r s]. cbn [shr_m]. intros Hm.
  destruct m as [|[p|p|]|p]; cbn [shr_1 shr_m]; try reflexivity; try lia.
  - replace (Z.pos p~1) with (Z.pos p * 2 + 1) by lia.
    rewrite Z.div_add_l by lia. reflexivity.
  - replace (Z.pos p~0) with (Z.pos p * 2) by lia.
    rewrite Z.div_mul by lia. reflexivity.
Qed.

Lemma iter_shr_1_value (p : positive) (mrs : shr_record) :
  0 <= shr_m mrs ->
  shr_m (SpecFloat.iter_pos shr_1 p mrs) = shr_m mrs / 2 ^ Z.pos p.
Proof.
  assert (Hpow : 0 < 2 ^ Z.pos p) by (apply Z.pow_pos_nonneg; lia).
  revert mrs Hpow. induction p as [p IH|p IH|]; intros mrs _ Hm;
    cbn [SpecFloat.iter_pos].
  - assert (Hp : 0 < 2 ^ Z.pos p) by (apply Z.pow_pos_nonneg; lia).
    assert (H1 : 0 <= shr_m (shr_1 mrs))
      by (rewrite shr_1_half by exact Hm; apply Z.div_pos; lia).
    assert (H2 : 0 <= shr_m (SpecFloat.iter_pos shr_1 p (shr_1 mrs)))
      by (rewrite IH by assumption; apply Z.div_pos; lia).
    rewrite IH, IH, shr_1_half by assumption.
    rewrite !Z.div_div by lia.
    f_equal. replace (Z.pos p~1) with (1 + Z.pos p + Z.pos p) by lia.
    rewrite !Z.pow_add_r by lia. lia.
  - assert (Hp : 0 < 2 ^ Z.pos p) by (apply Z.pow_pos_nonneg; lia).
    assert (H2 : 0 <= shr_m (SpecFloat.iter_pos shr_1 p mrs))
      by (rewrite IH by assumption; apply Z.div_pos; lia).
    rewrite IH, IH by assumption.
    rewrite !Z.div_div by lia.
    f_equal. replace (Z.pos p~0) with (Z.pos p + Z.pos p) by lia.
    rewrite !Z.pow_add_r by lia. lia.
  - rewrite shr_1_half by exact Hm. reflexivity.
Qed.

Lemma shr_record_of_loc_m (m : Z) (l : location) :
  shr_m (shr_record_of_loc m l) = m.
Proof. destruct l as [|[]]; reflexivity. Qed.

(** [shr_fexp] moves to the exponent of the format, where that is above
    the exponent given, and divides the mantissa accordingly. *)
Lemma shr_fexp_value (m e : Z) (l : location) :
  0 <= m ->
  let result := shr_fexp prec emax m e l in
  snd result = Z.max e (fexp prec emax (Zdigits2 m + e))
  /\ shr_m (fst result) = m / 2 ^ (snd result - e).
Proof.
  intros Hm. cbv zeta. unfold shr_fexp, shr.
  destruct (fexp prec emax (Zdigits2 m + e) - e) as [|n|n] eqn:En;
    cbn [fst snd]; rewrite ?shr_record_of_loc_m.
  - split; [lia|]. rewrite Z.sub_diag, Z.div_1_r. reflexivity.
  - split; [lia|]. rewrite iter_shr_1_value
      by (rewrite shr_record_of_loc_m; exact Hm).
    rewrite shr_record_of_loc_m. f_equal. f_equal. lia.
  - split; [lia|]. rewrite Z.sub_diag, Z.div_1_r. reflexivity.
Qed.

Lemma round_nearest_even_bounds (m : Z) (l : location) :
  m <= round_nearest_even m l <= m + 1.
Proof.
  destruct l as [|[]]; cbn [round_nearest_even]; try lia.
  destruct (Z.even m); lia.
Qed.

Lemma div_pow2_digits (m n : Z) :
  0 <= m -> 0 <= n -> Zdigits2 m - n <= Zdigits2 (m / 2 ^ n).
Proof.
  intros Hm Hn.
  assert (Hpow : 0 < 2 ^ n) by (apply Z.pow_pos_nonneg; lia).
  assert (Hq : 0 <= m / 2 ^ n) by (apply Z.div_pos; lia).
  pose proof (Zdigits2_nonneg _ Hq) as Hd.
  destruct (Z.le_gt_cases (Zdigits2 m - n) 0) as [|Hbig]; [lia|].
  assert (Hmpos : 0 < m) by (destruct m; cbn in *; lia).
  destruct (Zdigits2_spec m Hmpos) as [Hlow _].
  enough (Zdigits2 m - n - 1 + 1 <= Zdigits2 (m / 2 ^ n)) by lia.
  apply Zdigits2_above; [|lia].
  apply Z.div_le_lower_bound; [exact Hpow|].
  rewrite <- Z.pow_add_r by lia.
  replace (n + (Zdigits2 m - n - 1)) with (Zdigits2 m - 1) by lia.
  exact Hlow.
Qed.

(** Rounding below a bound.  A number [mx * 2 ^ ex] with at least the
    digits the format keeps, strictly below [k * 2 ^ t], is rounded to
    zero or to a float of the format that is at most [k * 2 ^ t]. *)
Lemma binary_round_aux_below (sx : bool) (mx ex : Z) (lx : location) (k t : Z) :
  0 <= mx -> 0 < k -> ex <= t -> t <= 971 ->
  ex <= fexp prec emax (Zdigits2 mx + ex) ->
  fexp prec emax (Zdigits2 k + t) <= t ->
  mx < k * 2 ^ (t - ex) ->
  binary_round_aux prec emax sx mx ex lx = S754_zero sx
  \/ exists m e,
      binary_round_aux prec emax sx mx ex lx = S754_finite sx m e
      /\ fexp prec emax (Zdigits2 (Z.pos m) + e) = e
      /\ e <= t
      /\ Z.pos m <= k * 2 ^ (t - e).
Proof.
  intros Hm Hk Hext Ht Hprec Hfit Hbelow. unfold binary_round_aux.
  pose proof (shr_fexp_value mx ex lx Hm) as H1. cbv zeta in H1.
  destruct (shr_fexp prec emax mx ex lx) as [mrs' e1].
  cbn [fst snd] in H1. destruct H1 as (He1 & Hm1).
  assert (He1' : e1 = fexp prec emax (Zdigits2 mx + ex)) by lia.
  assert (Hdx : Zdigits2 mx <= Zdigits2 k + (t - ex)).
  { apply Zdigits2_scaled; lia. }
  assert (He1t : e1 <= t).
  { unfold fexp in *. lia. }
  assert (Hp1 : 0 < 2 ^ (e1 - ex)) by (apply Z.pow_pos_nonneg; lia).
  assert (Hm1_nonneg : 0 <= shr_m mrs').
  { rewrite Hm1. apply Z.div_pos; lia. }
  assert (Hm1_below : shr_m mrs' < k * 2 ^ (t - e1)).
  { rewrite Hm1. apply Z.div_lt_upper_bound; [exact Hp1|].
    replace (2 ^ (e1 - ex) * (k * 2 ^ (t - e1))) with (k * 2 ^ (t - ex));
      [exact Hbelow|].
    replace (t - ex) with ((e1 - ex) + (t - e1)) by lia.
    rewrite Z.pow_add_r by lia. lia. }
  assert (Hd1 : Zdigits2 mx - (e1 - ex) <= Zdigits2 (shr_m mrs')).
  { rewrite Hm1. apply div_pow2_digits; lia. }
  pose proof (round_nearest_even_bounds (shr_m mrs') (loc_of_shr_record mrs'))
    as Hr.
  set (m1 := round_nearest_even (shr_m mrs') (loc_of_shr_record mrs')) in *.
  assert (Hm1' : 0 <= m1) by lia.
  assert (Hd1' : Zdigits2 mx - (e1 - ex) <= Zdigits2 m1).
  { etransitivity; [exact Hd1|]. apply Zdigits2_mono. lia. }
  assert (Hdm1 : Zdigits2 m1 <= Zdigits2 k + (t - e1)).
  { apply Zdigits2_scaled; lia. }
  pose proof (shr_fexp_value m1 e1 loc_Exact Hm1') as H2. cbv zeta in H2.
  destruct (shr_fexp prec emax m1 e1 loc_Exact) as [mrs'' e2].
  cbn [fst snd] in H2. destruct H2 as (He2 & Hm2).
  assert (He2' : e2 = fexp prec emax (Zdigits2 m1 + e1)).
  { unfold fexp in *. lia. }
  assert (He2t : e2 <= t).
  { unfold fexp in *. lia. }
  assert (He12 : e1 <= e2) by lia.
  assert (Hp2 : 0 < 2 ^ (e2 - e1)) by (apply Z.pow_pos_nonneg; lia).
  destruct (shr_m mrs'') as [|m|m] eqn:Hm''; [left; reflexivity| |].
  - right. exists m, e2.
    replace (e2 <=? emax - prec) with true
      by (symmetry; apply Z.leb_le; change (emax - prec) with 971; lia).
    split; [reflexivity|].
    assert (Hd2 : Zdigits2 m1 - (e2 - e1) <= Zdigits2 (Z.pos m)).
    { rewrite Hm2. apply div_pow2_digits; lia. }
    assert (Hm2_below : Z.pos m <= k * 2 ^ (t - e2)).
    { rewrite Hm2. apply Z.div_le_upper_bound; [exact Hp2|].
      replace (2 ^ (e2 - e1) * (k * 2 ^ (t - e2))) with (k * 2 ^ (t - e1));
        [lia|].
      replace (t - e1) with ((e2 - e1) + (t - e2)) by lia.
      rewrite Z.pow_add_r by lia. lia. }
    assert (Hd2' : Zdigits2 (Z.pos m) <= Zdigits2 m1 - (e2 - e1)).
    { destruct (Z.eq_dec e2 e1) as [Heq|Hne].
      - rewrite Hm2, Heq, Z.sub_diag, Z.div_1_r. lia.
      - assert (Hm1pos : 0 < m1).
        { destruct (Z.eq_dec m1 0) as [Hz|]; [|lia].
          rewrite Hz, Z.div_0_l in Hm2 by lia. discriminate. }
        destruct (Zdigits2_spec m1 Hm1pos) as [_ Hup].
        pose proof (Zdigits2_pos _ Hm1pos).
        assert (Hlt : Z.pos m < 2 ^ (Zdigits2 m1 - (e2 - e1)) \/
                      Zdigits2 m1 - (e2 - e1) < 0).
        { destruct (Z.le_gt_cases 0 (Zdigits2 m1 - (e2 - e1))) as [Hge|];
            [left|right; lia].
          rewrite Hm2. apply Z.div_lt_upper_bound; [exact Hp2|].
          rewrite <- Z.pow_add_r by lia.
          replace (e2 - e1 + (Zdigits2 m1 - (e2 - e1))) with (Zdigits2 m1)
            by lia.
          exact Hup. }
        destruct Hlt as [Hlt|Hneg].
        + destruct (Z.le_gt_cases 0 (Zdigits2 m1 - (e2 - e1))) as [Hge|Hneg].
          * apply Zdigits2_below; lia.
          * rewrite Z.pow_neg_r in Hlt by lia. lia.
        + exfalso.
          assert (m1 / 2 ^ (e2 - e1) = 0).
          { apply Z.div_small. split; [lia|].
            eapply Z.lt_le_trans; [exact Hup|].
            apply Z.pow_le_mono_r; lia. }
          lia. }
    split; [|split; [exact He2t|exact Hm2_below]].
    unfold fexp in *. lia.
  - exfalso.
    assert (0 <= m1 / 2 ^ (e2 - e1)) by (apply Z.div_pos; lia).
    lia.
Qed.

End Digits.

Section IntDivision.

Local Open Scope Z_scope.

Lemma div_eucl_pair (a b : Z) : Z.div_eucl a b = (a / b, a mod b).
Proof. unfold Z.div, Z.modulo. destruct (Z.div_eucl a b); reflexivity. Qed.

Lemma new_location_exact (n : Z) : new_location n 0 = loc_Exact.
Proof. unfold new_location. destruct (Z.even n); reflexivity. Qed.

(** An int divided by itself is 1.0. *)
Lemma SFdiv_same (p : positive) :
  SFdiv prec emax (S754_finite false p 0) (S754_finite false p 0)
  = S754_finite false 4503599627370496 (-52).
Proof.
  unfold SFdiv, SFdiv_core_binary.
  rewrite !Z.add_0_r, !Z.sub_diag.
  change (Z.min (fexp prec emax 0) 0) with (-53).
  change (0 - -53) with 53.
  cbv iota beta.
  rewrite div_eucl_pair, Z.shiftl_mul_pow2 by lia.
  rewrite Z.mul_comm, Z.mul_comm, (Z.mul_comm (Z.pos p)).
  rewrite Z.div_mul, Z.mod_mul by lia.
  rewrite new_location_exact. reflexivity.
Qed.

(** A float of the format that is at most 1 is 1.0 or strictly below. *)
Lemma at_most_one (m : positive) (e : Z) :
  fexp prec emax (Zdigits2 (Z.pos m) + e) = e ->
  e <= 0 ->
  Z.pos m <= 1 * 2 ^ (0 - e) ->
  (m = 4503599627370496%positive /\ e = -52) \/ Z.pos m < 2 ^ (- e).
Proof.
  intros Hcanon He Hle. rewrite Z.mul_1_l, Z.sub_0_l in Hle.
  destruct (Z.eq_dec (Z.pos m) (2 ^ (- e))) as [Heq|Hne]; [left|right; lia].
  assert (Hd : Zdigits2 (Z.pos m) = - e + 1).
  { apply Z.le_antisymm.
    - apply Zdigits2_bound; lia.
    - apply Zdigits2_above; lia. }
  rewrite Hd in Hcanon. unfold fexp, SpecFloat.emin in Hcanon.
  change prec with 53 in Hcanon. change emax with 1024 in Hcanon.
  assert (e = -52) by lia. subst e. split; [|reflexivity].
  change (2 ^ (- -52)) with 4503599627370496 in Heq. lia.
Qed.

(** A smaller int divided by a larger one is 0.0 or a float of the format
    that is at most 1. *)
Lemma SFdiv_below (pa pb : positive) :
  (pa < pb)%positive ->
  SFdiv prec emax (S754_finite false pa 0) (S754_finite false pb 0)
  = S754_zero false
  \/ exists m e,
      SFdiv prec emax (S754_finite false pa 0) (S754_finite false pb 0)
      = S754_finite false m e
      /\ fexp prec emax (Zdigits2 (Z.pos m) + e) = e
      /\ e <= 0
      /\ Z.pos m <= 1 * 2 ^ (0 - e).
Proof.
  intros Hlt. unfold SFdiv, SFdiv_core_binary.
  rewrite !Z.add_0_r, Z.sub_0_r.
  set (d1 := Zdigits2 (Z.pos pa)). set (d2 := Zdigits2 (Z.pos pb)).
  assert (Hd : d1 <= d2) by (apply Zdigits2_mono; lia).
  destruct (Zdigits2_spec (Z.pos pa) ltac:(lia)) as [Hlow1 _].
  destruct (Zdigits2_spec (Z.pos pb) ltac:(lia)) as [_ Hup2].
  fold d1 in Hlow1. fold d2 in Hup2.
  assert (Hd1 : 0 < d1) by (apply Zdigits2_pos; lia).
  set (e' := Z.min (fexp prec emax (d1 - d2)) 0).
  assert (He' : e' = fexp prec emax (d1 - d2) /\ -1074 <= e' <= -53).
  { unfold e', fexp, SpecFloat.emin. change prec with 53.
    change emax with 1024. lia. }
  destruct He' as [He'c He'].
  set (m' := match 0 - e' with
             | 0 => Z.pos pa
             | Z.pos _ => Z.shiftl (Z.pos pa) (0 - e')
             | Z.neg _ => 0
             end).
  assert (Hm' : m' = Z.pos pa * 2 ^ (- e')).
  { unfold m'. destruct (0 - e') as [|s|s] eqn:Es; [lia| |lia].
    rewrite Z.shiftl_mul_pow2 by lia. f_equal. f_equal. lia. }
  rewrite div_eucl_pair. cbn [xorb].
  assert (Hpow : 0 < 2 ^ (- e')) by (apply Z.pow_pos_nonneg; lia).
  assert (Hq : 0 <= m' / Z.pos pb < 2 ^ (- e')).
  { split; [apply Z.div_pos; lia|].
    apply Z.div_lt_upper_bound; [lia|]. rewrite Hm'. nia. }
  assert (Hprec : e' <= fexp prec emax (Zdigits2 (m' / Z.pos pb) + e')).
  { pose proof (Zdigits2_nonneg (m' / Z.pos pb) ltac:(lia)) as Hdq.
    destruct (Z.le_gt_cases 0 (d1 - 1 - e' - d2)) as [Hj|Hj].
    - assert (Hbig : d1 - 1 - e' - d2 + 1 <= Zdigits2 (m' / Z.pos pb)).
      { apply Zdigits2_above; [|exact Hj].
        apply Z.div_le_lower_bound; [lia|]. rewrite Hm'.
        assert (Hpb : Z.pos pb * 2 ^ (d1 - 1 - e' - d2)
                      <= 2 ^ d2 * 2 ^ (d1 - 1 - e' - d2)).
        { apply Z.mul_le_mono_nonneg_r; [apply Z.pow_nonneg|]; lia. }
        rewrite <- Z.pow_add_r in Hpb by lia.
        replace (d2 + (d1 - 1 - e' - d2)) with ((d1 - 1) + - e') in Hpb by lia.
        rewrite Z.pow_add_r in Hpb by lia. nia. }
      rewrite He'c in *. unfold fexp, SpecFloat.emin in *.
      change prec with 53 in *. change emax with 1024 in *. lia.
    - rewrite He'c in *. unfold fexp, SpecFloat.emin in *.
      change prec with 53 in *. change emax with 1024 in *. lia. }
  apply binary_round_aux_below; try lia.
  - vm_compute. discriminate.
  - rewrite Z.mul_1_l. replace (0 - e') with (- e') by lia. lia.
Qed.

End IntDivision.

Section Percentages.

Local Open Scope Z_scope.

(** The order of the floats on two floats of the format, the larger one
    written as [k * 2 ^ t]. *)
Lemma SFleb_bound (m mb : positive) (e eb k t : Z) :
  0 < k -> e <= t ->
  fexp prec emax (Zdigits2 (Z.pos m) + e) = e ->
  Z.pos m <= k * 2 ^ (t - e) ->
  eb = fexp prec emax (Zdigits2 k + t) -> eb <= t ->
  Z.pos mb = k * 2 ^ (t - eb) ->
  SFleb (S754_finite false m e) (S754_finite false mb eb) = true.
Proof.
  intros Hk Het Hcanon Hle Heb Hebt Hmb.
  assert (Hd : Zdigits2 (Z.pos m) <= Zdigits2 k + (t - e))
    by (apply Zdigits2_scaled; lia).
  assert (Hee : e <= eb).
  { rewrite Heb, <- Hcanon. unfold fexp. lia. }
  unfold SFleb, SFcompare.
  destruct (Z.compare_spec e eb) as [Heq|Hlt|Hgt]; [|reflexivity|lia].
  subst e. rewrite Pos.compare_cont_spec. cbn [Pos.switch_Eq].
  destruct (Pos.compare_spec m mb) as [| |Hgt]; [reflexivity..|lia].
Qed.

(** The product by 100 of a float strictly between 0 and 1 lies between
    0.0 and 100.0. *)
Lemma percentage_below (m : positive) (e : Z) :
  fexp prec emax (Zdigits2 (Z.pos m) + e) = e ->
  e <= 0 ->
  Z.pos m < 2 ^ (- e) ->
  let rate := PrimFloat.mul (SF2Prim (S754_finite false m e)) 100 in
  PrimFloat.leb 0 rate = true /\ PrimFloat.leb rate 100 = true.
Proof.
  intros Hcanon He Hlt rate.
  assert (Hvalid : valid_binary (S754_finite false m e) = true).
  { cbn [valid_binary]. unfold bounded, canonical_mantissa.
    apply andb_true_intro. split; [apply Z.eqb_eq; exact Hcanon|].
    apply Z.leb_le. change (emax - prec) with 971. lia. }
  assert (Hrate : Prim2SF rate
                  = binary_round_aux prec emax false
                      (Z.pos (m * 7036874417766400)) (e + -46) loc_Exact).
  { unfold rate. rewrite FloatAxioms.mul_spec.
    rewrite (FloatAxioms.Prim2SF_SF2Prim _ Hvalid). reflexivity. }
  assert (Hpow : 0 < 2 ^ (- e)) by (apply Z.pow_pos_nonneg; lia).
  destruct (Zdigits2_spec (Z.pos m) ltac:(lia)) as [Hlow _].
  pose proof (Zdigits2_pos (Z.pos m) ltac:(lia)) as Hdm.
  destruct (binary_round_aux_below false (Z.pos (m * 7036874417766400))
              (e + -46) loc_Exact 100 0)
    as [Hzero|(m2 & e2 & Hfinite & Hcanon2 & He2 & Hle2)]; try lia.
  - assert (Hbig : Zdigits2 (Z.pos m) - 1 + 52 + 1
                   <= Zdigits2 (Z.pos (m * 7036874417766400))).
    { apply Zdigits2_above; [|lia].
      rewrite Z.pow_add_r by lia. rewrite Pos2Z.inj_mul.
      change (2 ^ 52) with 4503599627370496.
      pose proof (Z.pow_pos_nonneg 2 (Zdigits2 (Z.pos m) - 1)). nia. }
    unfold fexp, SpecFloat.emin in *.
    change prec with 53 in *. change emax with 1024 in *. lia.
  - vm_compute. discriminate.
  - rewrite Pos2Z.inj_mul.
    replace (0 - (e + -46)) with (46 + - e) by lia.
    rewrite Z.pow_add_r by lia.
    change (2 ^ 46) with 70368744177664. nia.
  - rewrite !FloatAxioms.leb_spec, Hrate, Hzero. split; reflexivity.
  - rewrite !FloatAxioms.leb_spec, Hrate, Hfinite. split; [reflexivity|].
    change (Prim2SF 100) with (S754_finite false 7036874417766400 (-46)).
    apply (SFleb_bound m2 7036874417766400 e2 (-46) 100 0);
      [lia|exact He2|exact Hcanon2|exact Hle2|reflexivity|lia|reflexivity].
Qed.

End Percentages.

Section TrueDivision.

Lemma truediv_by_zero (a : N) : Py.truediv a 0 = Py.Raise Py.ZeroDivisionError.
Proof. reflexivity. Qed.

Lemma truediv_guarded (a b : N) :
  b <> 0%N -> Py.truediv a b <> Py.Raise Py.ZeroDivisionError.
Proof.
  intros Hb. unfold Py.truediv.
  destruct (N.eqb_spec b 0) as [|_]; [contradiction|].
  destruct (SFdiv prec emax (Py.SF_of_N a) (Py.SF_of_N b)); discriminate.
Qed.

Lemma truediv_same (n : N) : n <> 0%N -> Py.truediv n n = Py.Ok 1%float.
Proof.
  intros Hn. unfold Py.truediv.
  destruct (N.eqb_spec n 0) as [|_]; [contradiction|].
  destruct n as [|p]; [contradiction|]. cbn [Py.SF_of_N].
  rewrite SFdiv_same. reflexivity.
Qed.

Lemma truediv_of_zero (b : N) : b <> 0%N -> Py.truediv 0 b = Py.Ok 0%float.
Proof.
  intros Hb. unfold Py.truediv.
  destruct (N.eqb_spec b 0) as [|_]; [contradiction|].
  destruct b as [|p]; [contradiction|]. reflexivity.
Qed.

(** A part divided by the whole is a float: the division does not raise. *)
Lemma truediv_part (a b : N) :
  b <> 0%N -> (a <= b)%N ->
  Py.truediv a b
  = Py.Ok (SF2Prim (SFdiv prec emax (Py.SF_of_N a) (Py.SF_of_N b))).
Proof.
  intros Hb Hle. unfold Py.truediv.
  destruct (N.eqb_spec b 0) as [|_]; [contradiction|].
  destruct b as [|pb]; [contradiction|].
  destruct a as [|pa]; [reflexivity|]. cbn [Py.SF_of_N].
  destruct (Pos.eq_dec pa pb) as [->|Hne]; [rewrite SFdiv_same; reflexivity|].
  destruct (SFdiv_below pa pb) as [->|(m & e & -> & _)];
    [lia|reflexivity..].
Qed.

(** The percentage of a part in a whole: [(a / b) * 100] does not raise
    and lies between 0.0 and 100.0. *)
Lemma percentage_bounds (a b : N) :
  b <> 0%N -> (a <= b)%N ->
  exists q,
    Py.truediv a b = Py.Ok q
    /\ PrimFloat.leb 0 (PrimFloat.mul q 100) = true
    /\ PrimFloat.leb (PrimFloat.mul q 100) 100 = true.
Proof.
  intros Hb Hle. unfold Py.truediv.
  destruct (N.eqb_spec b 0) as [|_]; [contradiction|].
  destruct b as [|pb]; [contradiction|].
  destruct a as [|pa].
  { eexists. split; [reflexivity|]. split; reflexivity. }
  cbn [Py.SF_of_N].
  destruct (Pos.eq_dec pa pb) as [->|Hne].
  { rewrite SFdiv_same. eexists. split; [reflexivity|].
    split; reflexivity. }
  destruct (SFdiv_below pa pb) as [->|(m & e & -> & Hcanon & He & Hm)];
    [lia| |].
  { eexists. split; [reflexivity|]. split; reflexivity. }
  eexists. split; [reflexivity|].
  destruct (at_most_one m e Hcanon He Hm) as [[-> ->]|Hlt].
  - split; reflexivity.
  - exact (percentage_below m e Hcanon He Hlt).
Qed.

(** The division raises only for a quotient beyond the floats, which takes
    a numerator above the divisor. *)
Lemma truediv_raises (a b : N) (e : Py.exn) :
  b <> 0%N -> Py.truediv a b = Py.Raise e ->
  e = Py.OverflowError /\ (b < a)%N.
Proof.
  intros Hb Hraise. split.
  - unfold Py.truediv in Hraise.
    destruct (N.eqb_spec b 0) as [|_]; [contradiction|].
    destruct (SFdiv prec emax (Py.SF_of_N a) (Py.SF_of_N b));
      congruence.
  - destruct (N.lt_ge_cases b a) as [Hlt|Hle]; [exact Hlt|].
    rewrite (truediv_part a b Hb Hle) in Hraise. discriminate.
Qed.

(** The quotients of the counters, as Python prints them. *)
Example truediv_examples :
  Py.truediv 1 3 = Py.Ok 0.3333333333333333%float
  /\ Py.truediv 2 3 = Py.Ok 0.6666666666666666%float
  /\ Py.truediv 7 7 = Py.Ok 1%float
  /\ Py.truediv (10 ^ 30) 3 = Py.Ok 3.333333333333333e+29%float
  /\ Py.truediv (2 ^ 60 - 1) (2 ^ 60) = Py.Ok 1%float
  /\ Py.truediv 5 (3 ^ 800) = Py.Ok 0%float
  /\ Py.truediv (10 ^ 400) 1 = Py.Raise Py.OverflowError
  /\ Py.truediv 1 0 = Py.Raise Py.ZeroDivisionError.
Proof. repeat split; vm_compute; reflexivity. Qed.

End TrueDivision.

(** ** Success rates *)

Section SuccessRates.

(** Where every reading counted succeeded, the rate is 0 or 100.0. *)
Lemma client_rate_full (c : IndustrialOPCClient.t) :
  c.(IndustrialOPCClient.stats).(IndustrialOPCClient.successful_readings)
  = c.(IndustrialOPCClient.stats).(IndustrialOPCClient.total_readings) ->
  exists s,
    IndustrialOPCClient.get_statistics c = Py.Ok s
    /\ (c.(IndustrialOPCClient.stats).(IndustrialOPCClient.total_readings) = 0%N ->
        s.(IndustrialOPCClient.success_rate) = Py.Int 0)
    /\ (c.(IndustrialOPCClient.stats).(IndustrialOPCClient.total_readings) <> 0%N ->
        s.(IndustrialOPCClient.success_rate) = Py.Float 100).
Proof.
  intros Hs. unfold IndustrialOPCClient.get_statistics. rewrite Hs.
  destruct (N.ltb_spec 0
    (IndustrialOPCClient.total_readings (IndustrialOPCClient.stats c)))
    as [Hpos|Hzero].
  - rewrite truediv_same by lia. cbn [Py.bind].
    eexists. split; [reflexivity|].
    cbn [IndustrialOPCClient.success_rate]. split; [lia|].
    intros _. reflexivity.
  - cbn [Py.bind]. eexists. split; [reflexivity|].
    cbn [IndustrialOPCClient.success_rate]. split; [reflexivity|lia].
Qed.

(** [get_statistics], by cases on the total and on the division. *)
Lemma client_rate_cases (c : IndustrialOPCClient.t) :
  let successes :=
    c.(IndustrialOPCClient.stats).(IndustrialOPCClient.successful_readings) in
  let total :=
    c.(IndustrialOPCClient.stats).(IndustrialOPCClient.total_readings) in
  (total = 0%N ->
   exists s,
     IndustrialOPCClient.get_statistics c = Py.Ok s
     /\ s.(IndustrialOPCClient.counters) = c.(IndustrialOPCClient.stats)
     /\ s.(IndustrialOPCClient.success_rate) = Py.Int 0)
  /\ (total <> 0%N ->
      match Py.truediv successes total with
      | Py.Ok q =>
          exists s,
            IndustrialOPCClient.get_statistics c = Py.Ok s
            /\ s.(IndustrialOPCClient.counters) = c.(IndustrialOPCClient.stats)
            /\ s.(IndustrialOPCClient.success_rate)
               = Py.Float (PrimFloat.mul q 100)
      | Py.Raise e =>
          IndustrialOPCClient.get_statistics c = Py.Raise e
          /\ e = Py.OverflowError /\ (total < successes)%N
      end).
Proof.
  cbv zeta. unfold IndustrialOPCClient.get_statistics. split.
  - intros ->. cbn [N.ltb N.compare Py.bind].
    eexists. repeat split.
  - intros Hnz.
    destruct (N.ltb_spec 0
      (IndustrialOPCClient.total_readings (IndustrialOPCClient.stats c)))
      as [_|Hzero]; [|lia].
    destruct (Py.truediv _ _) as [q|e] eqn:Hdiv; cbn [Py.bind].
    + eexists. repeat split.
    + split; [reflexivity|]. exact (truediv_raises _ _ e Hnz Hdiv).
Qed.

Lemma client_rate (c : IndustrialOPCClient.t) :
  (c.(IndustrialOPCClient.stats).(IndustrialOPCClient.successful_readings)
   <= c.(IndustrialOPCClient.stats).(IndustrialOPCClient.total_readings))%N ->
  exists s, IndustrialOPCClient.get_statistics c = Py.Ok s.
Proof.
  intros Hle. destruct (client_rate_cases c) as [Hzero Hdiv]. cbv zeta in *.
  destruct (N.eq_dec
    (IndustrialOPCClient.total_readings (IndustrialOPCClient.stats c)) 0)
    as [Hz|Hnz].
  - destruct (Hzero Hz) as (s & Hs & _). exists s. exact Hs.
  - specialize (Hdiv Hnz). rewrite (truediv_part _ _ Hnz Hle) in Hdiv.
    destruct Hdiv as (s & Hs & _). exists s. exact Hs.
Qed.

Lemma client_rate_guarded (c : IndustrialOPCClient.t) :
  IndustrialOPCClient.get_statistics c <> Py.Raise Py.ZeroDivisionError.
Proof.
  destruct (client_rate_cases c) as [Hzero Hdiv]. cbv zeta in *.
  destruct (N.eq_dec
    (IndustrialOPCClient.total_readings (IndustrialOPCClient.stats c)) 0)
    as [Hz|Hnz].
  - destruct (Hzero Hz) as (s & -> & _). discriminate.
  - specialize (Hdiv Hnz).
    destruct (Py.truediv _ _) as [q|e].
    + destruct Hdiv as (s & -> & _). discriminate.
    + destruct Hdiv as (-> & -> & _). discriminate.
Qed.

(** [get_detailed_statistics], by cases on the total and on the division,
    once the client has returned its statistics. *)
Lemma system_rate_cases (d : IndustrialDAQSystem.t)
    (cs : IndustrialOPCClient.Statistics) :
  let successes :=
    d.(IndustrialDAQSystem.stats).(IndustrialDAQSystem.successful_cycles) in
  let total :=
    d.(IndustrialDAQSystem.stats).(IndustrialDAQSystem.total_cycles) in
  IndustrialOPCClient.get_statistics d.(IndustrialDAQSystem.opc_client)
  = Py.Ok cs ->
  (total = 0%N ->
   exists s,
     IndustrialDAQSystem.get_detailed_statistics d = Py.Ok s
     /\ s.(IndustrialDAQSystem.counters) = d.(IndustrialDAQSystem.stats)
     /\ s.(IndustrialDAQSystem.opc_client_statistics) = cs
     /\ s.(IndustrialDAQSystem.success_rate) = Py.Int 0)
  /\ (total <> 0%N ->
      match Py.truediv successes total with
      | Py.Ok q =>
          exists s,
            IndustrialDAQSystem.get_detailed_statistics d = Py.Ok s
            /\ s.(IndustrialDAQSystem.counters) = d.(IndustrialDAQSystem.stats)
            /\ s.(IndustrialDAQSystem.opc_client_statistics) = cs
            /\ s.(IndustrialDAQSystem.success_rate)
               = Py.Float (PrimFloat.mul q 100)
      | Py.Raise e =>
          IndustrialDAQSystem.get_detailed_statistics d = Py.Raise e
          /\ e = Py.OverflowError /\ (total < successes)%N
      end).
Proof.
  cbv zeta. intros Hcs. unfold IndustrialDAQSystem.get_detailed_statistics.
  split.
  - intros ->. cbn [N.ltb N.compare Py.bind]. rewrite Hcs. cbn [Py.bind].
    eexists. repeat split.
  - intros Hnz.
    destruct (N.ltb_spec 0
      (IndustrialDAQSystem.total_cycles (IndustrialDAQSystem.stats d)))
      as [_|Hzero]; [|lia].
    destruct (Py.truediv _ _) as [q|e] eqn:Hdiv; cbn [Py.bind].
    + rewrite Hcs. cbn [Py.bind]. eexists. repeat split.
    + split; [reflexivity|]. exact (truediv_raises _ _ e Hnz Hdiv).
Qed.

Lemma system_rate (d : IndustrialDAQSystem.t) :
  (d.(IndustrialDAQSystem.opc_client).(IndustrialOPCClient.stats)
      .(IndustrialOPCClient.successful_readings)
   <= d.(IndustrialDAQSystem.opc_client).(IndustrialOPCClient.stats)
        .(IndustrialOPCClient.total_readings))%N ->
  (d.(IndustrialDAQSystem.stats).(IndustrialDAQSystem.successful_cycles)
   <= d.(IndustrialDAQSystem.stats).(IndustrialDAQSystem.total_cycles))%N ->
  exists s,
    IndustrialDAQSystem.get_detailed_statistics d = Py.Ok s
    /\ s.(IndustrialDAQSystem.counters) = d.(IndustrialDAQSystem.stats)
    /\ IndustrialOPCClient.get_statistics d.(IndustrialDAQSystem.opc_client)
       = Py.Ok s.(IndustrialDAQSystem.opc_client_statistics)
    /\ (d.(IndustrialDAQSystem.stats).(IndustrialDAQSystem.total_cycles) = 0%N ->
        s.(IndustrialDAQSystem.success_rate) = Py.Int 0)
    /\ (d.(IndustrialDAQSystem.stats).(IndustrialDAQSystem.total_cycles) <> 0%N ->
        exists q,
          Py.truediv
            d.(IndustrialDAQSystem.stats).(IndustrialDAQSystem.successful_cycles)
            d.(IndustrialDAQSystem.stats).(IndustrialDAQSystem.total_cycles)
          = Py.Ok q
          /\ s.(IndustrialDAQSystem.success_rate) = Py.Float (PrimFloat.mul q 100)).
Proof.
  intros Hclient Hle.
  destruct (client_rate _ Hclient) as (cs & Hcs).
  destruct (system_rate_cases d cs Hcs) as [Hzero Hdiv]. cbv zeta in *.
  destruct (N.eq_dec
    (IndustrialDAQSystem.total_cycles (IndustrialDAQSystem.stats d)) 0)
    as [Hz|Hnz].
  - destruct (Hzero Hz) as (s & Hs & Hcount & Hclient_stats & Hrate).
    exists s. rewrite Hclient_stats.
    repeat split; [exact Hs|exact Hcount|exact Hcs|auto|contradiction].
  - specialize (Hdiv Hnz). rewrite (truediv_part _ _ Hnz Hle) in Hdiv.
    destruct Hdiv as (s & Hs & Hcount & Hclient_stats & Hrate).
    exists s. rewrite Hclient_stats.
    split; [exact Hs|]. split; [exact Hcount|]. split; [exact Hcs|].
    split; [contradiction|]. intros _. eexists.
    split; [apply (truediv_part _ _ Hnz Hle)|exact Hrate].
Qed.

Lemma system_rate_guarded (d : IndustrialDAQSystem.t) :
  IndustrialDAQSystem.get_detailed_statistics d <> Py.Raise Py.ZeroDivisionError.
Proof.
  pose proof (client_rate_guarded (IndustrialDAQSystem.opc_client d)) as Hclient.
  destruct (IndustrialOPCClient.get_statistics (IndustrialDAQSystem.opc_client d))
    as [cs|e] eqn:Hcs.
  - destruct (system_rate_cases d cs Hcs) as [Hzero Hdiv]. cbv zeta in *.
    destruct (N.eq_dec
      (IndustrialDAQSystem.total_cycles (IndustrialDAQSystem.stats d)) 0)
      as [Hz|Hnz].
    + destruct (Hzero Hz) as (s & -> & _). discriminate.
    + specialize (Hdiv Hnz).
      destruct (Py.truediv _ _) as [q|e].
      * destruct Hdiv as (s & -> & _). discriminate.
      * destruct Hdiv as (-> & -> & _). discriminate.
  - assert (He : e <> Py.ZeroDivisionError).
    { intros ->. apply Hclient. reflexivity. }
    unfold IndustrialDAQSystem.get_detailed_statistics. rewrite Hcs.
    destruct (N.ltb_spec 0
      (IndustrialDAQSystem.total_cycles (IndustrialDAQSystem.stats d)))
      as [Hpos|_]; cbn [Py.bind]; [|congruence].
    assert (Hnz : IndustrialDAQSystem.total_cycles (IndustrialDAQSystem.stats d)
                   <> 0%N) by lia.
    pose proof (truediv_guarded
      (IndustrialDAQSystem.successful_cycles (IndustrialDAQSystem.stats d))
      _ Hnz) as Hdiv.
    destruct (Py.truediv _ _) as [q|e']; cbn [Py.bind]; congruence.
Qed.

End SuccessRates.

(** C10. The success rates are guarded against a zero divisor: neither
    [get_statistics] nor [get_detailed_statistics] raises
    [ZeroDivisionError], whatever the counters hold.  [get_statistics]
    returns a success rate that is the int 0 when [total_readings] is 0,
    and otherwise the float [(successes / total) * 100]: the quotient of
    the two ints rounded to a float, and its product by 100 rounded again.
    [get_detailed_statistics] does the same on [total_cycles], once the
    client has returned its own statistics.  The one way for either to
    raise is the [OverflowError] of a quotient beyond the floats, which
    takes more successes than the total: on counters whose successes do
    not exceed their total both return. *)
Theorem success_rates_guarded (client : IndustrialOPCClient.t)
    (daq : IndustrialDAQSystem.t) :
  let readings := client.(IndustrialOPCClient.stats) in
  let cycles := daq.(IndustrialDAQSystem.stats) in
  let daq_readings :=
    daq.(IndustrialDAQSystem.opc_client).(IndustrialOPCClient.stats) in
  IndustrialOPCClient.get_statistics client <> Py.Raise Py.ZeroDivisionError
  /\ IndustrialDAQSystem.get_detailed_statistics daq
     <> Py.Raise Py.ZeroDivisionError
  /\ (readings.(IndustrialOPCClient.total_readings) = 0%N ->
      exists s,
        IndustrialOPCClient.get_statistics client = Py.Ok s
        /\ s.(IndustrialOPCClient.success_rate) = Py.Int 0)
  /\ (readings.(IndustrialOPCClient.total_readings) <> 0%N ->
      match Py.truediv readings.(IndustrialOPCClient.successful_readings)
                       readings.(IndustrialOPCClient.total_readings) with
      | Py.Ok q =>
          exists s,
            IndustrialOPCClient.get_statistics client = Py.Ok s
            /\ s.(IndustrialOPCClient.success_rate)
               = Py.Float (PrimFloat.mul q 100)
      | Py.Raise e =>
          IndustrialOPCClient.get_statistics client = Py.Raise e
          /\ e = Py.OverflowError
          /\ (readings.(IndustrialOPCClient.total_readings)
              < readings.(IndustrialOPCClient.successful_readings))%N
      end)
  /\ (forall cs,
      IndustrialOPCClient.get_statistics daq.(IndustrialDAQSystem.opc_client)
      = Py.Ok cs ->
      (cycles.(IndustrialDAQSystem.total_cycles) = 0%N ->
       exists d,
         IndustrialDAQSystem.get_detailed_statistics daq = Py.Ok d
         /\ d.(IndustrialDAQSystem.success_rate) = Py.Int 0)
      /\ (cycles.(IndustrialDAQSystem.total_cycles) <> 0%N ->
          match Py.truediv cycles.(IndustrialDAQSystem.successful_cycles)
                           cycles.(IndustrialDAQSystem.total_cycles) with
          | Py.Ok q =>
              exists d,
                IndustrialDAQSystem.get_detailed_statistics daq = Py.Ok d
                /\ d.(IndustrialDAQSystem.success_rate)
                   = Py.Float (PrimFloat.mul q 100)
          | Py.Raise e =>
              IndustrialDAQSystem.get_detailed_statistics daq = Py.Raise e
              /\ e = Py.OverflowError
              /\ (cycles.(IndustrialDAQSystem.total_cycles)
                  < cycles.(IndustrialDAQSystem.successful_cycles))%N
          end))
  /\ ((readings.(IndustrialOPCClient.successful_readings)
       <= readings.(IndustrialOPCClient.total_readings))%N ->
      exists s, IndustrialOPCClient.get_statistics client = Py.Ok s)
  /\ ((daq_readings.(IndustrialOPCClient.successful_readings)
       <= daq_readings.(IndustrialOPCClient.total_readings))%N ->
      (cycles.(IndustrialDAQSystem.successful_cycles)
       <= cycles.(IndustrialDAQSystem.total_cycles))%N ->
      exists d, IndustrialDAQSystem.get_detailed_statistics daq = Py.Ok d).
Proof.
  cbv zeta.
  destruct (client_rate_cases client) as [Hzero Hdiv]. cbv zeta in Hzero, Hdiv.
  split; [apply client_rate_guarded|].
  split; [apply system_rate_guarded|].
  split; [|split; [|split; [|split]]].
  - intros Hz. destruct (Hzero Hz) as (s & Hs & _ & Hrate). exists s. auto.
  - intros Hnz. specialize (Hdiv Hnz).
    destruct (Py.truediv _ _) as [q|e]; [|exact Hdiv].
    destruct Hdiv as (s & Hs & _ & Hrate). exists s. auto.
  - clear Hzero Hdiv. intros cs Hcs.
    destruct (system_rate_cases daq cs Hcs) as [Hzero' Hdiv'].
    cbv zeta in Hzero', Hdiv'. split.
    + intros Hz. destruct (Hzero' Hz) as (d & Hd & _ & _ & Hrate).
      exists d. auto.
    + intros Hnz. specialize (Hdiv' Hnz).
      destruct (Py.truediv _ _) as [q|e]; [|exact Hdiv'].
      destruct Hdiv' as (d & Hd & _ & _ & Hrate). exists d. auto.
  - apply client_rate.
  - intros Hclient Hle.
    destruct (system_rate daq Hclient Hle) as (d & Hd & _). exists d. exact Hd.
Qed.

(** With 1 reading of 3 the client reports 33.33333333333333 and with 2
    cycles of 3 the system reports 66.66666666666666, as Python prints
    them; with nothing counted both report the int 0. *)
Lemma success_rates_guarded_witness :
  (exists s,
      IndustrialOPCClient.get_statistics one_reading_of_three = Py.Ok s
      /\ s.(IndustrialOPCClient.success_rate) = Py.Float 33.33333333333333)
  /\ (exists d,
      IndustrialDAQSystem.get_detailed_statistics two_cycles_of_three = Py.Ok d
      /\ d.(IndustrialDAQSystem.success_rate) = Py.Float 66.66666666666666)
  /\ (exists s,
      IndustrialOPCClient.get_statistics IndustrialOPCClient.init = Py.Ok s
      /\ s.(IndustrialOPCClient.success_rate) = Py.Int 0)
  /\ (exists d,
      IndustrialDAQSystem.get_detailed_statistics IndustrialDAQSystem.init
      = Py.Ok d
      /\ d.(IndustrialDAQSystem.success_rate) = Py.Int 0).
Proof.
  pose proof (success_rates_guarded one_reading_of_three two_cycles_of_three)
    as (_ & _ & _ & Hclient & Hdaq & Hreturns & _).
  pose proof (success_rates_guarded IndustrialOPCClient.init
                IndustrialDAQSystem.init)
    as (_ & _ & Hclient0 & _ & Hdaq0 & Hreturns0 & _).
  cbv zeta in Hclient, Hdaq, Hreturns, Hclient0, Hdaq0, Hreturns0.
  split; [|split; [|split]].
  - specialize (Hclient ltac:(discriminate)).
    vm_compute Py.truediv in Hclient. exact Hclient.
  - destruct Hreturns as (cs & Hcs); [vm_compute; discriminate|].
    destruct (Hdaq cs Hcs) as [_ Hrate].
    specialize (Hrate ltac:(discriminate)).
    vm_compute Py.truediv in Hrate. exact Hrate.
  - apply Hclient0. reflexivity.
  - destruct Hreturns0 as (cs & Hcs); [vm_compute; discriminate|].
    destruct (Hdaq0 cs Hcs) as [Hrate _]. apply Hrate. reflexivity.
Defined.

(** ** The main loop *)

Section Cycle.

Import IndustrialDAQSystem.
Variable cfg : DAQConfig.t.







End Cycle.

Section MainLoop.

Import IndustrialDAQSystem.
Variable cfg : DAQConfig.t.

(** [time.sleep] accepts the pauses the loop writes out: 30, 1 and 5
    seconds. *)
Lemma constant_sleeps_accepted :
  Py.sleep_ok 30 = true /\ Py.sleep_ok 1 = true /\ Py.sleep_ok 5 = true.
Proof. repeat split; vm_compute; reflexivity. Qed.










End MainLoop.




(** ** Rapid change inside a cycle *)

(** A value differs from itself by [0.0] or by [nan], and neither exceeds
    a positive threshold. *)
Lemma self_difference_below (t v : float) :
  (exists m e, Prim2SF t = S754_finite false m e) ->
  PrimFloat.ltb t (PrimFloat.abs (PrimFloat.sub v v)) = false.
Proof.
  intros (m & e & Ht).
  rewrite ltb_spec, abs_spec, sub_spec, Ht.
  destruct (Prim2SF v) as [s|s| |s mv ev]; try (destruct s; reflexivity).
  - reflexivity.
  - unfold SF64sub, SFsub. rewrite Z.sub_diag. reflexivity.
Qed.

(** Every threshold is a positive finite number. *)
Lemma rapid_change_threshold_positive (st : string) :
  exists m e,
    Prim2SF (IndustrialDAQSystem.rapid_change_threshold st) = S754_finite false m e.
Proof.
  unfold IndustrialDAQSystem.rapid_change_threshold.
  repeat match goal with
         | |- context [if ?b then _ else _] => destruct b
         end; vm_compute; eauto.
Qed.

Section CycleWindow.

Import IndustrialDAQSystem.

Lemma values_of_type_app (l1 l2 : list Reading.t) (st : string) :
  values_of_type (l1 ++ l2) st
  = (a <- values_of_type l1 st ;; b <- values_of_type l2 st ;; Py.Ok (a ++ b)).
Proof.
  induction l1 as [|p l1 IH]; simpl.
  - destruct (values_of_type l2 st); reflexivity.
  - destruct (Reading.has_type p st); [|exact IH].
    destruct (Reading.value p) as [v|]; simpl; [|reflexivity].
    rewrite IH.
    destruct (values_of_type l1 st); simpl; [|reflexivity].
    destruct (values_of_type l2 st); reflexivity.
Qed.

Lemma values_of_type_absent (l : list Reading.t) (st : string) :
  (forall q, In q l -> Reading.has_type q st = false) ->
  values_of_type l st = Py.Ok [].
Proof.
  induction l as [|q l IH]; intros Habsent; simpl; [reflexivity|].
  rewrite (Habsent q) by now left.
  apply IH. intros q' Hq'. apply Habsent. now right.
Qed.

Lemma in_skipn_in {A : Type} (k : nat) (l : list A) (x : A) :
  In x (skipn k l) -> In x l.
Proof.
  revert l. induction k as [|k IH]; intros [|y l]; simpl; auto.
Qed.

(** A window that is a suffix of the history sees, of a type that occurs
    last in the reading [p], either nothing or a last value that is the
    value of [p]. *)
Lemma window_ends_with_reading (h p1 p2 : list Reading.t) (p : Reading.t)
    (st : string) (v : float) (k : nat) (previous_values : list float) :
  p.(Reading.sensor_type) = Some st ->
  p.(Reading.value) = Some v ->
  (forall q, In q p2 -> Reading.has_type q st = false) ->
  values_of_type (skipn k (h ++ p1 ++ p :: p2)) st = Py.Ok previous_values ->
  previous_values = [] \/ last previous_values 0%float = v.
Proof.
  intros Hst Hv Habsent.
  rewrite app_assoc, skipn_app.
  destruct (Nat.le_gt_cases k (List.length (h ++ p1))) as [Hk|Hk].
  - replace (k - List.length (h ++ p1))%nat with 0%nat by lia.
    cbn [skipn]. rewrite values_of_type_app.
    destruct (values_of_type (skipn k (h ++ p1)) st) as [a|]; [|discriminate].
    cbn [Py.bind values_of_type]. unfold Reading.has_type.
    rewrite Hst, String.eqb_refl, Hv. cbn [Py.getitem Py.bind].
    rewrite (values_of_type_absent p2 st Habsent). cbn [Py.bind].
    intros H. injection H as <-. right. apply last_last.
  - rewrite skipn_all2 by lia. cbn [app].
    destruct (k - List.length (h ++ p1))%nat as [|j] eqn:E; [lia|].
    cbn [skipn].
    rewrite values_of_type_absent.
    + intros H. injection H as <-. now left.
    + intros q Hq. apply Habsent. eapply in_skipn_in. exact Hq.
Qed.

Lemma window_is_suffix (l : list Reading.t) :
  exists k,
    Py.last_n 10 (if (1000 <? List.length l)%nat then Py.last_n 1000 l else l)
    = skipn k l.
Proof.
  destruct (1000 <? List.length l)%nat; unfold Py.last_n.
  - rewrite skipn_skipn. eexists. reflexivity.
  - eexists. reflexivity.
Qed.

Lemma processed_of_keeps (self : t) (now : Z) (reading : Reading.t) :
  (processed_of self now reading).(Reading.sensor_type)
    = reading.(Reading.sensor_type)
  /\ (processed_of self now reading).(Reading.value) = reading.(Reading.value)
  /\ (processed_of self now reading).(Reading.anomaly) = reading.(Reading.anomaly).
Proof.
  unfold processed_of, enrich.
  destruct (Reading.sensor_type reading) as [st|] eqn:Hst;
    [|cbn; rewrite Hst; auto].
  destruct (Reading.value reading) as [v|] eqn:Hv;
    [|cbn; rewrite Hst, Hv; auto].
  cbn [Py.getitem Py.bind].
  destruct (calculate_moving_average self st v 5) as [m|];
    [|cbn; rewrite Hst, Hv; auto].
  cbn [Py.bind].
  destruct (Py.truthy m); [destruct (PrimFloat.ltb _ _)|];
    cbn; rewrite Hst, Hv; auto.
Qed.

End CycleWindow.

Section CycleDetection.

Import IndustrialDAQSystem.
Variable now : Z.
Variable validated : list Reading.t.
Variable self : t.
Hypothesis one_per_type : NoDup (map Reading.sensor_type validated).

Lemma processed_types :
  map Reading.sensor_type (snd (process_readings now validated self))
  = map Reading.sensor_type validated.
Proof.
  rewrite process_readings_map, map_map.
  apply map_ext. intros r. apply processed_of_keeps.
Qed.

Lemma later_readings_differ (p1 p2 : list Reading.t) (p : Reading.t) (st : string) :
  snd (process_readings now validated self) = p1 ++ p :: p2 ->
  p.(Reading.sensor_type) = Some st ->
  forall q, In q p2 -> Reading.has_type q st = false.
Proof.
  intros Hsplit Hst q Hq.
  pose proof one_per_type as Hnodup.
  rewrite <- processed_types, Hsplit, map_app in Hnodup. cbn [map] in Hnodup.
  apply NoDup_remove_2 in Hnodup.
  unfold Reading.has_type.
  destruct (Reading.sensor_type q) as [s|] eqn:Hs; [|reflexivity].
  destruct (String.eqb_spec s st) as [->|]; [|reflexivity].
  exfalso. apply Hnodup. rewrite in_app_iff. right.
  rewrite Hst, <- Hs. now apply in_map.
Qed.

(** After the batch has been appended to the history, the rapid-change
    block appends nothing for a reading of the batch. *)
Lemma rapid_change_anomaly_silent (p : Reading.t) (a3 : list Anomaly) :
  In p (snd (process_readings now validated self)) ->
  rapid_change_anomaly (fst (process_readings now validated self)) p = Py.Ok a3 ->
  a3 = [].
Proof.
  intros Hin.
  destruct (in_split _ _ Hin) as (p1 & p2 & Hsplit).
  unfold rapid_change_anomaly, _detect_rapid_change.
  destruct (Reading.sensor_type p) as [st|] eqn:Hst; [|discriminate].
  destruct (Reading.value p) as [v|] eqn:Hv; [|discriminate].
  cbn [Py.getitem Py.bind].
  assert (Hhist :
    data_history (fst (process_readings now validated self))
    = if (1000 <? List.length (data_history self
                                ++ snd (process_readings now validated self)))%nat
      then Py.last_n 1000 (data_history self
                           ++ snd (process_readings now validated self))
      else data_history self ++ snd (process_readings now validated self))
    by reflexivity.
  rewrite Hhist.
  destruct (window_is_suffix
              (data_history self ++ snd (process_readings now validated self)))
    as [k ->].
  rewrite Hsplit.
  destruct (values_of_type (skipn k (data_history self ++ p1 ++ p :: p2)) st)
    as [previous_values|] eqn:Hprev; [|discriminate].
  cbn [Py.bind].
  destruct (window_ends_with_reading _ _ _ _ _ _ _ _ Hst Hv
              (later_readings_differ p1 p2 p st Hsplit Hst) Hprev)
    as [->|Hlast].
  - cbn. intros H. now injection H.
  - rewrite Hlast.
    rewrite (self_difference_below _ v (rapid_change_threshold_positive st)).
    destruct (2 <=? List.length previous_values)%nat; cbn;
      intros H; now injection H.
Qed.

End CycleDetection.

Section DetectionSources.

Import IndustrialDAQSystem.

Lemma detect_step_sources (self : t) (p : Reading.t) (a : Anomaly) :
  In a (detect_step self [] p) ->
  (exists a1, tagged_anomaly p = Py.Ok a1 /\ In a a1)
  \/ (exists a2, deviation_anomaly p = Py.Ok a2 /\ In a a2)
  \/ (exists a3, rapid_change_anomaly self p = Py.Ok a3 /\ In a a3).
Proof.
  unfold detect_step.
  destruct (tagged_anomaly p) as [a1|]; [|contradiction].
  destruct (deviation_anomaly p) as [a2|].
  - destruct (rapid_change_anomaly self p) as [a3|]; cbn [app];
      rewrite ?in_app_iff; intros H; intuition eauto.
  - cbn [app]. intros H. left. eauto.
Qed.

Lemma tagged_anomaly_record (p : Reading.t) (a1 : list Anomaly) (a : Anomaly) :
  tagged_anomaly p = Py.Ok a1 -> In a a1 ->
  p.(Reading.anomaly) = Some a.(anomaly_type)
  /\ forall m, a.(description) <> RapidChangeText m.
Proof.
  unfold tagged_anomaly, truthy_tag, _calculate_severity, _get_anomaly_description.
  destruct (Reading.anomaly p) as [tag|]; cbn;
    [|intros H; injection H as <-; contradiction].
  destruct (negb (tag =? "")%string);
    [|intros H; injection H as <-; contradiction].
  destruct (Reading.sensor_type p) as [st|]; [|discriminate].
  destruct (Reading.value p) as [v|]; [|discriminate].
  cbn.
  repeat match goal with
         | |- context [if ?b then _ else _] => destruct b; cbn
         end;
    intros H; injection H as <-; intros [<-|[]]; cbn;
    (split; [reflexivity|discriminate]).
Qed.

Lemma deviation_anomaly_record (p : Reading.t) (a2 : list Anomaly) (a : Anomaly) :
  deviation_anomaly p = Py.Ok a2 -> In a a2 ->
  a.(anomaly_type) = "HIGH_DEVIATION"
  /\ forall m, a.(description) <> RapidChangeText m.
Proof.
  unfold deviation_anomaly.
  destruct (Reading.high_deviation p);
    [|intros H; injection H as <-; contradiction].
  destruct (Reading.sensor_type p) as [st|]; [|discriminate].
  destruct (Reading.value p) as [v|]; [|discriminate].
  cbn. intros H; injection H as <-; intros [<-|[]]; cbn.
  split; [reflexivity|discriminate].
Qed.

End DetectionSources.

(** [process_readings] appends the batch to the history before
    [detect_anomalies] runs, so that the most recent history value of a
    reading's sensor type is the reading's own: for a batch with one reading
    per sensor type, the rapid-change block appends nothing, and an anomaly
    of type RAPID_CHANGE is returned only for a reading that already
    carried that tag. *)
Lemma batch_raises_no_rapid_change (now : Z) (validated : list Reading.t)
    (self : IndustrialDAQSystem.t) (a : IndustrialDAQSystem.Anomaly) :
  NoDup (map Reading.sensor_type validated) ->
  In a (snd (IndustrialDAQSystem.detect_anomalies
               (snd (IndustrialDAQSystem.process_readings now validated self))
               (fst (IndustrialDAQSystem.process_readings now validated self)))) ->
  (forall m, a.(IndustrialDAQSystem.description)
             <> IndustrialDAQSystem.RapidChangeText m)
  /\ (a.(IndustrialDAQSystem.anomaly_type) = "RAPID_CHANGE" ->
      exists r, In r validated /\ r.(Reading.anomaly) = Some "RAPID_CHANGE").
Proof.
  intros Hnodup.
  rewrite detect_anomalies_flat_map, in_flat_map.
  intros (p & Hp & Ha).
  destruct (detect_step_sources _ _ _ Ha)
    as [(a1 & H1 & Hin)|[(a2 & H2 & Hin)|(a3 & H3 & Hin)]].
  - destruct (tagged_anomaly_record p a1 a H1 Hin) as [Htag Hdesc].
    split; [exact Hdesc|].
    intros Htype. rewrite Htype in Htag.
    rewrite process_readings_map, in_map_iff in Hp.
    destruct Hp as (r & <- & Hr).
    exists r. split; [exact Hr|].
    destruct (processed_of_keeps self now r) as (_ & _ & <-). exact Htag.
  - destruct (deviation_anomaly_record p a2 a H2 Hin) as [Htype Hdesc].
    split; [exact Hdesc|]. rewrite Htype. discriminate.
  - rewrite (rapid_change_anomaly_silent now validated self Hnodup p a3 Hp H3)
      in Hin.
    contradiction.
Qed.

Example batch_raises_no_rapid_change_example :
  let earlier := Reading.acquired 1 DAQConfig.default "temperature" 20%float "°C" 100 "OK" in
  let current := Reading.acquired 3 DAQConfig.default "temperature" 26%float "°C" 100 "OK" in
  let self :=
    IndustrialDAQSystem.set_data_history IndustrialDAQSystem.init [earlier; earlier] in
  ~ In "RAPID_CHANGE"
       (map IndustrialDAQSystem.anomaly_type
          (snd (IndustrialDAQSystem.detect_anomalies
                  (snd (IndustrialDAQSystem.process_readings 4 [current] self))
                  (fst (IndustrialDAQSystem.process_readings 4 [current] self))))).
Proof.
  intros earlier current self Hin.
  apply in_map_iff in Hin. destruct Hin as (a & Htype & Ha).
  destruct (proj2 (batch_raises_no_rapid_change 4 [current] self a
                     ltac:(repeat constructor; simpl; tauto) Ha) Htype)
    as (r & [<-|[]] & Hr).
  discriminate Hr.
Qed.

(** ** No rapid change is recorded by a cycle *)

Section KeyedLoops.

Context {A B K : Type}.
Variable key : B -> K.
Variable source_key : A -> K.
Variable emit : A -> list B.
Hypothesis emit_key : forall a b, In b (emit a) -> key b = source_key a.
Hypothesis emit_one : forall a, (List.length (emit a) <= 1)%nat.

(** A loop that appends at most one entry per turn, with the key of the
    turn, keeps keys distinct. *)
Lemma flat_map_keys_nodup (l : list A) :
  NoDup (map source_key l) -> NoDup (map key (flat_map emit l)).
Proof.
  induction l as [|a l IH]; cbn [map flat_map]; intros Hnodup.
  - constructor.
  - apply NoDup_cons_iff in Hnodup. destruct Hnodup as [Hfresh Hrest].
    specialize (IH Hrest).
    pose proof (emit_one a) as Hone. pose proof (emit_key a) as Hkey.
    destruct (emit a) as [|b [|b' bs]]; cbn in *; [exact IH| |lia].
    constructor; [|exact IH].
    intros Hin. apply Hfresh.
    rewrite (Hkey b) in Hin by now left.
    apply in_map_iff in Hin. destruct Hin as (b0 & Hb0 & Hin).
    apply in_flat_map in Hin. destruct Hin as (a0 & Ha0 & Hin).
    rewrite <- Hb0, (emit_key a0 b0 Hin). now apply in_map.
Qed.

End KeyedLoops.

Lemma nodup_map_some {A : Type} (l : list A) :
  NoDup l -> NoDup (map (@Some A) l).
Proof.
  induction 1 as [|a l Hfresh _ IH]; cbn [map]; constructor; [|exact IH].
  rewrite in_map_iff. intros (b & Hb & Hin). injection Hb as ->. auto.
Qed.

Section RecordedAnomalies.

Import IndustrialDAQSystem.
Variable cfg : DAQConfig.t.

Lemma read_sensor_fold (current_time : Z)
    (bus : string -> option IndustrialOPCClient.sample) (nodes : list string)
    (acc : list Reading.t) (s : IndustrialOPCClient.Stats) :
  fst (fold_left (IndustrialOPCClient.read_sensor cfg current_time bus) nodes (acc, s))
  = acc ++ flat_map (read_of cfg current_time bus) nodes.
Proof.
  revert acc s. induction nodes as [|n nodes IH]; intros acc s; cbn [fold_left flat_map].
  - now rewrite app_nil_r.
  - unfold IndustrialOPCClient.read_sensor at 2, read_of at 1.
    destruct (bus n); rewrite IH; [rewrite <- app_assoc|]; reflexivity.
Qed.

Lemma acquired_readings_flat_map (x : tick) (self : t) :
  acquired_readings cfg x self
  = if negb self.(opc_client).(IndustrialOPCClient.connected) then []
    else flat_map (read_of cfg (tick_now x) (tick_bus x))
           self.(opc_client).(IndustrialOPCClient.sensor_nodes).
Proof.
  unfold acquired_readings, IndustrialOPCClient.read_sensor_data.
  destruct (negb (IndustrialOPCClient.connected (opc_client self)));
    [reflexivity|].
  pose proof (read_sensor_fold (tick_now x) (tick_bus x)
                (IndustrialOPCClient.sensor_nodes (opc_client self)) []
                (IndustrialOPCClient.stats (opc_client self))) as Hfold.
  destruct (fold_left _ _ _) as [readings s]. exact Hfold.
Qed.

Lemma read_of_fresh (current_time : Z)
    (bus : string -> option IndustrialOPCClient.sample) (n : string)
    (r : Reading.t) :
  In r (read_of cfg current_time bus n) ->
  r.(Reading.sensor_type) = Some n /\ r.(Reading.anomaly) = None.
Proof.
  unfold read_of. destruct (bus n); [|contradiction].
  intros [<-|[]]. split; reflexivity.
Qed.

Lemma acquired_readings_distinct (x : tick) (self : t) :
  NoDup self.(opc_client).(IndustrialOPCClient.sensor_nodes) ->
  NoDup (map Reading.sensor_type (acquired_readings cfg x self))
  /\ forall r, In r (acquired_readings cfg x self) -> r.(Reading.anomaly) = None.
Proof.
  intros Hnodup. rewrite acquired_readings_flat_map.
  destruct (negb (IndustrialOPCClient.connected (opc_client self))).
  { split; [constructor|contradiction]. }
  split.
  - apply (flat_map_keys_nodup Reading.sensor_type (@Some string)).
    + intros n r Hr. now apply (read_of_fresh _ _ _ _ Hr).
    + intros n. unfold read_of. destruct (tick_bus x n); simpl; lia.
    + apply nodup_map_some. exact Hnodup.
  - intros r Hr. apply in_flat_map in Hr. destruct Hr as (n & _ & Hr).
    now apply (read_of_fresh _ _ _ _ Hr).
Qed.

Lemma check_reading_tag (reading r : Reading.t) :
  check_reading cfg reading = Py.Ok (Some r) ->
  r.(Reading.sensor_type) = reading.(Reading.sensor_type)
  /\ (r.(Reading.anomaly) = reading.(Reading.anomaly)
      \/ r.(Reading.anomaly) = Some "OUT_OF_RANGE"
      \/ r.(Reading.anomaly) = Some "HIGH_VIBRATION").
Proof.
  intros Hcheck.
  destruct (check_reading_kept cfg _ _ Hcheck) as [_ [->|(tag & ->)]];
    [auto|].
  split; [reflexivity|].
  revert Hcheck. unfold check_reading.
  destruct (Reading.sensor_type reading) as [st|]; simpl; [|discriminate].
  destruct (Reading.value reading) as [v|]; simpl; [|discriminate].
  destruct (Reading.quality reading <? DAQConfig.min_quality_threshold cfg)%Z;
    [discriminate|].
  repeat match goal with
         | |- context [if ?b then _ else _] => destruct b
         end;
    intros H; injection H as H;
    first [subst tag; auto | left; rewrite H; reflexivity].
Qed.

Lemma validated_readings_distinct (readings : list Reading.t) :
  NoDup (map Reading.sensor_type readings) ->
  (forall r, In r readings -> r.(Reading.anomaly) = None) ->
  NoDup (map Reading.sensor_type (validate_readings cfg readings))
  /\ forall r, In r (validate_readings cfg readings) ->
               r.(Reading.anomaly) <> Some "RAPID_CHANGE".
Proof.
  intros Hnodup Hfresh. rewrite validate_readings_flat_map. split.
  - apply (flat_map_keys_nodup Reading.sensor_type Reading.sensor_type);
      [| |exact Hnodup].
    + intros reading r Hr. unfold validated_of in Hr.
      destruct (check_reading cfg reading) as [[r'|]|] eqn:E;
        try contradiction.
      destruct Hr as [<-|[]]. now apply check_reading_tag.
    + intros reading. rewrite validated_of_length.
      destruct (passes_quality cfg reading); lia.
  - intros r Hr. apply in_flat_map in Hr. destruct Hr as (reading & Hin & Hr).
    unfold validated_of in Hr.
    destruct (check_reading cfg reading) as [[r'|]|] eqn:E; try contradiction.
    destruct Hr as [<-|[]].
    destruct (check_reading_tag _ _ E) as (_ & [H|[H|H]]); rewrite H;
      [rewrite (Hfresh reading Hin)| |]; discriminate.
Qed.

Lemma handle_anomalies_trace (anomalies : list Anomaly) (acc : t * list Trace.event) :
  snd (fold_left (handle_step cfg) anomalies acc)
  = snd acc ++ map (fun a => Trace.InsertReading (anomaly_record cfg a)) anomalies.
Proof.
  revert acc. induction anomalies as [|a anomalies IH]; intros [s tr]; simpl.
  - now rewrite app_nil_r.
  - rewrite IH. simpl. now rewrite <- app_assoc.
Qed.

Lemma store_readings_trace (db_ok : bool) (readings : list Reading.t)
    (client : IndustrialOPCClient.t) (e : Trace.event) :
  In e (snd (IndustrialOPCClient.store_readings cfg db_ok readings client)) ->
  exists rows, e = Trace.InsertBatch rows.
Proof.
  unfold IndustrialOPCClient.store_readings.
  destruct readings as [|r readings]; [contradiction|].
  repeat match goal with
         | |- context [if ?b then _ else _] => destruct b
         end; cbn; intros [<-|[]] || contradiction; eauto.
Qed.

(** The events of a cycle are the inserts of the anomalies detected on the
    processed readings, then the batch inserts of [store_readings]. *)
Lemma cycle_trace_events (x : tick) (self : t) (e : Trace.event) :
  In e (cycle_trace cfg x self) ->
  (exists rows, e = Trace.InsertBatch rows)
  \/ (exists a,
        e = Trace.InsertReading (anomaly_record cfg a)
        /\ In a (snd (detect_anomalies (snd (processed_cycle cfg x self))
                                       (fst (processed_cycle cfg x self))))).
Proof.
  unfold cycle_trace, processed_cycle, acquired_readings, client_after_read,
    acquisition_cycle.
  change (opc_client (count_cycle self)) with (opc_client self).
  destruct (IndustrialOPCClient.read_sensor_data cfg (tick_now x) (tick_bus x)
              (opc_client self)) as [client readings].
  cbn [fst snd].
  destruct readings as [|r readings]; [contradiction|].
  destruct (validate_readings cfg (r :: readings)) as [|r' validated];
    [contradiction|].
  set (processed := process_readings (tick_now x) (r' :: validated)
                      (set_opc_client (count_cycle self) client)).
  rewrite (surjective_pairing processed).
  destruct (detect_anomalies (snd processed) (fst processed))
    as [self2 anomalies] eqn:Hdetect.
  cbn [snd].
  assert (Hh : exists self3,
    match anomalies with
    | _ :: _ => handle_anomalies cfg anomalies self2
    | [] => (self2, [])
    end
    = (self3, map (fun a => Trace.InsertReading (anomaly_record cfg a)) anomalies)).
  { destruct anomalies as [|a anomalies]; [eexists; reflexivity|].
    unfold handle_anomalies.
    pose proof (handle_anomalies_trace (a :: anomalies) (self2, [])) as Htr.
    destruct (fold_left (handle_step cfg) (a :: anomalies) (self2, []))
      as [self3 tr1].
    exists self3. cbn [snd app] in Htr. now rewrite Htr. }
  destruct Hh as (self3 & ->).
  pose proof (store_readings_trace (tick_db_ok x) (snd processed)
                (opc_client self3)) as Hstore.
  destruct (IndustrialOPCClient.store_readings cfg (tick_db_ok x)
              (snd processed) (opc_client self3))
    as [[client' storage_success] tr2].
  cbn [snd] in Hstore.
  assert (Hin : In e (map (fun a => Trace.InsertReading (anomaly_record cfg a))
                        anomalies ++ tr2) ->
                (exists rows, e = Trace.InsertBatch rows)
                \/ (exists a, e = Trace.InsertReading (anomaly_record cfg a)
                              /\ In a anomalies)).
  { rewrite in_app_iff, in_map_iff. intros [(a & <- & Ha)|Htr2].
    - right. eauto.
    - left. now apply Hstore. }
  assert (Hgoal : In e (map (fun a => Trace.InsertReading (anomaly_record cfg a))
                          anomalies ++ tr2) ->
                  (exists rows, e = Trace.InsertBatch rows)
                  \/ (exists a, e = Trace.InsertReading (anomaly_record cfg a)
                                /\ In a (snd (detect_anomalies (snd processed)
                                                               (fst processed))))).
  { rewrite Hdetect. exact Hin. }
  destruct storage_success; cbn [snd]; exact Hgoal.
Qed.

End RecordedAnomalies.

(** X1. With one mapped node per sensor type, no cycle records a
    RAPID_CHANGE anomaly, whatever the history and whatever the bus and the
    database answer. *)
Theorem cycle_records_no_rapid_change (cfg : DAQConfig.t)
    (x : IndustrialDAQSystem.tick) (self : IndustrialDAQSystem.t)
    (row : Reading.t) :
  NoDup self.(IndustrialDAQSystem.opc_client).(IndustrialOPCClient.sensor_nodes) ->
  In (Trace.InsertReading row) (cycle_trace cfg x self) ->
  row.(Reading.status) <> "RAPID_CHANGE".
Proof.
  intros Hnodes Hin.
  destruct (cycle_trace_events cfg x self _ Hin) as [(rows & H)|(a & H & Ha)];
    [discriminate|].
  injection H as ->. cbn [IndustrialDAQSystem.anomaly_record Reading.status].
  destruct (acquired_readings_distinct cfg x self Hnodes) as [Hacq Hfresh].
  destruct (validated_readings_distinct cfg _ Hacq Hfresh) as [Hval Htags].
  intros Htype.
  destruct (proj2 (batch_raises_no_rapid_change _ _ _ a Hval Ha) Htype)
    as (r & Hr & Hrtag).
  exact (Htags r Hr Hrtag).
Qed.

Lemma cycle_records_no_rapid_change_witness :
  ~ In (Trace.InsertReading
          (IndustrialDAQSystem.anomaly_record DAQConfig.default
             (rapid_change_record
                (Reading.acquired 3 DAQConfig.default "temperature" 26%float
                   "°C" 100 "OK")
                "temperature" 26%float 6%float)))
       (cycle_trace DAQConfig.default temperature_jump settled_system).
Proof.
  intros Hin.
  refine (cycle_records_no_rapid_change DAQConfig.default temperature_jump
            settled_system _ _ Hin _).
  - repeat constructor. simpl. tauto.
  - reflexivity.
Defined.

(** C1. The rapid change the specification describes is not raised by a
    cycle.  The history holds two temperatures of 20.0 and the sensor
    reads 26.0: the change of 6.0 exceeds the threshold of 5.0, and
    [detect_anomalies] called on the reading with the history as it was
    returns the RAPID_CHANGE record with change rate 6.0.
    [acquisition_cycle] calls [process_readings] first, which appends the
    reading to the history: the detection then finds 26.0, the reading's
    own value, as the most recent temperature, [_detect_rapid_change]
    returns [None], and the cycle records the deviation from the moving
    average alone. *)
Theorem rapid_change_missed_in_cycle :
  let cfg := DAQConfig.default in
  let current := Reading.acquired 3 cfg "temperature" 26%float "°C" 100 "OK" in
  let in_cycle := fst (processed_cycle cfg temperature_jump settled_system) in
  IndustrialDAQSystem.values_of_type
    (Py.last_n 10 settled_system.(IndustrialDAQSystem.data_history))
    "temperature" = Py.Ok [20%float; 20%float]
  /\ acquired_readings cfg temperature_jump settled_system = [current]
  /\ PrimFloat.ltb (IndustrialDAQSystem.rapid_change_threshold "temperature")
                   (PrimFloat.abs (PrimFloat.sub 26 20)) = true
  /\ snd (IndustrialDAQSystem.detect_anomalies [current] settled_system)
     = [rapid_change_record current "temperature" 26%float 6%float]
  /\ IndustrialDAQSystem.values_of_type
       (Py.last_n 10 in_cycle.(IndustrialDAQSystem.data_history))
       "temperature" = Py.Ok [20%float; 20%float; 26%float]
  /\ map (IndustrialDAQSystem._detect_rapid_change in_cycle)
         (snd (processed_cycle cfg temperature_jump settled_system))
     = [Py.Ok None]
  /\ map IndustrialDAQSystem.anomaly_type
         (cycle_anomalies cfg temperature_jump settled_system)
     = ["HIGH_DEVIATION"]
  /\ map IndustrialDAQSystem.anomaly_type
         (after_cycle cfg temperature_jump settled_system)
           .(IndustrialDAQSystem.anomaly_buffer)
     = ["HIGH_DEVIATION"].
Proof.
  repeat split; vm_compute; reflexivity.
Qed.

(** ** Severity and history bound *)

(** X2. A reading tagged HIGH_VIBRATION is given the severity CRITICAL
    when its value exceeds 2.0 and HIGH otherwise: CRITICAL at 2.5, HIGH at
    1.9. *)
Theorem high_vibration_severity (reading : Reading.t) (st : string) (v : float) :
  reading.(Reading.sensor_type) = Some st ->
  reading.(Reading.value) = Some v ->
  reading.(Reading.anomaly) = Some "HIGH_VIBRATION" ->
  IndustrialDAQSystem._calculate_severity reading
    = Py.Ok (if PrimFloat.ltb 2%float v
             then IndustrialDAQSystem.CRITICAL else IndustrialDAQSystem.HIGH)
  /\ (v = 2.5%float ->
      IndustrialDAQSystem._calculate_severity reading
      = Py.Ok IndustrialDAQSystem.CRITICAL)
  /\ (v = 1.9%float ->
      IndustrialDAQSystem._calculate_severity reading
      = Py.Ok IndustrialDAQSystem.HIGH).
Proof.
  intros Hst Hv Htag.
  assert (H : IndustrialDAQSystem._calculate_severity reading
              = Py.Ok (if PrimFloat.ltb 2%float v
                       then IndustrialDAQSystem.CRITICAL
                       else IndustrialDAQSystem.HIGH)).
  { unfold IndustrialDAQSystem._calculate_severity.
    rewrite Hst, Hv, Htag. cbn.
    destruct (PrimFloat.ltb 2 v); reflexivity. }
  split; [exact H|].
  split; intros ->; rewrite H; reflexivity.
Qed.

Lemma high_vibration_severity_witness :
  IndustrialDAQSystem._calculate_severity
    (Reading.set_anomaly
       (Reading.acquired 0 DAQConfig.default "vibration" 2.5%float "mm/s" 100 "OK")
       "HIGH_VIBRATION")
  = Py.Ok IndustrialDAQSystem.CRITICAL.
Proof.
  refine (proj1 (proj2 (high_vibration_severity _ "vibration" 2.5%float _ _ _)) _);
    reflexivity.
Defined.


(** ** The client: reading, discovery and statistics *)

Section ClientReads.

Import IndustrialOPCClient.
Variable cfg : DAQConfig.t.
Variable current_time : Z.
Variable bus : string -> option sample.

Lemma read_sensor_fold_stats (nodes : list string) (acc : list Reading.t) (s : Stats) :
  snd (fold_left (read_sensor cfg current_time bus) nodes (acc, s))
  = mkStats s.(total_readings)
      (s.(successful_readings)
       + N.of_nat (List.length (filter (readable bus) nodes)))
      (s.(failed_readings)
       + N.of_nat (List.length (filter (fun n => negb (readable bus n)) nodes)))
      s.(last_reading_time) s.(connection_attempts).
Proof.
  revert acc s. induction nodes as [|n nodes IH]; intros acc s; cbn [fold_left filter].
  - cbn. rewrite !N.add_0_r. now destruct s.
  - unfold read_sensor at 2.
    destruct (bus n) as [x|] eqn:E.
    + assert (Hr : readable bus n = true) by (unfold readable; now rewrite E).
      rewrite Hr, IH. cbn [negb List.length total_readings successful_readings
        failed_readings last_reading_time connection_attempts].
      f_equal; lia.
    + assert (Hr : readable bus n = false) by (unfold readable; now rewrite E).
      rewrite Hr, IH. cbn [negb List.length total_readings successful_readings
        failed_readings last_reading_time connection_attempts].
      f_equal; lia.
Qed.

Lemma read_of_length (n : string) :
  List.length (read_of cfg current_time bus n)
  = if readable bus n then 1%nat else 0%nat.
Proof. unfold read_of, readable. destruct (bus n); reflexivity. Qed.

Lemma read_of_types (nodes : list string) :
  map Reading.sensor_type (flat_map (read_of cfg current_time bus) nodes)
  = map (@Some string) (filter (readable bus) nodes).
Proof.
  induction nodes as [|n nodes IH]; cbn [flat_map filter map]; [reflexivity|].
  rewrite map_app, IH. unfold read_of at 1, readable at 2.
  destruct (bus n); reflexivity.
Qed.

Lemma read_sensor_data_readings (self : t) :
  snd (read_sensor_data cfg current_time bus self)
  = if negb self.(connected) then []
    else flat_map (read_of cfg current_time bus) self.(sensor_nodes).
Proof.
  unfold read_sensor_data.
  destruct (negb (connected self)); [reflexivity|].
  pose proof (read_sensor_fold cfg current_time bus (sensor_nodes self) []
                (stats self)) as Hfold.
  destruct (fold_left _ _ _) as [readings s]. exact Hfold.
Qed.

End ClientReads.

Section ClientReadsTheorems.

Import IndustrialOPCClient.

Lemma read_sensor_data_connected (cfg : DAQConfig.t) (current_time : Z)
    (bus : string -> option sample) (self : t) :
  self.(connected) = true ->
  read_sensor_data cfg current_time bus self
  = (set_stats self
       (mkStats
          (self.(stats).(total_readings)
           + N.of_nat (List.length (flat_map (read_of cfg current_time bus)
                                      self.(sensor_nodes))))
          (self.(stats).(successful_readings)
           + N.of_nat (List.length (filter (readable bus) self.(sensor_nodes))))
          (self.(stats).(failed_readings)
           + N.of_nat (List.length (filter (fun n => negb (readable bus n))
                                      self.(sensor_nodes))))
          (Some current_time) self.(stats).(connection_attempts)),
     flat_map (read_of cfg current_time bus) self.(sensor_nodes)).
Proof.
  intros Hc. unfold read_sensor_data. rewrite Hc. cbn [negb].
  pose proof (read_sensor_fold cfg current_time bus (sensor_nodes self) []
                (stats self)) as Hfst.
  pose proof (read_sensor_fold_stats cfg current_time bus (sensor_nodes self) []
                (stats self)) as Hsnd.
  destruct (fold_left _ _ _) as [readings s].
  cbn [fst snd app] in Hfst, Hsnd. subst readings s. reflexivity.
Qed.

Lemma flat_map_read_of_length (cfg : DAQConfig.t) (current_time : Z)
    (bus : string -> option sample) (nodes : list string) :
  List.length (flat_map (read_of cfg current_time bus) nodes)
  = List.length (filter (readable bus) nodes).
Proof.
  rewrite <- (length_map Reading.sensor_type), read_of_types, length_map.
  reflexivity.
Qed.

End ClientReadsTheorems.

(** X4. [read_sensor_data] returns nothing and changes nothing when the
    client is not connected.  When it is, it returns one reading for each
    mapped sensor whose value could be read, in mapping order, carrying the
    value read and the defaults 100, OK and the current time for the fields
    that could not be read; a sensor whose value cannot be read is skipped
    and counted as failed, without affecting the others. *)
Theorem read_sensor_data_isolates_failures (cfg : DAQConfig.t) (current_time : Z)
    (bus : string -> option IndustrialOPCClient.sample)
    (self : IndustrialOPCClient.t) :
  (self.(IndustrialOPCClient.connected) = false ->
   IndustrialOPCClient.read_sensor_data cfg current_time bus self = (self, []))
  /\ (self.(IndustrialOPCClient.connected) = true ->
      let after := fst (IndustrialOPCClient.read_sensor_data cfg current_time bus self) in
      let readings := snd (IndustrialOPCClient.read_sensor_data cfg current_time bus self) in
      map Reading.sensor_type readings
        = map (@Some string)
            (filter (readable bus) self.(IndustrialOPCClient.sensor_nodes))
      /\ (forall n x,
            In n self.(IndustrialOPCClient.sensor_nodes) -> bus n = Some x ->
            In (Reading.acquired
                  (IndustrialOPCClient.default current_time
                     x.(IndustrialOPCClient.sample_timestamp))
                  cfg n x.(IndustrialOPCClient.sample_value)
                  (IndustrialOPCClient._get_sensor_unit n)
                  (IndustrialOPCClient.default 100%Z
                     x.(IndustrialOPCClient.sample_quality))
                  (IndustrialOPCClient.default "OK"
                     x.(IndustrialOPCClient.sample_status)))
               readings)
      /\ after.(IndustrialOPCClient.stats).(IndustrialOPCClient.successful_readings)
         = (self.(IndustrialOPCClient.stats).(IndustrialOPCClient.successful_readings)
            + N.of_nat (List.length readings))%N
      /\ after.(IndustrialOPCClient.stats).(IndustrialOPCClient.failed_readings)
         = (self.(IndustrialOPCClient.stats).(IndustrialOPCClient.failed_readings)
            + N.of_nat (List.length self.(IndustrialOPCClient.sensor_nodes)
                        - List.length readings))%N
      /\ after.(IndustrialOPCClient.stats).(IndustrialOPCClient.total_readings)
         = (self.(IndustrialOPCClient.stats).(IndustrialOPCClient.total_readings)
            + N.of_nat (List.length readings))%N).
Proof.
  split.
  - intros Hc. unfold IndustrialOPCClient.read_sensor_data. now rewrite Hc.
  - intros Hc after readings. subst after readings.
    rewrite (read_sensor_data_connected cfg current_time bus self Hc).
    cbn [fst snd IndustrialOPCClient.stats IndustrialOPCClient.set_stats
         IndustrialOPCClient.successful_readings
         IndustrialOPCClient.failed_readings
         IndustrialOPCClient.total_readings].
    rewrite flat_map_read_of_length.
    split; [apply read_of_types|].
    split.
    { intros n x Hn Hx. apply in_flat_map. exists n. split; [exact Hn|].
      unfold read_of. rewrite Hx. now left. }
    split; [reflexivity|]. split; [|reflexivity].
    f_equal. f_equal.
    pose proof (filter_length (readable bus)
                  (IndustrialOPCClient.sensor_nodes self)) as Hlen.
    lia.
Qed.

Section ClientInvariants.

Import IndustrialOPCClient.
Variable cfg : DAQConfig.t.

Lemma connect_loop_keeps (attempts : list nat) (retry_delay : float)
    (bus : nat -> attempt) (self : t) :
  let after := fst (fst (connect_loop attempts retry_delay bus self)) in
  after.(sensor_nodes) = self.(sensor_nodes)
  /\ after.(data_buffer) = self.(data_buffer)
  /\ after.(stats).(total_readings) = self.(stats).(total_readings)
  /\ after.(stats).(successful_readings) = self.(stats).(successful_readings)
  /\ after.(stats).(failed_readings) = self.(stats).(failed_readings).
Proof.
  revert retry_delay self.
  induction attempts as [|k attempts IH]; intros retry_delay self; cbn.
  - repeat split.
  - destruct (attempt_succeeds (bus k)); [repeat split|].
    specialize (IH (PrimFloat.mul retry_delay 1.5) (count_attempt self)).
    destruct (connect_loop attempts _ bus (count_attempt self)) as [[s r] tr].
    cbn in IH.
    match goal with
    | |- context [if ?b then _ else _] => destruct b
    end; [exact IH|repeat split].
Qed.

Lemma determine_sensor_type_known (name sensor_type : string) :
  _determine_sensor_type name = Some sensor_type ->
  In sensor_type known_sensor_types.
Proof.
  unfold _determine_sensor_type, known_sensor_types.
  repeat match goal with
         | |- context [if ?b then _ else _] => destruct b
         end; intros H; inversion H; simpl; auto.
Qed.

Lemma map_sensor_spec (mapped : list string) (sensor_type : string) :
  incl mapped (map_sensor mapped sensor_type)
  /\ In sensor_type (map_sensor mapped sensor_type)
  /\ (forall t, In t (map_sensor mapped sensor_type) ->
                In t mapped \/ t = sensor_type)
  /\ (NoDup mapped -> NoDup (map_sensor mapped sensor_type)).
Proof.
  unfold map_sensor.
  destruct (existsb (String.eqb sensor_type) mapped) eqn:E.
  - apply existsb_exists in E. destruct E as (t & Ht & Heq).
    apply String.eqb_eq in Heq. subst t.
    repeat split; auto using incl_refl.
  - assert (Hfresh : ~ In sensor_type mapped).
    { intros Hin.
      assert (existsb (String.eqb sensor_type) mapped = true) as Hex.
      { apply existsb_exists. exists sensor_type.
        split; [exact Hin|apply String.eqb_refl]. }
      congruence. }
    repeat split.
    + apply incl_appl, incl_refl.
    + apply in_or_app. right. now left.
    + intros t Ht. apply in_app_or in Ht. destruct Ht as [Ht|[<-|[]]]; auto.
    + intros Hnodup. apply NoDup_app; [exact Hnodup|repeat constructor; auto|].
      intros t Ht [<-|[]]. contradiction.
Qed.

Lemma discover_loop_spec (sensor_folders : list node) (mapped : list string) :
  let mapped' := fst (discover_loop sensor_folders mapped) in
  incl mapped mapped'
  /\ (forall t, In t mapped' -> In t mapped \/ In t known_sensor_types)
  /\ (NoDup mapped -> NoDup mapped').
Proof.
  revert mapped.
  induction sensor_folders as [|f folders IH]; intros mapped; cbn [discover_loop].
  - cbn. repeat split; auto using incl_refl.
  - destruct (name_of f) as [name|]; [|apply IH].
    destruct (children_of f) as [nodes|];
      [|cbn; repeat split; auto using incl_refl].
    destruct (has_value_node nodes); [|apply IH].
    destruct (_determine_sensor_type name) as [sensor_type|] eqn:E; [|apply IH].
    destruct (map_sensor_spec mapped sensor_type) as (H1 & _ & H3 & H4).
    destruct (IH (map_sensor mapped sensor_type)) as (I1 & I2 & I3).
    cbn zeta. repeat split.
    + eapply incl_tran; eassumption.
    + intros t Ht. destruct (I2 t Ht) as [Hm|Hk]; [|now right].
      destruct (H3 t Hm) as [Hm' | ->]; [now left|right].
      eapply determine_sensor_type_known. exact E.
    + intros Hnodup. auto.
Qed.

Lemma discover_sensor_nodes_keeps (objects : option (list node)) (self : t) :
  let after := fst (discover_sensor_nodes cfg objects self) in
  after.(connected) = self.(connected)
  /\ after.(data_buffer) = self.(data_buffer)
  /\ after.(stats) = self.(stats)
  /\ incl self.(sensor_nodes) after.(sensor_nodes)
  /\ (forall t, In t after.(sensor_nodes) ->
                In t self.(sensor_nodes) \/ In t known_sensor_types)
  /\ (NoDup self.(sensor_nodes) -> NoDup after.(sensor_nodes))
  /\ (snd (discover_sensor_nodes cfg objects self) = true ->
      self.(connected) = true /\ after.(sensor_nodes) <> []).
Proof.
  unfold discover_sensor_nodes.
  destruct (connected self) eqn:Hc; cbn [negb]; [|unchanged_client].
  destruct objects as [children|]; [|unchanged_client].
  destruct (find_folder _ children) as [machine_folder|]; [|unchanged_client].
  destruct (children_of machine_folder) as [machine_children|];
    [|unchanged_client].
  destruct (find_folder "Sensors" machine_children) as [sensors_folder|];
    [|unchanged_client].
  destruct (children_of sensors_folder) as [sensor_folders|];
    [|unchanged_client].
  destruct (discover_loop_spec sensor_folders (sensor_nodes self))
    as (H1 & H2 & H3).
  destruct (discover_loop sensor_folders (sensor_nodes self))
    as [mapped completed].
  cbn [fst] in H1, H2, H3.
  destruct completed; cbn; repeat split; auto; try discriminate.
  intros Hnil. subst mapped. discriminate.
Qed.

End ClientInvariants.

Section ClientRuns.

Import IndustrialOPCClient.
Variable cfg : DAQConfig.t.

Lemma store_readings_keeps (db_ok : bool) (readings : list Reading.t) (self : t) :
  let after := fst (fst (store_readings cfg db_ok readings self)) in
  after.(stats) = self.(stats)
  /\ after.(sensor_nodes) = self.(sensor_nodes)
  /\ after.(connected) = self.(connected).
Proof.
  unfold store_readings.
  destruct readings as [|r readings]; [repeat split|].
  repeat match goal with
         | |- context [if ?b then _ else _] => destruct b
         end; repeat split.
Qed.

Lemma disconnect_keeps (bus_ok : bool) (self : t) :
  let after := fst (disconnect bus_ok self) in
  after.(stats) = self.(stats) /\ after.(sensor_nodes) = self.(sensor_nodes).
Proof.
  unfold disconnect.
  destruct (connected self); [|repeat split].
  destruct (data_buffer self); destruct bus_ok; repeat split.
Qed.

Lemma read_sensor_data_keeps (current_time : Z) (bus : string -> option sample)
    (self : t) :
  let after := fst (read_sensor_data cfg current_time bus self) in
  after.(sensor_nodes) = self.(sensor_nodes)
  /\ (self.(stats).(successful_readings) = self.(stats).(total_readings) ->
      after.(stats).(successful_readings) = after.(stats).(total_readings)).
Proof.
  destruct (connected self) eqn:Hc.
  - rewrite (read_sensor_data_connected cfg current_time bus self Hc).
    cbn. rewrite flat_map_read_of_length. split; [reflexivity|].
    intros ->. reflexivity.
  - unfold read_sensor_data. rewrite Hc. cbn. auto.
Qed.

Lemma client_step_invariant (call : client_call) (self : t) :
  client_invariant self -> client_invariant (client_step cfg self call).
Proof.
  intros (Hs & Hn & Hk). unfold client_invariant.
  destruct call as [bus|objects|now bus|db_ok readings|bus_ok]; cbn [client_step].
  - destruct (connect_loop_keeps (seq 0 max_retries) initial_retry_delay bus self)
      as (H1 & _ & H3 & H4 & _).
    unfold connect. rewrite H1, H3, H4. auto.
  - destruct (discover_sensor_nodes_keeps cfg objects self)
      as (_ & _ & H3 & _ & H5 & H6 & _).
    rewrite H3. repeat split; auto.
    intros t Ht. destruct (H5 t Ht); auto.
  - destruct (read_sensor_data_keeps now bus self) as (H1 & H2).
    rewrite H1. auto.
  - destruct (store_readings_keeps db_ok readings self) as (H1 & H2 & _).
    rewrite H1, H2. auto.
  - destruct (disconnect_keeps bus_ok self) as (H1 & H2).
    rewrite H1, H2. auto.
Qed.

Lemma client_run_invariant (calls : list client_call) (self : t) :
  client_invariant self -> client_invariant (client_run cfg calls self).
Proof.
  unfold client_run. revert self.
  induction calls as [|call calls IH]; intros self Hinv; cbn [fold_left].
  - exact Hinv.
  - apply IH, client_step_invariant, Hinv.
Qed.

Lemma client_invariant_init : client_invariant init.
Proof.
  unfold client_invariant. cbn. repeat split; [constructor|].
  intros t [].
Qed.

End ClientRuns.

(** X5. Whatever calls are made on a new client, the success rate that
    [get_statistics] reports is the int 0 while nothing has been read and
    the float 100.0 afterwards: the successes and the total are counted
    from the same readings, and the failed readings do not enter the
    rate. *)
Theorem client_success_rate_ignores_failures (cfg : DAQConfig.t)
    (calls : list client_call) :
  let self := client_run cfg calls IndustrialOPCClient.init in
  self.(IndustrialOPCClient.stats).(IndustrialOPCClient.successful_readings)
    = self.(IndustrialOPCClient.stats).(IndustrialOPCClient.total_readings)
  /\ exists s,
      IndustrialOPCClient.get_statistics self = Py.Ok s
      /\ (self.(IndustrialOPCClient.stats).(IndustrialOPCClient.total_readings)
          = 0%N -> s.(IndustrialOPCClient.success_rate) = Py.Int 0)
      /\ (self.(IndustrialOPCClient.stats).(IndustrialOPCClient.total_readings)
          <> 0%N -> s.(IndustrialOPCClient.success_rate) = Py.Float 100).
Proof.
  intros self.
  destruct (client_run_invariant cfg calls IndustrialOPCClient.init
              (client_invariant_init)) as (Hs & _ & _).
  fold self in Hs. split; [exact Hs|].
  exact (client_rate_full self Hs).
Qed.

(** X6. Discovery only ever maps the sensor types temperature, pressure
    and vibration, each at most once: whatever calls are made on a new
    client it has at most three mapped sensors, of distinct types; a
    discovery never unmaps a sensor, leaves the connection, the buffer and
    the counters as they are, and returns [True] only on a connected client
    with at least one sensor mapped. *)
Theorem discovery_maps_known_types (cfg : DAQConfig.t)
    (calls : list client_call)
    (objects : option (list IndustrialOPCClient.node)) :
  let self := client_run cfg calls IndustrialOPCClient.init in
  let after := fst (IndustrialOPCClient.discover_sensor_nodes cfg objects self) in
  NoDup after.(IndustrialOPCClient.sensor_nodes)
  /\ incl after.(IndustrialOPCClient.sensor_nodes) known_sensor_types
  /\ (List.length after.(IndustrialOPCClient.sensor_nodes) <= 3)%nat
  /\ incl self.(IndustrialOPCClient.sensor_nodes)
          after.(IndustrialOPCClient.sensor_nodes)
  /\ after.(IndustrialOPCClient.connected) = self.(IndustrialOPCClient.connected)
  /\ after.(IndustrialOPCClient.data_buffer) = self.(IndustrialOPCClient.data_buffer)
  /\ after.(IndustrialOPCClient.stats) = self.(IndustrialOPCClient.stats)
  /\ (snd (IndustrialOPCClient.discover_sensor_nodes cfg objects self) = true ->
      self.(IndustrialOPCClient.connected) = true
      /\ after.(IndustrialOPCClient.sensor_nodes) <> []).
Proof.
  intros self after.
  pose proof (client_run_invariant cfg (calls ++ [CallDiscover objects])
                IndustrialOPCClient.init client_invariant_init) as Hinv.
  unfold client_run in Hinv. rewrite fold_left_app in Hinv.
  cbn [fold_left client_step] in Hinv. fold (client_run cfg calls) in Hinv.
  fold self in Hinv. fold after in Hinv.
  destruct Hinv as (_ & Hn & Hk).
  destruct (discover_sensor_nodes_keeps cfg objects self)
    as (H1 & H2 & H3 & H4 & _ & _ & H7).
  repeat split; auto.
  - apply (NoDup_incl_length Hn Hk).
  - now apply H7.
  - now apply H7.
Qed.

(** ** The state after a cycle *)

Section CycleState.

Import IndustrialDAQSystem.
Variable cfg : DAQConfig.t.

Lemma handle_anomalies_fold (anomalies : list Anomaly) (s : t)
    (tr : list Trace.event) :
  fold_left (handle_step cfg) anomalies (s, tr)
  = (set_anomaly_buffer s (s.(anomaly_buffer) ++ anomalies),
     tr ++ map (fun a => Trace.InsertReading (anomaly_record cfg a)) anomalies).
Proof.
  revert s tr. induction anomalies as [|a anomalies IH]; intros s tr;
    cbn [fold_left handle_step map].
  - rewrite !app_nil_r. now destruct s.
  - rewrite IH. unfold set_anomaly_buffer. cbn.
    now rewrite <- !app_assoc.
Qed.

Lemma acquisition_cycle_state (x : tick) (self : t) :
  acquisition_cycle cfg x self
  = if reaches_storage cfg x self then
      (mk self.(running) self.(paused)
          (mkStats
             (self.(stats).(total_cycles) + 1)
             (if snd (fst (cycle_store cfg x self))
              then (self.(stats).(successful_cycles) + 1)%N
              else self.(stats).(successful_cycles))
             self.(stats).(failed_cycles)
             (self.(stats).(total_data_points)
              + N.of_nat (List.length (snd (processed_cycle cfg x self))))
             (self.(stats).(anomalies_detected)
              + N.of_nat (List.length (cycle_anomalies cfg x self))))
          (fst (processed_cycle cfg x self)).(data_history)
          (trimmed_anomalies (self.(anomaly_buffer) ++ cycle_anomalies cfg x self))
          (fst (fst (cycle_store cfg x self))),
       snd (fst (cycle_store cfg x self)),
       map (fun a => Trace.InsertReading (anomaly_record cfg a))
           (cycle_anomalies cfg x self)
       ++ snd (cycle_store cfg x self))
    else
      (set_opc_client (count_cycle self) (client_after_read cfg x self),
       false, []).
Proof.
  unfold reaches_storage, cycle_store, cycle_anomalies, processed_cycle,
    acquired_readings, client_after_read, acquisition_cycle.
  change (opc_client (count_cycle self)) with (opc_client self).
  destruct (IndustrialOPCClient.read_sensor_data cfg (tick_now x) (tick_bus x)
              (opc_client self)) as [client readings].
  cbn [fst snd].
  destruct readings as [|r readings]; [reflexivity|].
  destruct (validate_readings cfg (r :: readings)) as [|r' validated];
    [reflexivity|].
  set (self0 := set_opc_client (count_cycle self) client).
  unfold process_readings.
  set (processed := fold_left (process_step self0 (tick_now x)) (r' :: validated) []).
  set (history := if (1000 <? List.length (data_history self0 ++ processed))%nat
                  then Py.last_n 1000 (data_history self0 ++ processed)
                  else data_history self0 ++ processed).
  cbn [fst snd].
  unfold detect_anomalies.
  set (anomalies := fold_left (detect_step (set_data_history self0 history))
                      processed []).
  assert (Hh :
    (let '(self1, anomalies0) :=
       match anomalies with
       | _ :: _ => (count_anomalies (set_data_history self0 history)
                      (List.length anomalies), anomalies)
       | [] => (set_data_history self0 history, anomalies)
       end in
     let '(self2, tr1) :=
       match anomalies0 with
       | _ :: _ => handle_anomalies cfg anomalies0 self1
       | [] => (self1, [])
       end in
     (self2, tr1))
    = (mk self.(running) self.(paused)
          (mkStats (self.(stats).(total_cycles) + 1)
             self.(stats).(successful_cycles) self.(stats).(failed_cycles)
             self.(stats).(total_data_points)
             (self.(stats).(anomalies_detected)
              + N.of_nat (List.length anomalies)))
          history (self.(anomaly_buffer) ++ anomalies) client,
       map (fun a => Trace.InsertReading (anomaly_record cfg a)) anomalies)).
  { destruct anomalies as [|a anomalies'] eqn:Ha.
    - cbn. rewrite N.add_0_r, app_nil_r. reflexivity.
    - unfold handle_anomalies. rewrite handle_anomalies_fold. reflexivity. }
  revert Hh.
  destruct (match anomalies with
            | _ :: _ => (count_anomalies (set_data_history self0 history)
                           (List.length anomalies), anomalies)
            | [] => (set_data_history self0 history, anomalies)
            end) as [self1 anomalies0] eqn:Hd.
  assert (Hsnd : anomalies0 = anomalies).
  { destruct anomalies; injection Hd as _ <-; reflexivity. }
  subst anomalies0.
  destruct (match anomalies with
            | _ :: _ => handle_anomalies cfg anomalies self1
            | [] => (self1, [])
            end) as [self2 tr1].
  intros Hh. injection Hh as -> ->.
  cbn [opc_client fst snd].
  destruct (IndustrialOPCClient.store_readings cfg (tick_db_ok x) processed client)
    as [[client' storage_success] tr2].
  clearbody anomalies history processed.
  unfold trimmed_anomalies, maintenance_tasks, update_statistics, count_success,
    set_stats, set_opc_client, set_anomaly_buffer.
  cbn [fst snd running paused stats data_history anomaly_buffer opc_client
       total_cycles successful_cycles failed_cycles total_data_points
       anomalies_detected].
  destruct (100 <? List.length (anomaly_buffer self ++ anomalies))%nat;
    destruct storage_success; reflexivity.
Qed.

End CycleState.

Section CycleAccounting.

Import IndustrialDAQSystem.
Variable cfg : DAQConfig.t.

Lemma store_readings_no_rows (db_ok : bool) (readings : list Reading.t)
    (client : IndustrialOPCClient.t) :
  filter is_anomaly_row
    (snd (IndustrialOPCClient.store_readings cfg db_ok readings client)) = [].
Proof.
  unfold IndustrialOPCClient.store_readings.
  destruct readings as [|r readings]; [reflexivity|].
  repeat match goal with
         | |- context [if ?b then _ else _] => destruct b
         end; reflexivity.
Qed.

Lemma anomaly_rows_count (anomalies : list Anomaly) :
  List.length (filter is_anomaly_row
                 (map (fun a => Trace.InsertReading (anomaly_record cfg a))
                      anomalies))
  = List.length anomalies.
Proof.
  induction anomalies as [|a anomalies IH]; cbn; [reflexivity|].
  now rewrite IH.
Qed.

Lemma after_cycle_stats (x : tick) (self : t) :
  (after_cycle cfg x self).(stats).(total_cycles)
    = (self.(stats).(total_cycles) + 1)%N
  /\ (after_cycle cfg x self).(stats).(successful_cycles)
     = (self.(stats).(successful_cycles)
        + N.of_nat (if cycle_success cfg x self then 1 else 0))%N
  /\ (after_cycle cfg x self).(stats).(failed_cycles)
     = self.(stats).(failed_cycles)
  /\ (after_cycle cfg x self).(stats).(total_data_points)
     = (self.(stats).(total_data_points)
        + N.of_nat (if reaches_storage cfg x self
                    then List.length (snd (processed_cycle cfg x self))
                    else 0))%N
  /\ (after_cycle cfg x self).(stats).(anomalies_detected)
     = (self.(stats).(anomalies_detected)
        + N.of_nat (List.length (filter is_anomaly_row (cycle_trace cfg x self))))%N.
Proof.
  unfold after_cycle, cycle_success, cycle_trace.
  rewrite acquisition_cycle_state.
  destruct (reaches_storage cfg x self); cbn.
  - rewrite filter_app, length_app, anomaly_rows_count.
    unfold cycle_store. rewrite store_readings_no_rows. cbn [List.length].
    rewrite Nat.add_0_r.
    destruct (snd (fst _)); cbn; repeat split; lia.
  - repeat split; lia.
Qed.

End CycleAccounting.

Lemma after_cycles_totals (cfg : DAQConfig.t)
    (ticks : list IndustrialDAQSystem.tick) (self : IndustrialDAQSystem.t) :
  (after_cycles cfg ticks self).(IndustrialDAQSystem.stats)
    .(IndustrialDAQSystem.total_cycles)
  = (self.(IndustrialDAQSystem.stats).(IndustrialDAQSystem.total_cycles)
     + N.of_nat (List.length ticks))%N
  /\ (after_cycles cfg ticks self).(IndustrialDAQSystem.stats)
       .(IndustrialDAQSystem.successful_cycles)
     = (self.(IndustrialDAQSystem.stats).(IndustrialDAQSystem.successful_cycles)
        + N.of_nat (successful_cycles_of cfg ticks self))%N
  /\ (successful_cycles_of cfg ticks self <= List.length ticks)%nat.
Proof.
  unfold after_cycles. revert self.
  induction ticks as [|x ticks IH]; intros self;
    cbn [fold_left successful_cycles_of List.length].
  - repeat split; lia.
  - destruct (IH (after_cycle cfg x self)) as (I1 & I2 & I3).
    destruct (after_cycle_stats cfg x self) as (H1 & H2 & _).
    rewrite I1, I2, H1, H2.
    destruct (cycle_success cfg x self); repeat split; lia.
Qed.

(** X7. Over any sequence of cycles, [total_cycles] counts every cycle,
    [successful_cycles] those that return [True], [total_data_points] the
    readings processed by the cycles that validated at least one reading
    (also when their storage failed), and [anomalies_detected] the anomaly
    rows sent to the database; a cycle that returns [False] because nothing
    was acquired, everything was rejected or the storage failed is not
    counted in [failed_cycles]. *)
Theorem cycle_accounting (cfg : DAQConfig.t)
    (ticks : list IndustrialDAQSystem.tick) (self : IndustrialDAQSystem.t) :
  let after := after_cycles cfg ticks self in
  after.(IndustrialDAQSystem.stats).(IndustrialDAQSystem.total_cycles)
    = (self.(IndustrialDAQSystem.stats).(IndustrialDAQSystem.total_cycles)
       + N.of_nat (List.length ticks))%N
  /\ after.(IndustrialDAQSystem.stats).(IndustrialDAQSystem.successful_cycles)
     = (self.(IndustrialDAQSystem.stats).(IndustrialDAQSystem.successful_cycles)
        + N.of_nat (successful_cycles_of cfg ticks self))%N
  /\ (successful_cycles_of cfg ticks self <= List.length ticks)%nat
  /\ after.(IndustrialDAQSystem.stats).(IndustrialDAQSystem.failed_cycles)
     = self.(IndustrialDAQSystem.stats).(IndustrialDAQSystem.failed_cycles)
  /\ after.(IndustrialDAQSystem.stats).(IndustrialDAQSystem.total_data_points)
     = (self.(IndustrialDAQSystem.stats).(IndustrialDAQSystem.total_data_points)
        + N.of_nat (processed_points_of cfg ticks self))%N
  /\ after.(IndustrialDAQSystem.stats).(IndustrialDAQSystem.anomalies_detected)
     = (self.(IndustrialDAQSystem.stats).(IndustrialDAQSystem.anomalies_detected)
        + N.of_nat (List.length
                      (filter is_anomaly_row (cycles_trace cfg ticks self))))%N.
Proof.
  unfold after_cycles. revert self.
  induction ticks as [|x ticks IH]; intros self;
    cbn [fold_left successful_cycles_of processed_points_of cycles_trace
         List.length].
  - cbn. repeat split; lia.
  - destruct (IH (after_cycle cfg x self)) as (I1 & I2 & I3 & I4 & I5 & I6).
    destruct (after_cycle_stats cfg x self) as (H1 & H2 & H3 & H4 & H5).
    cbn zeta in *.
    rewrite I1, I2, I4, I5, I6, H1, H2, H3, H4, H5.
    rewrite filter_app, length_app.
    destruct (cycle_success cfg x self); repeat split; lia.
Qed.

(** ** The anomaly buffer *)

Section AnomalyBuffer.

Import IndustrialDAQSystem.
Variable cfg : DAQConfig.t.





End AnomalyBuffer.


(** ** Complete rows *)

Section CleanPipeline.

Import IndustrialDAQSystem.
Variable cfg : DAQConfig.t.

Lemma values_of_type_complete (points : list Reading.t) (sensor_type : string) :
  forallb SensorDatabase.row_complete points = true ->
  exists values, values_of_type points sensor_type = Py.Ok values.
Proof.
  induction points as [|p points IH]; cbn [forallb values_of_type].
  - eauto.
  - intros H. apply andb_true_iff in H. destruct H as [Hp Hrest].
    destruct (IH Hrest) as [values Hvalues].
    destruct (Reading.has_type p sensor_type); [|eauto].
    unfold SensorDatabase.row_complete in Hp.
    destruct (Reading.sensor_type p); [|discriminate].
    destruct (Reading.value p) as [v|]; [|discriminate].
    rewrite Hvalues. cbn. eauto.
Qed.

Lemma read_of_complete (current_time : Z)
    (bus : string -> option IndustrialOPCClient.sample) (nodes : list string) :
  forallb SensorDatabase.row_complete
    (flat_map (read_of cfg current_time bus) nodes) = true.
Proof.
  induction nodes as [|n nodes IH]; cbn [flat_map]; [reflexivity|].
  rewrite forallb_app, IH, andb_true_r.
  unfold read_of. destruct (bus n); reflexivity.
Qed.

Lemma acquired_readings_complete (x : tick) (self : t) :
  forallb SensorDatabase.row_complete (acquired_readings cfg x self) = true.
Proof.
  rewrite acquired_readings_flat_map.
  destruct (negb _); [reflexivity|apply read_of_complete].
Qed.

Lemma validated_of_complete (reading : Reading.t) :
  SensorDatabase.row_complete reading = true ->
  forallb SensorDatabase.row_complete (validated_of cfg reading) = true.
Proof.
  intros Hc. unfold validated_of.
  destruct (check_reading cfg reading) as [[r|]|] eqn:E; try reflexivity.
  destruct (check_reading_kept cfg _ _ E) as [_ Hr].
  cbn [forallb]. rewrite andb_true_r.
  destruct Hr as [->|(tag & ->)]; exact Hc.
Qed.

Lemma validate_readings_complete (readings : list Reading.t) :
  forallb SensorDatabase.row_complete readings = true ->
  forallb SensorDatabase.row_complete (validate_readings cfg readings) = true.
Proof.
  rewrite validate_readings_flat_map.
  induction readings as [|r readings IH]; cbn [forallb flat_map];
    [reflexivity|].
  intros H. apply andb_true_iff in H. destruct H as [Hr Hrest].
  rewrite forallb_app, (IH Hrest), andb_true_r.
  now apply validated_of_complete.
Qed.

Lemma enrich_complete (self : t) (now : Z) (reading : Reading.t) :
  forallb SensorDatabase.row_complete self.(data_history) = true ->
  SensorDatabase.row_complete reading = true ->
  enriched now (processed_of self now reading)
  /\ SensorDatabase.row_complete (processed_of self now reading) = true.
Proof.
  intros Hh Hr.
  destruct (processed_of_keeps self now reading) as (Hst & Hv & _).
  split; [|unfold SensorDatabase.row_complete in *; now rewrite Hst, Hv].
  unfold SensorDatabase.row_complete in Hr.
  unfold processed_of, enrich, calculate_moving_average.
  destruct (Reading.sensor_type reading) as [st|]; [|discriminate].
  destruct (Reading.value reading) as [v|]; [|discriminate].
  cbn [Py.getitem Py.bind].
  destruct (values_of_type_complete _ st Hh) as [values ->].
  cbn [Py.getitem Py.bind].
  destruct (Py.last_n 5 (values ++ [v])); cbn [Py.bind];
    repeat match goal with
           | |- context [if ?b then _ else _] => destruct b
           end;
    unfold enriched; cbn; repeat split; discriminate.
Qed.

Lemma forallb_suffix {A : Type} (f : A -> bool) (older l : list A) :
  forallb f (older ++ l) = true -> forallb f l = true.
Proof. rewrite forallb_app. intros H. now apply andb_true_iff in H. Qed.

Lemma last_n_forallb {A : Type} (f : A -> bool) (n : nat) (l : list A) :
  forallb f l = true -> forallb f (Py.last_n n l) = true.
Proof.
  intros H. destruct (last_n_suffix n l) as [older Hl].
  rewrite Hl in H. now apply forallb_suffix in H.
Qed.

Lemma process_readings_complete (now : Z) (readings : list Reading.t) (self : t) :
  forallb SensorDatabase.row_complete self.(data_history) = true ->
  forallb SensorDatabase.row_complete readings = true ->
  (forall p, In p (snd (process_readings now readings self)) -> enriched now p)
  /\ forallb SensorDatabase.row_complete
       (snd (process_readings now readings self)) = true
  /\ forallb SensorDatabase.row_complete
       (fst (process_readings now readings self)).(data_history) = true.
Proof.
  intros Hh Hr.
  assert (Hp : (forall p, In p (snd (process_readings now readings self)) ->
                          enriched now p)
               /\ forallb SensorDatabase.row_complete
                    (snd (process_readings now readings self)) = true).
  { rewrite process_readings_map. split.
    - intros p Hp. apply in_map_iff in Hp. destruct Hp as (r & <- & Hin).
      apply enrich_complete; [exact Hh|].
      rewrite forallb_forall in Hr. now apply Hr.
    - rewrite forallb_forall. intros p Hp.
      apply in_map_iff in Hp. destruct Hp as (r & <- & Hin).
      apply enrich_complete; [exact Hh|].
      rewrite forallb_forall in Hr. now apply Hr. }
  destruct Hp as [Hp1 Hp2]. split; [exact Hp1|]. split; [exact Hp2|].
  assert (Hall : forallb SensorDatabase.row_complete
                   (data_history self ++ snd (process_readings now readings self))
                 = true).
  { rewrite forallb_app, Hh, Hp2. reflexivity. }
  revert Hall. unfold process_readings.
  cbn [fst snd data_history set_data_history].
  intros Hall.
  destruct (1000 <? _)%nat; [now apply last_n_forallb|exact Hall].
Qed.

Lemma store_readings_complete (db_ok : bool) (readings : list Reading.t)
    (client : IndustrialOPCClient.t) :
  forallb SensorDatabase.row_complete client.(IndustrialOPCClient.data_buffer)
    = true ->
  forallb SensorDatabase.row_complete readings = true ->
  readings <> [] ->
  forallb SensorDatabase.row_complete
    (buffer_after cfg db_ok readings client) = true
  /\ (forall rows, In (Trace.InsertBatch rows)
                     (flush_attempts cfg db_ok readings client) ->
                   forallb SensorDatabase.row_complete rows = true)
  /\ store_result cfg db_ok readings client
     = ((Py.len (client.(IndustrialOPCClient.data_buffer) ++ readings)
         <? cfg.(DAQConfig.batch_size))%Z
        || db_ok).
Proof.
  intros Hb Hr Hne.
  assert (Hall : forallb SensorDatabase.row_complete
                   (IndustrialOPCClient.data_buffer client ++ readings) = true).
  { rewrite forallb_app, Hb, Hr. reflexivity. }
  assert (Hpos : (0 < Py.len (IndustrialOPCClient.data_buffer client ++ readings))%Z).
  { rewrite len_app.
    pose proof (len_nonneg (IndustrialOPCClient.data_buffer client)).
    destruct readings; [congruence|]. unfold Py.len at 2. cbn [List.length]. lia. }
  unfold buffer_after, flush_attempts, store_result,
    IndustrialOPCClient.store_readings.
  destruct readings as [|r readings]; [congruence|].
  set (buffer := IndustrialOPCClient.data_buffer client ++ r :: readings) in *.
  clearbody buffer.
  destruct (Z.leb_spec (DAQConfig.batch_size cfg) (Py.len buffer)) as [Hfull|Hroom].
  - assert (Hlt : (Py.len buffer <? DAQConfig.batch_size cfg)%Z = false)
      by (apply Z.ltb_ge; lia).
    rewrite Hlt. cbn [orb].
    unfold SensorDatabase.insert_batch_readings.
    destruct buffer as [|b buffer']; [cbn in Hpos; lia|].
    rewrite Hall. cbn [andb].
    destruct db_ok.
    + destruct (Z.ltb_spec 0 (Py.len (b :: buffer'))) as [_|Hle]; [|lia].
      cbn [fst snd IndustrialOPCClient.data_buffer
           IndustrialOPCClient.set_data_buffer].
      split; [reflexivity|]. split; [|reflexivity].
      intros rows [Hrows|[]]. injection Hrows as <-. exact Hall.
    + cbn [Z.ltb Z.compare].
      cbn [fst snd IndustrialOPCClient.data_buffer
           IndustrialOPCClient.set_data_buffer].
      split; [|split; [|reflexivity]].
      * destruct (DAQConfig.max_buffer_size cfg <? Py.len (b :: buffer'))%Z;
          [|exact Hall].
        unfold Py.drop_first.
        rewrite <- (firstn_skipn
          (Z.to_nat (Py.len (b :: buffer') - DAQConfig.max_buffer_size cfg))
          (b :: buffer')) in Hall.
        now apply forallb_suffix in Hall.
      * intros rows [Hrows|[]]. injection Hrows as <-. exact Hall.
  - assert (Hlt : (Py.len buffer <? DAQConfig.batch_size cfg)%Z = true)
      by (apply Z.ltb_lt; lia).
    rewrite Hlt.
    cbn [fst snd orb IndustrialOPCClient.data_buffer
         IndustrialOPCClient.set_data_buffer].
    split; [exact Hall|]. split; [contradiction|reflexivity].
Qed.

End CleanPipeline.

Section CleanCycles.

Import IndustrialDAQSystem.
Variable cfg : DAQConfig.t.

Lemma client_after_read_buffer (x : tick) (self : t) :
  (client_after_read cfg x self).(IndustrialOPCClient.data_buffer)
  = self.(opc_client).(IndustrialOPCClient.data_buffer).
Proof.
  unfold client_after_read, IndustrialOPCClient.read_sensor_data.
  destruct (negb _); [reflexivity|].
  destruct (fold_left _ _ _); reflexivity.
Qed.

Lemma reaches_storage_processed (x : tick) (self : t) :
  reaches_storage cfg x self = true -> snd (processed_cycle cfg x self) <> [].
Proof.
  unfold reaches_storage, processed_cycle.
  rewrite process_readings_map.
  destruct (acquired_readings cfg x self); [discriminate|].
  destruct (validate_readings cfg _); discriminate.
Qed.

Lemma clean_cycle (x : tick) (self : t) :
  complete_rows self = true ->
  complete_rows (after_cycle cfg x self) = true
  /\ (forall p, In p (snd (processed_cycle cfg x self)) ->
                enriched (tick_now x) p)
  /\ (forall rows, In (Trace.InsertBatch rows) (cycle_trace cfg x self) ->
                   forallb SensorDatabase.row_complete rows = true)
  /\ cycle_success cfg x self
     = reaches_storage cfg x self
       && ((Py.len (self.(opc_client).(IndustrialOPCClient.data_buffer)
                    ++ snd (processed_cycle cfg x self))
            <? cfg.(DAQConfig.batch_size))%Z
           || tick_db_ok x).
Proof.
  unfold complete_rows. intros Hclean.
  apply andb_true_iff in Hclean. destruct Hclean as [Hh Hb].
  pose proof (validate_readings_complete cfg _ (acquired_readings_complete cfg x self))
    as Hv.
  destruct (process_readings_complete (tick_now x) _
              (set_opc_client (count_cycle self) (client_after_read cfg x self))
              Hh Hv) as (P1 & P2 & P3).
  fold (processed_cycle cfg x self) in P1, P2, P3.
  unfold after_cycle, cycle_trace, cycle_success.
  rewrite acquisition_cycle_state.
  destruct (reaches_storage cfg x self) eqn:Hreach; cbn [fst snd andb].
  - rewrite <- (client_after_read_buffer x self) in Hb |- *.
    destruct (store_readings_complete cfg (tick_db_ok x) _ _ Hb P2
                (reaches_storage_processed x self Hreach)) as (S1 & S2 & S3).
    fold (cycle_store cfg x self) in S1, S2, S3.
    unfold buffer_after, flush_attempts, store_result in S1, S2, S3.
    fold (cycle_store cfg x self) in S1, S2, S3.
    cbn [data_history opc_client]. rewrite P3, S1.
    split; [reflexivity|]. split; [exact P1|]. split; [|exact S3].
    intros rows Hin. apply in_app_or in Hin. destruct Hin as [Hin|Hin].
    + apply in_map_iff in Hin. destruct Hin as (a & Ha & _). discriminate.
    + now apply S2.
  - cbn [data_history opc_client set_opc_client count_cycle set_stats].
    rewrite client_after_read_buffer, Hh, Hb.
    split; [reflexivity|]. split; [exact P1|]. split; [contradiction|reflexivity].
Qed.

Lemma clean_cycles (ticks : list tick) (self : t) :
  complete_rows self = true ->
  complete_rows (after_cycles cfg ticks self) = true.
Proof.
  unfold after_cycles. revert self.
  induction ticks as [|x ticks IH]; intros self Hclean; cbn [fold_left].
  - exact Hclean.
  - apply IH. now apply clean_cycle.
Qed.

End CleanCycles.

(** X9. The cycles keep the history and the buffer free of incomplete rows,
    so that no cycle takes a fallback path: starting from a system whose
    history and buffer rows all have a sensor type and a value (a new system
    has none), after any sequence of cycles this still holds; every reading
    a cycle processes is enriched (time of processing, moving average,
    version and system id); every batch the cycle sends to the database
    consists of complete rows; and the cycle returns [True] exactly when it
    validated at least one reading and either the buffer stayed below the
    batch size or the database accepted the batch. *)
Theorem cycles_take_no_fallback (cfg : DAQConfig.t)
    (ticks : list IndustrialDAQSystem.tick) (x : IndustrialDAQSystem.tick)
    (self : IndustrialDAQSystem.t) :
  complete_rows self = true ->
  let s := after_cycles cfg ticks self in
  complete_rows s = true
  /\ complete_rows (after_cycle cfg x s) = true
  /\ (forall p, In p (snd (processed_cycle cfg x s)) ->
                enriched x.(IndustrialDAQSystem.tick_now) p)
  /\ (forall rows, In (Trace.InsertBatch rows) (cycle_trace cfg x s) ->
                   forallb SensorDatabase.row_complete rows = true)
  /\ cycle_success cfg x s
     = reaches_storage cfg x s
       && ((Py.len (s.(IndustrialDAQSystem.opc_client)
                      .(IndustrialOPCClient.data_buffer)
                    ++ snd (processed_cycle cfg x s))
            <? cfg.(DAQConfig.batch_size))%Z
           || x.(IndustrialDAQSystem.tick_db_ok)).
Proof.
  intros Hclean s.
  pose proof (clean_cycles cfg ticks self Hclean) as Hs. fold s in Hs.
  split; [exact Hs|]. now apply clean_cycle.
Qed.

Lemma cycles_take_no_fallback_witness :
  complete_rows ready_system = true
  /\ complete_rows
       (after_cycles DAQConfig.default [storage_down; temperature_jump]
          ready_system) = true.
Proof.
  split; [reflexivity|].
  apply (cycles_take_no_fallback DAQConfig.default
           [storage_down; temperature_jump] temperature_jump ready_system).
  reflexivity.
Defined.

(** ** The main loop, paused and running *)

Section LoopSchedule.

Import IndustrialDAQSystem.
Variable cfg : DAQConfig.t.







End LoopSchedule.


(** With an acquisition interval of [inf] a successful cycle and two
    failed ones take the counter from 0 to 1, 3 and 5, and one more failed
    cycle to the cooldown and back to 1. *)
Example refused_interval_cools_down :
  snd (fst (IndustrialDAQSystem.run endless_interval_settings.(Config.daq)
              [storage_up] ready_system)) = 1%N
  /\ snd (fst (IndustrialDAQSystem.run endless_interval_settings.(Config.daq)
                 [storage_up; bus_down] ready_system)) = 3%N
  /\ snd (fst (IndustrialDAQSystem.run endless_interval_settings.(Config.daq)
                 [storage_up; bus_down; bus_down; bus_down]
                 ready_system)) = 1%N.
Proof. repeat split; vm_compute; reflexivity. Qed.

(** ** Shutdown and start-up *)

Section Shutdown.

Import IndustrialDAQSystem.

Lemma disconnect_outcome (bus_ok : bool) (self : IndustrialOPCClient.t) :
  IndustrialOPCClient.disconnect bus_ok self
  = if self.(IndustrialOPCClient.connected) then
      (IndustrialOPCClient.mk (negb bus_ok)
         self.(IndustrialOPCClient.sensor_nodes) []
         self.(IndustrialOPCClient.stats),
       match self.(IndustrialOPCClient.data_buffer) with
       | [] => []
       | _ :: _ => [Trace.InsertBatch self.(IndustrialOPCClient.data_buffer)]
       end)
    else (self, []).
Proof.
  unfold IndustrialOPCClient.disconnect.
  destruct self as [connected nodes buffer stats]. cbn.
  destruct connected; [|reflexivity].
  destruct buffer; destruct bus_ok; reflexivity.
Qed.

Lemma shutdown_outcome (bus_ok : bool) (self : t) :
  shutdown bus_ok self
  = (mk false self.(paused) self.(stats) self.(data_history)
        self.(anomaly_buffer)
        (if self.(opc_client).(IndustrialOPCClient.connected) then
           IndustrialOPCClient.mk (negb bus_ok)
             self.(opc_client).(IndustrialOPCClient.sensor_nodes) []
             self.(opc_client).(IndustrialOPCClient.stats)
         else self.(opc_client)),
     match self.(opc_client).(IndustrialOPCClient.data_buffer) with
     | [] => []
     | _ :: _ =>
         [Trace.InsertBatch self.(opc_client).(IndustrialOPCClient.data_buffer)]
     end).
Proof.
  unfold shutdown. cbn [opc_client set_running].
  rewrite disconnect_outcome.
  destruct self as [r p s h a [connected nodes buffer cstats]]. cbn.
  destruct connected; destruct buffer; reflexivity.
Qed.

End Shutdown.

(** X11. [shutdown] hands the readings waiting in the client's buffer to
    the database exactly once, whether the client is connected (then
    [disconnect] sends them and empties the buffer, also when the bus
    refuses the disconnection) or not (then [shutdown] sends them itself
    and the buffer stays as it is); with an empty buffer nothing is sent.
    It stops the loop and leaves the counters, the history and the anomaly
    buffer as they are.  A second [shutdown] sends nothing after a
    connected one, and the same batch again after one that found the client
    not connected. *)
Theorem shutdown_flushes_buffer_once (bus_ok again_ok : bool)
    (self : IndustrialDAQSystem.t) :
  let client := self.(IndustrialDAQSystem.opc_client) in
  let buffer := client.(IndustrialOPCClient.data_buffer) in
  let after := fst (IndustrialDAQSystem.shutdown bus_ok self) in
  snd (IndustrialDAQSystem.shutdown bus_ok self)
    = match buffer with
      | [] => []
      | _ :: _ => [Trace.InsertBatch buffer]
      end
  /\ after.(IndustrialDAQSystem.running) = false
  /\ after.(IndustrialDAQSystem.opc_client).(IndustrialOPCClient.data_buffer)
     = (if client.(IndustrialOPCClient.connected) then [] else buffer)
  /\ after.(IndustrialDAQSystem.opc_client).(IndustrialOPCClient.connected)
     = client.(IndustrialOPCClient.connected) && negb bus_ok
  /\ after.(IndustrialDAQSystem.stats) = self.(IndustrialDAQSystem.stats)
  /\ after.(IndustrialDAQSystem.data_history)
     = self.(IndustrialDAQSystem.data_history)
  /\ after.(IndustrialDAQSystem.anomaly_buffer)
     = self.(IndustrialDAQSystem.anomaly_buffer)
  /\ snd (IndustrialDAQSystem.shutdown again_ok after)
     = (if client.(IndustrialOPCClient.connected) then []
        else snd (IndustrialDAQSystem.shutdown bus_ok self)).
Proof.
  intros client buffer after. subst client buffer after.
  rewrite !shutdown_outcome. cbn [fst snd].
  destruct self as [r p s h a [connected nodes buffer cstats]]. cbn.
  destruct connected; cbn; repeat split; reflexivity.
Qed.

Section Initialize.

Import IndustrialOPCClient.

Lemma connect_loop_result (attempts : list nat) (retry_delay : float)
    (bus : nat -> attempt) (self : t) :
  let after := fst (fst (connect_loop attempts retry_delay bus self)) in
  let result := snd (fst (connect_loop attempts retry_delay bus self)) in
  (result = Some true ->
   after.(connected) = true
   /\ exists k, In k attempts /\ attempt_succeeds (bus k) = true)
  /\ (result <> Some true -> after.(connected) = self.(connected))
  /\ (forall e, In e (snd (connect_loop attempts retry_delay bus self)) ->
                exists seconds, e = Trace.Sleep seconds).
Proof.
  revert retry_delay self.
  induction attempts as [|k attempts IH]; intros retry_delay self;
    cbn [connect_loop].
  - cbn. repeat split; try discriminate. contradiction.
  - destruct (attempt_succeeds (bus k)) eqn:Hk.
    + cbn. repeat split; try congruence; try contradiction.
      exists k. auto.
    + specialize (IH (PrimFloat.mul retry_delay 1.5) (count_attempt self)).
      destruct (connect_loop attempts _ bus (count_attempt self))
        as [[s r] tr].
      cbn [fst snd] in IH. destruct IH as (I1 & I2 & I3).
      match goal with
      | |- context [if ?b then _ else _] => destruct b
      end; cbn [fst snd].
      * split; [|split].
        -- intros Hr. destruct (I1 Hr) as (Hc & k' & Hin & Hok).
           split; [exact Hc|]. exists k'. split; [now right|exact Hok].
        -- intros Hr. rewrite (I2 Hr). reflexivity.
        -- intros e [<-|Hin]; [eauto|now apply I3].
      * repeat split; try discriminate; try contradiction.
Qed.

End Initialize.

(** X12. [initialize] returns [True] only when every check went through, in
    order: the settings are valid, the database answers, one of the five
    connection attempts succeeds and leaves the client connected, the
    discovery maps a sensor, and the test read obtains a value from a mapped
    sensor.  When the settings are invalid or the database does not answer
    it returns [False] before any connection attempt, leaving everything as
    it is.  It writes nothing to the database: the only events are the
    sleeps between connection attempts.  The readings of the test read are
    counted in the client's statistics and then dropped: they reach neither
    the buffer nor the history. *)
Theorem initialize_checks_in_order (settings : Config.t)
    (x : IndustrialDAQSystem.startup) (self : IndustrialDAQSystem.t) :
  let after := fst (fst (IndustrialDAQSystem.initialize settings x self)) in
  let client := after.(IndustrialDAQSystem.opc_client) in
  (snd (fst (IndustrialDAQSystem.initialize settings x self)) = true ->
   Config.validate settings = true
   /\ x.(IndustrialDAQSystem.startup_db_reachable) = true
   /\ (exists k,
         (k < 5)%nat
         /\ IndustrialOPCClient.attempt_succeeds
              (x.(IndustrialDAQSystem.startup_connect_bus) k) = true)
   /\ client.(IndustrialOPCClient.connected) = true
   /\ (exists n,
         In n client.(IndustrialOPCClient.sensor_nodes)
         /\ readable x.(IndustrialDAQSystem.startup_bus) n = true)
   /\ (self.(IndustrialDAQSystem.opc_client).(IndustrialOPCClient.stats)
         .(IndustrialOPCClient.total_readings)
       < client.(IndustrialOPCClient.stats).(IndustrialOPCClient.total_readings))%N)
  /\ (Config.validate settings = false
      \/ x.(IndustrialDAQSystem.startup_db_reachable) = false ->
      IndustrialDAQSystem.initialize settings x self = (self, false, []))
  /\ (forall e, In e (snd (IndustrialDAQSystem.initialize settings x self)) ->
                exists seconds, e = Trace.Sleep seconds)
  /\ client.(IndustrialOPCClient.data_buffer)
     = self.(IndustrialDAQSystem.opc_client).(IndustrialOPCClient.data_buffer)
  /\ after.(IndustrialDAQSystem.data_history)
     = self.(IndustrialDAQSystem.data_history)
  /\ after.(IndustrialDAQSystem.stats) = self.(IndustrialDAQSystem.stats)
  /\ after.(IndustrialDAQSystem.running) = self.(IndustrialDAQSystem.running).
Proof.
  intros after client. subst client after.
  unfold IndustrialDAQSystem.initialize.
  destruct (Config.validate settings); cbn [negb];
    [|cbn; repeat split; try discriminate; auto; contradiction].
  destruct (IndustrialDAQSystem.startup_db_reachable x); cbn [negb];
    [|cbn; repeat split; try discriminate; auto; contradiction].
  pose proof (connect_loop_result
                (seq 0 IndustrialOPCClient.max_retries)
                IndustrialOPCClient.initial_retry_delay
                (IndustrialDAQSystem.startup_connect_bus x)
                (IndustrialDAQSystem.opc_client self)) as (C1 & C2 & C3).
  pose proof (connect_loop_keeps
                (seq 0 IndustrialOPCClient.max_retries)
                IndustrialOPCClient.initial_retry_delay
                (IndustrialDAQSystem.startup_connect_bus x)
                (IndustrialDAQSystem.opc_client self)) as (K1 & K2 & K3 & _).
  unfold IndustrialOPCClient.connect.
  destruct (IndustrialOPCClient.connect_loop _ _ _ _) as [[c1 r] tr].
  cbn [fst snd] in C1, C2, C3, K1, K2, K3.
  cbn [IndustrialDAQSystem.opc_client IndustrialDAQSystem.set_opc_client].
  assert (Hfail : forall s : IndustrialDAQSystem.t,
    s.(IndustrialDAQSystem.opc_client).(IndustrialOPCClient.data_buffer)
      = self.(IndustrialDAQSystem.opc_client).(IndustrialOPCClient.data_buffer) ->
    s.(IndustrialDAQSystem.data_history) = self.(IndustrialDAQSystem.data_history) ->
    s.(IndustrialDAQSystem.stats) = self.(IndustrialDAQSystem.stats) ->
    s.(IndustrialDAQSystem.running) = self.(IndustrialDAQSystem.running) ->
    (false = true -> True) ->
    let after := fst (fst (s, false, tr)) in
    (snd (fst (s, false, tr)) = true ->
     true = true
     /\ true = true
     /\ (exists k, (k < 5)%nat
           /\ IndustrialOPCClient.attempt_succeeds
                (IndustrialDAQSystem.startup_connect_bus x k) = true)
     /\ after.(IndustrialDAQSystem.opc_client).(IndustrialOPCClient.connected) = true
     /\ (exists n,
           In n after.(IndustrialDAQSystem.opc_client).(IndustrialOPCClient.sensor_nodes)
           /\ readable (IndustrialDAQSystem.startup_bus x) n = true)
     /\ (self.(IndustrialDAQSystem.opc_client).(IndustrialOPCClient.stats)
           .(IndustrialOPCClient.total_readings)
         < after.(IndustrialDAQSystem.opc_client).(IndustrialOPCClient.stats)
             .(IndustrialOPCClient.total_readings))%N)
    /\ (true = false \/ true = false -> (s, false, tr) = (self, false, []))
    /\ (forall e, In e (snd (s, false, tr)) -> exists seconds, e = Trace.Sleep seconds)
    /\ after.(IndustrialDAQSystem.opc_client).(IndustrialOPCClient.data_buffer)
       = self.(IndustrialDAQSystem.opc_client).(IndustrialOPCClient.data_buffer)
    /\ after.(IndustrialDAQSystem.data_history) = self.(IndustrialDAQSystem.data_history)
    /\ after.(IndustrialDAQSystem.stats) = self.(IndustrialDAQSystem.stats)
    /\ after.(IndustrialDAQSystem.running) = self.(IndustrialDAQSystem.running)).
  { intros s Hb Hh Hs Hr _. cbn [fst snd].
    split; [discriminate|]. split; [intros [H|H]; discriminate|].
    split; [exact C3|]. auto. }
  destruct r as [[|]|];
    [|apply Hfail; auto; apply K2|apply Hfail; auto; apply K2].
  destruct (C1 eq_refl) as (Hconn & k & Hk & Hok).
  apply in_seq in Hk.
  destruct (discover_sensor_nodes_keeps (Config.daq settings)
              (IndustrialDAQSystem.startup_objects x) c1)
    as (D1 & D2 & D3 & _ & _ & _ & D7).
  destruct (IndustrialOPCClient.discover_sensor_nodes _ _ c1)
    as [c2 discovered].
  cbn [fst snd] in D1, D2, D3, D7.
  cbn [IndustrialDAQSystem.opc_client IndustrialDAQSystem.set_opc_client].
  destruct discovered; cbn [negb];
    [|apply Hfail; auto; cbn; congruence].
  assert (Hc2 : IndustrialOPCClient.connected c2 = true) by congruence.
  rewrite (read_sensor_data_connected (Config.daq settings)
             (IndustrialDAQSystem.startup_now x)
             (IndustrialDAQSystem.startup_bus x) c2 Hc2).
  cbn [IndustrialDAQSystem.opc_client IndustrialDAQSystem.set_opc_client].
  destruct (flat_map _ (IndustrialOPCClient.sensor_nodes c2))
    as [|reading readings] eqn:Hread;
    [apply Hfail; auto; cbn; congruence|].
  cbn [fst snd IndustrialDAQSystem.opc_client IndustrialOPCClient.connected
       IndustrialOPCClient.set_stats IndustrialOPCClient.sensor_nodes
       IndustrialOPCClient.data_buffer IndustrialOPCClient.stats
       IndustrialOPCClient.total_readings IndustrialDAQSystem.data_history
       IndustrialDAQSystem.stats IndustrialDAQSystem.running
       IndustrialDAQSystem.set_opc_client].
  split; [|split; [intros [H|H]; discriminate|split; [exact C3|]]].
  - intros _. split; [reflexivity|]. split; [reflexivity|].
    split.
    { exists k. split; [|exact Hok].
      exact (proj2 Hk). }
    split; [exact Hc2|]. split.
    + assert (Hin : In reading
                      (flat_map (read_of (Config.daq settings)
                                   (IndustrialDAQSystem.startup_now x)
                                   (IndustrialDAQSystem.startup_bus x))
                         (IndustrialOPCClient.sensor_nodes c2)))
        by (rewrite Hread; now left).
      apply in_flat_map in Hin. destruct Hin as (n & Hn & Hr).
      exists n. split; [exact Hn|].
      pose proof (read_of_length (Config.daq settings)
                    (IndustrialDAQSystem.startup_now x)
                    (IndustrialDAQSystem.startup_bus x) n) as Hlen.
      destruct (readable _ n); [reflexivity|].
      destruct (read_of _ _ _ n); [contradiction|discriminate].
    + rewrite D3, K3. cbn [List.length]. lia.
  - repeat split; congruence.
Qed.

(** A start-up on which every check goes through, the second connection
    attempt being the one that succeeds. *)
Example initialize_succeeds :
  let sensor name :=
    IndustrialOPCClient.Node (Some name) None
      (Some [IndustrialOPCClient.Node (Some "Value") None (Some [])]) in
  let tree :=
    [IndustrialOPCClient.Node (Some "Server") None (Some []);
     IndustrialOPCClient.Node (Some "Machine_MACHINE_001") None
       (Some [IndustrialOPCClient.Node (Some "Sensors") None
                (Some [sensor "Temperature"; sensor "Pressure";
                       sensor "Vibration"])])] in
  let x :=
    IndustrialDAQSystem.mkStartup true
      (fun k => IndustrialOPCClient.mkAttempt (1 <=? k)%nat true true)
      (Some tree) 0 steady_bus in
  let '(after, ok, tr) :=
    IndustrialDAQSystem.initialize Config.default x IndustrialDAQSystem.init in
  ok = true
  /\ tr = [Trace.Sleep 2%float]
  /\ after.(IndustrialDAQSystem.opc_client).(IndustrialOPCClient.sensor_nodes)
     = ["temperature"; "pressure"; "vibration"].
Proof. vm_compute. repeat split; reflexivity. Qed.

(** ** The order of the sensor values *)

Section FloatOrder.

Variables (m1 m2 : positive) (e1 e2 : Z).
Hypothesis below : (e1 < e2)%Z \/ (e1 = e2 /\ (m1 < m2)%positive).

Lemma SFltb_below_lower (x : spec_float) :
  SFltb x (S754_finite false m1 e1) = true ->
  SFltb x (S754_finite false m2 e2) = true.
Proof.
  unfold SFltb.
  destruct x as [s|s| |s m e]; cbn; try (destruct s; reflexivity || discriminate).
  - discriminate.
  - destruct s; [reflexivity|].
    change (Pcompare m m1 Eq) with (Pos.compare m m1).
    change (Pcompare m m2 Eq) with (Pos.compare m m2).
    destruct (Z.compare_spec e e1), (Z.compare_spec e e2); try reflexivity;
      try discriminate; try (intros _; exfalso; lia);
      destruct (Pos.compare_spec m m1), (Pos.compare_spec m m2);
      try reflexivity; try discriminate; intros _; exfalso; lia.
Qed.

Lemma SFltb_above_upper (x : spec_float) :
  SFltb (S754_finite false m2 e2) x = true ->
  SFltb (S754_finite false m1 e1) x = true.
Proof.
  unfold SFltb.
  destruct x as [s|s| |s m e]; cbn; try (destruct s; reflexivity || discriminate).
  - discriminate.
  - destruct s; [discriminate|].
    change (Pcompare m1 m Eq) with (Pos.compare m1 m).
    change (Pcompare m2 m Eq) with (Pos.compare m2 m).
    destruct (Z.compare_spec e1 e), (Z.compare_spec e2 e); try reflexivity;
      try discriminate; try (intros _; exfalso; lia);
      destruct (Pos.compare_spec m1 m), (Pos.compare_spec m2 m);
      try reflexivity; try discriminate; intros _; exfalso; lia.
Qed.

End FloatOrder.

Lemma SFleb_total_left (m1 : positive) (e1 : Z) (x : spec_float) :
  x <> S754_nan ->
  SFleb (S754_finite false m1 e1) x = false ->
  SFltb x (S754_finite false m1 e1) = true.
Proof.
  unfold SFleb, SFltb.
  destruct x as [s|s| |s m e]; cbn; try (destruct s; reflexivity || discriminate).
  - congruence.
  - intros _. destruct s; [reflexivity|].
    rewrite (Z.compare_antisym e e1).
    change (Pcompare m1 m Eq) with (Pos.compare m1 m).
    change (Pcompare m m1 Eq) with (Pos.compare m m1).
    rewrite (Pos.compare_antisym m m1).
    destruct (e ?= e1)%Z; cbn; try reflexivity; try discriminate.
    destruct (m ?= m1)%positive; cbn; try reflexivity; discriminate.
Qed.

Lemma SFleb_total_right (m1 : positive) (e1 : Z) (x : spec_float) :
  x <> S754_nan ->
  SFleb x (S754_finite false m1 e1) = false ->
  SFltb (S754_finite false m1 e1) x = true.
Proof.
  unfold SFleb, SFltb.
  destruct x as [s|s| |s m e]; cbn; try (destruct s; reflexivity || discriminate).
  - congruence.
  - intros _. destruct s; [discriminate|].
    rewrite (Z.compare_antisym e e1).
    change (Pcompare m1 m Eq) with (Pos.compare m1 m).
    change (Pcompare m m1 Eq) with (Pos.compare m m1).
    rewrite (Pos.compare_antisym m m1).
    destruct (e ?= e1)%Z; cbn; try reflexivity; try discriminate.
    destruct (m ?= m1)%positive; cbn; try reflexivity; discriminate.
Qed.

Lemma is_nan_spec (v : float) :
  PrimFloat.is_nan v = false <-> Prim2SF v <> S754_nan.
Proof.
  unfold PrimFloat.is_nan. rewrite FloatAxioms.eqb_spec. unfold SFeqb.
  destruct (Prim2SF v) as [s|s| |s m e]; cbn.
  - split; [discriminate|reflexivity].
  - destruct s; (split; [discriminate|reflexivity]).
  - split; [discriminate|congruence].
  - rewrite Z.compare_refl.
    change (Pcompare m m Eq) with (Pos.compare m m). rewrite Pos.compare_refl.
    destruct s; (split; [discriminate|reflexivity]).
Qed.

Lemma is_nan_true (v : float) :
  PrimFloat.is_nan v = true -> Prim2SF v = S754_nan.
Proof.
  intros Hnan. destruct (Prim2SF v) as [s|s| |s m e] eqn:E; [| |reflexivity|].
  all: assert (H : PrimFloat.is_nan v = false)
         by (apply is_nan_spec; rewrite E; discriminate);
       congruence.
Qed.

Section ValueOrder.

Variables (lo hi : float) (m1 m2 : positive) (e1 e2 : Z).
Hypothesis lo_finite : Prim2SF lo = S754_finite false m1 e1.
Hypothesis hi_finite : Prim2SF hi = S754_finite false m2 e2.
Hypothesis below : (e1 < e2)%Z \/ (e1 = e2 /\ (m1 < m2)%positive).

Lemma ltb_below_lower (v : float) :
  PrimFloat.ltb v lo = true -> PrimFloat.ltb v hi = true.
Proof.
  rewrite !FloatAxioms.ltb_spec, lo_finite, hi_finite.
  now apply SFltb_below_lower.
Qed.

Lemma ltb_above_upper (v : float) :
  PrimFloat.ltb hi v = true -> PrimFloat.ltb lo v = true.
Proof.
  rewrite !FloatAxioms.ltb_spec, lo_finite, hi_finite.
  now apply SFltb_above_upper.
Qed.

Lemma leb_lower_false (v : float) :
  PrimFloat.is_nan v = false ->
  PrimFloat.leb lo v = false -> PrimFloat.ltb v lo = true.
Proof.
  rewrite is_nan_spec, FloatAxioms.leb_spec, FloatAxioms.ltb_spec, lo_finite.
  apply SFleb_total_left.
Qed.

Lemma leb_upper_false (v : float) :
  PrimFloat.is_nan v = false ->
  PrimFloat.leb v lo = false -> PrimFloat.ltb lo v = true.
Proof.
  rewrite is_nan_spec, FloatAxioms.leb_spec, FloatAxioms.ltb_spec, lo_finite.
  apply SFleb_total_right.
Qed.

End ValueOrder.

(** Outside the default range, a value is beyond the severity bound of its
    side. *)
Lemma outside_range_is_severe (lo lo' hi' hi v : float)
    (ml ml' mh' mh : positive) (el el' eh' eh : Z) :
  Prim2SF lo = S754_finite false ml el ->
  Prim2SF lo' = S754_finite false ml' el' ->
  Prim2SF hi' = S754_finite false mh' eh' ->
  Prim2SF hi = S754_finite false mh eh ->
  ((el < el')%Z \/ (el = el' /\ (ml < ml')%positive)) ->
  ((eh' < eh)%Z \/ (eh' = eh /\ (mh' < mh)%positive)) ->
  PrimFloat.is_nan v = false ->
  negb (Py.between lo v hi) = true ->
  PrimFloat.ltb hi' v || PrimFloat.ltb v lo' = true.
Proof.
  intros Hlo Hlo' Hhi' Hhi Hbelow Habove Hnan Hout.
  unfold Py.between in Hout. apply negb_true_iff, andb_false_iff in Hout.
  apply orb_true_iff. destruct Hout as [Hout|Hout].
  - right. apply (ltb_below_lower lo lo' ml ml' el el' Hlo Hlo' Hbelow).
    now apply (leb_lower_false lo ml el Hlo).
  - left. apply (ltb_above_upper hi' hi mh' mh eh' eh Hhi' Hhi Habove).
    now apply (leb_upper_false hi mh eh Hhi).
Qed.

Lemma nan_comparisons (c v : float) :
  PrimFloat.is_nan v = true ->
  PrimFloat.ltb c v = false /\ PrimFloat.ltb v c = false
  /\ PrimFloat.leb c v = false /\ PrimFloat.leb v c = false.
Proof.
  intros Hnan. apply is_nan_true in Hnan.
  rewrite !FloatAxioms.ltb_spec, !FloatAxioms.leb_spec, Hnan.
  unfold SFltb, SFleb.
  destruct (Prim2SF c) as [s|s| |s m e]; cbn; auto; destruct s; auto.
Qed.

(** X13. With the default thresholds the severity of an anomaly found by
    the validation does not depend on the value: a temperature or pressure
    that is a number and is tagged OUT_OF_RANGE always gets the severity
    HIGH, never MEDIUM, and a vibration tagged HIGH_VIBRATION always gets
    CRITICAL, never HIGH, because the validation ranges lie outside the
    severity bounds.  A value that is not a number is tagged OUT_OF_RANGE
    with severity MEDIUM for temperature and pressure, and is not tagged at
    all for vibration. *)
Theorem default_thresholds_severity (self : IndustrialDAQSystem.t) (now : Z)
    (reading r : Reading.t) (st : string) (v : float) :
  reading.(Reading.sensor_type) = Some st ->
  reading.(Reading.value) = Some v ->
  reading.(Reading.anomaly) = None ->
  IndustrialDAQSystem.check_reading DAQConfig.default reading = Py.Ok (Some r) ->
  (PrimFloat.is_nan v = false ->
   r.(Reading.anomaly) <> None ->
   IndustrialDAQSystem._calculate_severity (processed_of self now r)
   = Py.Ok (if String.eqb st "vibration"
            then IndustrialDAQSystem.CRITICAL else IndustrialDAQSystem.HIGH))
  /\ (PrimFloat.is_nan v = true ->
      (st = "temperature" \/ st = "pressure" ->
       r.(Reading.anomaly) = Some "OUT_OF_RANGE"
       /\ IndustrialDAQSystem._calculate_severity (processed_of self now r)
          = Py.Ok IndustrialDAQSystem.MEDIUM)
      /\ (st = "vibration" -> r.(Reading.anomaly) = None)).
Proof.
  intros Hst Hv Htag Hcheck.
  destruct (processed_of_keeps self now r) as (Pst & Pv & Ptag).
  assert (Hsev : forall tag,
    r.(Reading.anomaly) = Some tag ->
    r.(Reading.sensor_type) = Some st -> r.(Reading.value) = Some v ->
    IndustrialDAQSystem._calculate_severity (processed_of self now r)
    = IndustrialDAQSystem._calculate_severity
        (Reading.set_anomaly reading tag)).
  { intros tag Ht Hs Hval. unfold IndustrialDAQSystem._calculate_severity.
    rewrite Pst, Pv, Ptag, Ht, Hs, Hval. cbn. now rewrite Hst, Hv. }
  revert Hcheck. unfold IndustrialDAQSystem.check_reading.
  rewrite Hst, Hv. cbn [Py.getitem Py.bind].
  destruct (_ <? _)%Z; [discriminate|].
  intros Hcheck. injection Hcheck as <-.
  unfold IndustrialDAQSystem._calculate_severity.
  rewrite Pst, Pv, Ptag. clear Pst Pv Ptag Hsev.
  destruct (String.eqb_spec st "temperature") as [->|Htemp].
  { cbn [DAQConfig.temperature_min DAQConfig.temperature_max DAQConfig.default].
    destruct (negb (Py.between 18 v 40)) eqn:Hout; cbn; rewrite ?Hst, ?Hv, ?Htag; cbn.
    - split.
      + intros Hnan _.
        rewrite (outside_range_is_severe 18 20 35 40 v _ _ _ _ _ _ _ _
                   ltac:(float_constants) ltac:(float_constants)
                   ltac:(float_constants) ltac:(float_constants)
                   ltac:(float_constants) ltac:(float_constants) Hnan Hout).
        reflexivity.
      + intros Hnan. split; [|discriminate]. intros _.
        destruct (nan_comparisons 35 v Hnan) as (-> & _).
        destruct (nan_comparisons 20 v Hnan) as (_ & -> & _).
        split; reflexivity.
    - split; [intros _ H; now elim H|].
      intros Hnan. exfalso. unfold Py.between in Hout.
      destruct (nan_comparisons 18 v Hnan) as (_ & _ & H & _).
      rewrite H in Hout. discriminate. }
  destruct (String.eqb_spec st "pressure") as [->|Hpress].
  { cbn [DAQConfig.pressure_min DAQConfig.pressure_max DAQConfig.default].
    destruct (negb (Py.between 0.9 v 2)) eqn:Hout; cbn; rewrite ?Hst, ?Hv, ?Htag; cbn.
    - split.
      + intros Hnan _.
        rewrite (outside_range_is_severe 0.9 1 1.8 2 v _ _ _ _ _ _ _ _
                   ltac:(float_constants) ltac:(float_constants)
                   ltac:(float_constants) ltac:(float_constants)
                   ltac:(float_constants) ltac:(float_constants) Hnan Hout).
        reflexivity.
      + intros Hnan. split; [|discriminate]. intros _.
        destruct (nan_comparisons 1.8 v Hnan) as (-> & _).
        destruct (nan_comparisons 1 v Hnan) as (_ & -> & _).
        split; reflexivity.
    - split; [intros _ H; now elim H|].
      intros Hnan. exfalso. unfold Py.between in Hout.
      destruct (nan_comparisons 0.9 v Hnan) as (_ & _ & H & _).
      rewrite H in Hout. discriminate. }
  destruct (String.eqb_spec st "vibration") as [->|Hvib].
  { cbn [DAQConfig.vibration_max DAQConfig.default].
    destruct (PrimFloat.ltb 2.5 v) eqn:Hout; cbn; rewrite ?Hst, ?Hv, ?Htag; cbn.
    - split.
      + intros _ _.
        rewrite (ltb_above_upper 2 2.5 _ _ _ _
                   ltac:(float_constants) ltac:(float_constants)
                   ltac:(float_constants) v Hout).
        reflexivity.
      + intros Hnan. exfalso.
        destruct (nan_comparisons 2.5 v Hnan) as (H & _). congruence.
    - split; [intros _ H; now elim H|].
      intros _. split; [intros [H|H]; discriminate|reflexivity]. }
  rewrite Htag. split; [intros _ H; now elim H|].
  intros _. split; [intros [H|H]; congruence|congruence].
Qed.

Lemma default_thresholds_severity_witness :
  IndustrialDAQSystem._calculate_severity
    (processed_of IndustrialDAQSystem.init 0
       (Reading.set_anomaly
          (Reading.acquired 0 DAQConfig.default "temperature" 41%float "°C"
             100 "OK")
          "OUT_OF_RANGE"))
  = Py.Ok IndustrialDAQSystem.HIGH.
Proof.
  refine (proj1 (default_thresholds_severity IndustrialDAQSystem.init 0
                   (Reading.acquired 0 DAQConfig.default "temperature" 41%float
                      "°C" 100 "OK")
                   _ "temperature" 41%float _ _ _ _) _ _);
    try reflexivity; discriminate.
Defined.

(** ** The records of the detection *)

Section DetectionRecords.

Import IndustrialDAQSystem.
Variable self : t.

Lemma tagged_anomaly_raised (p : Reading.t) (a1 : list Anomaly) :
  tagged_anomaly p = Py.Ok a1 ->
  (List.length a1 <= 1)%nat /\ forall a, In a a1 -> raised_for p a.
Proof.
  unfold tagged_anomaly, truthy_tag, _calculate_severity, _get_anomaly_description.
  destruct (Reading.anomaly p) as [tag|] eqn:Htag; cbn;
    [|intros H; injection H as <-; cbn; split; [lia|contradiction]].
  destruct (String.eqb_spec tag "") as [->|Hne]; cbn;
    [intros H; injection H as <-; cbn; split; [lia|contradiction]|].
  destruct (Reading.sensor_type p) as [st|] eqn:Hst; [|discriminate].
  destruct (Reading.value p) as [v|] eqn:Hv; [|discriminate].
  cbn.
  repeat match goal with
         | |- context [if ?b then _ else _] => destruct b; cbn
         end;
    intros H; injection H as <-; (split; [cbn; lia|]);
    intros a [<-|[]]; unfold raised_for; cbn;
    rewrite ?Hst, ?Hv, ?Htag; repeat split; auto.
Qed.

Lemma deviation_anomaly_raised (p : Reading.t) (a2 : list Anomaly) :
  deviation_anomaly p = Py.Ok a2 ->
  (List.length a2 <= 1)%nat /\ forall a, In a a2 -> raised_for p a.
Proof.
  unfold deviation_anomaly.
  destruct (Reading.high_deviation p) eqn:Hdev;
    [|intros H; injection H as <-; cbn; split; [lia|contradiction]].
  destruct (Reading.sensor_type p) as [st|] eqn:Hst; [|discriminate].
  destruct (Reading.value p) as [v|] eqn:Hv; [|discriminate].
  cbn. intros H; injection H as <-. split; [cbn; lia|].
  intros a [<-|[]]. unfold raised_for. cbn.
  rewrite ?Hst, ?Hv. repeat split; auto.
Qed.

Lemma rapid_change_anomaly_raised (p : Reading.t) (a3 : list Anomaly) :
  rapid_change_anomaly self p = Py.Ok a3 ->
  (List.length a3 <= 1)%nat /\ forall a, In a a3 -> raised_for p a.
Proof.
  unfold rapid_change_anomaly.
  destruct (_detect_rapid_change self p) as [[message|]|]; cbn;
    [| intros H; injection H as <-; cbn; split; [lia|contradiction]
     | discriminate].
  destruct (Reading.sensor_type p) as [st|] eqn:Hst; [|discriminate].
  destruct (Reading.value p) as [v|] eqn:Hv; [|discriminate].
  cbn. intros H; injection H as <-. split; [cbn; lia|].
  intros a [<-|[]]. unfold raised_for. cbn.
  rewrite ?Hst, ?Hv. repeat split; auto.
Qed.

Lemma detect_step_raised (p : Reading.t) :
  (List.length (detect_step self [] p) <= 3)%nat
  /\ forall a, In a (detect_step self [] p) -> raised_for p a.
Proof.
  unfold detect_step.
  destruct (tagged_anomaly p) as [a1|] eqn:E1; [|cbn; split; [lia|contradiction]].
  destruct (tagged_anomaly_raised p a1 E1) as [L1 R1].
  destruct (deviation_anomaly p) as [a2|] eqn:E2;
    [|cbn [app]; split; [lia|exact R1]].
  destruct (deviation_anomaly_raised p a2 E2) as [L2 R2].
  destruct (rapid_change_anomaly self p) as [a3|] eqn:E3.
  - destruct (rapid_change_anomaly_raised p a3 E3) as [L3 R3].
    cbn [app]. rewrite !length_app. split; [lia|].
    intros a Ha. rewrite !in_app_iff in Ha. intuition.
  - cbn [app]. rewrite length_app. split; [lia|].
    intros a Ha. rewrite in_app_iff in Ha. intuition.
Qed.

End DetectionRecords.

(** X14. Every anomaly [detect_anomalies] returns was raised for one of the
    readings it was given and copies that reading's time, machine, sensor
    type and value; it has the type of the reading's anomaly tag, or is a
    HIGH_DEVIATION of severity MEDIUM for a reading marked as deviating, or
    a RAPID_CHANGE of severity HIGH.  A reading raises at most three
    anomalies, the counter of detected anomalies grows by the number
    returned, and the history and the anomaly buffer are left as they
    are. *)
Theorem detect_anomalies_records (readings : list Reading.t)
    (self : IndustrialDAQSystem.t) :
  let anomalies := snd (IndustrialDAQSystem.detect_anomalies readings self) in
  let after := fst (IndustrialDAQSystem.detect_anomalies readings self) in
  (forall a, In a anomalies -> exists p, In p readings /\ raised_for p a)
  /\ (List.length anomalies <= 3 * List.length readings)%nat
  /\ after.(IndustrialDAQSystem.stats).(IndustrialDAQSystem.anomalies_detected)
     = (self.(IndustrialDAQSystem.stats).(IndustrialDAQSystem.anomalies_detected)
        + N.of_nat (List.length anomalies))%N
  /\ after.(IndustrialDAQSystem.data_history)
     = self.(IndustrialDAQSystem.data_history)
  /\ after.(IndustrialDAQSystem.anomaly_buffer)
     = self.(IndustrialDAQSystem.anomaly_buffer).
Proof.
  intros anomalies after. subst anomalies after.
  split; [|split].
  - rewrite detect_anomalies_flat_map. intros a Ha.
    apply in_flat_map in Ha. destruct Ha as (p & Hp & Ha).
    exists p. split; [exact Hp|]. now apply (detect_step_raised self p).
  - rewrite detect_anomalies_flat_map.
    induction readings as [|p readings' IH]; cbn [flat_map List.length]; [lia|].
    rewrite length_app.
    pose proof (proj1 (detect_step_raised self p)). lia.
  - unfold IndustrialDAQSystem.detect_anomalies.
    destruct (fold_left _ readings []) as [|a anomalies]; cbn;
      repeat split; lia.
Qed.

(** ** The rates reported *)

Section ReportedRates.

Import IndustrialDAQSystem.
Variable cfg : DAQConfig.t.

Lemma after_cycle_client_rate (x : tick) (self : t) :
  let counted (s : t) :=
    s.(opc_client).(IndustrialOPCClient.stats).(IndustrialOPCClient.successful_readings)
    = s.(opc_client).(IndustrialOPCClient.stats).(IndustrialOPCClient.total_readings) in
  counted self -> counted (after_cycle cfg x self).
Proof.
  intros counted Hc. unfold counted in *.
  unfold after_cycle. rewrite acquisition_cycle_state.
  destruct (read_sensor_data_keeps cfg (tick_now x) (tick_bus x) (opc_client self))
    as [_ Hread].
  specialize (Hread Hc). fold (client_after_read cfg x self) in Hread.
  destruct (reaches_storage cfg x self); cbn [fst opc_client set_opc_client].
  - unfold cycle_store.
    destruct (store_readings_keeps cfg (tick_db_ok x)
                (snd (processed_cycle cfg x self)) (client_after_read cfg x self))
      as (Hs & _).
    rewrite Hs. exact Hread.
  - exact Hread.
Qed.

Lemma after_cycles_rates (ticks : list tick) (self : t) :
  (self.(stats).(successful_cycles) <= self.(stats).(total_cycles))%N ->
  self.(opc_client).(IndustrialOPCClient.stats).(IndustrialOPCClient.successful_readings)
  = self.(opc_client).(IndustrialOPCClient.stats).(IndustrialOPCClient.total_readings) ->
  let s := after_cycles cfg ticks self in
  (s.(stats).(successful_cycles) <= s.(stats).(total_cycles))%N
  /\ s.(opc_client).(IndustrialOPCClient.stats).(IndustrialOPCClient.successful_readings)
     = s.(opc_client).(IndustrialOPCClient.stats).(IndustrialOPCClient.total_readings).
Proof.
  unfold after_cycles. revert self.
  induction ticks as [|x ticks IH]; intros self Hle Hc; cbn [fold_left].
  - auto.
  - apply IH.
    + destruct (after_cycle_stats cfg x self) as (H1 & H2 & _).
      rewrite H1, H2. destruct (cycle_success cfg x self); cbn; lia.
    + now apply after_cycle_client_rate.
Qed.

End ReportedRates.

(** X15. On a system that has run any sequence of cycles from new, with a
    client on which any calls were made before, [get_detailed_statistics]
    does not raise and reports the counters as they are.  The success rate
    it reports is the int 0 before the first cycle and afterwards the
    float [(k / n) * 100] for the [k] cycles that returned [True] among
    the [n] that ran: a float between 0.0 and 100.0, which is 100.0 when
    all of them did and 0.0 when none did.  The success rate it reports
    for the client is the int 0 or 100.0. *)
Theorem detailed_statistics_rates (cfg : DAQConfig.t)
    (calls : list client_call) (ticks : list IndustrialDAQSystem.tick) :
  let new :=
    IndustrialDAQSystem.set_opc_client IndustrialDAQSystem.init
      (client_run cfg calls IndustrialOPCClient.init) in
  let self := after_cycles cfg ticks new in
  let k := successful_cycles_of cfg ticks new in
  let n := List.length ticks in
  exists s,
    IndustrialDAQSystem.get_detailed_statistics self = Py.Ok s
    /\ s.(IndustrialDAQSystem.counters) = self.(IndustrialDAQSystem.stats)
    /\ (n = 0%nat -> s.(IndustrialDAQSystem.success_rate) = Py.Int 0)
    /\ (n <> 0%nat ->
        exists q,
          Py.truediv (N.of_nat k) (N.of_nat n) = Py.Ok q
          /\ s.(IndustrialDAQSystem.success_rate)
             = Py.Float (PrimFloat.mul q 100)
          /\ PrimFloat.leb 0 (PrimFloat.mul q 100) = true
          /\ PrimFloat.leb (PrimFloat.mul q 100) 100 = true)
    /\ (n <> 0%nat -> k = n ->
        s.(IndustrialDAQSystem.success_rate) = Py.Float 100)
    /\ (n <> 0%nat -> k = 0%nat ->
        s.(IndustrialDAQSystem.success_rate) = Py.Float 0)
    /\ (s.(IndustrialDAQSystem.opc_client_statistics)
          .(IndustrialOPCClient.success_rate) = Py.Int 0
        \/ s.(IndustrialDAQSystem.opc_client_statistics)
             .(IndustrialOPCClient.success_rate) = Py.Float 100).
Proof.
  intros new self k n.
  destruct (client_run_invariant cfg calls IndustrialOPCClient.init
              client_invariant_init) as (Hclient & _ & _).
  destruct (after_cycles_rates cfg ticks new) as [_ Hc]; [cbn; lia|exact Hclient|].
  fold self in Hc.
  destruct (after_cycles_totals cfg ticks new) as (T1 & T2 & T3).
  fold self k n in T1, T2, T3. cbn [IndustrialDAQSystem.stats new
    IndustrialDAQSystem.set_opc_client IndustrialDAQSystem.init
    IndustrialDAQSystem.total_cycles IndustrialDAQSystem.successful_cycles
    N.add] in T1, T2.
  destruct (system_rate self) as (s & Hs & Hcounters & Hcs & Hzero & Hrate);
    [rewrite Hc; lia|rewrite T1, T2; lia|].
  rewrite T1 in Hzero, Hrate. rewrite T2 in Hrate.
  exists s. split; [exact Hs|]. split; [exact Hcounters|].
  split; [intros Hn; apply Hzero; lia|].
  split.
  { intros Hn. destruct Hrate as (q & Hq & Hfloat); [lia|].
    destruct (percentage_bounds (N.of_nat k) (N.of_nat n)) as (q' & Hq' & Hb);
      [lia|lia|].
    rewrite Hq in Hq'. injection Hq' as <-.
    exists q. split; [exact Hq|]. split; [exact Hfloat|exact Hb]. }
  split; [|split].
  - intros Hn Hk. destruct Hrate as (q & Hq & ->); [lia|].
    rewrite Hk, truediv_same in Hq by lia.
    injection Hq as <-. reflexivity.
  - intros Hn Hk. destruct Hrate as (q & Hq & ->); [lia|].
    rewrite Hk, truediv_of_zero in Hq by lia.
    injection Hq as <-. reflexivity.
  - destruct (client_rate_full _ Hc) as (cs & Hcs' & Hc0 & Hc100).
    rewrite Hcs in Hcs'. injection Hcs' as <-.
    destruct (N.eq_dec
      (IndustrialOPCClient.total_readings
         (IndustrialOPCClient.stats (IndustrialDAQSystem.opc_client self))) 0)
      as [Hz|Hnz]; [left; exact (Hc0 Hz)|right; exact (Hc100 Hnz)].
Qed.


(** ** Deviation from a negative average *)

Lemma SFltb_negative_abs (t y : spec_float) :
  SFltb t (S754_zero false) = true -> y <> S754_nan ->
  SFltb t (SFabs y) = true.
Proof.
  unfold SFltb.
  destruct t as [s|s| |s m e]; cbn; try discriminate;
    destruct s; cbn; try discriminate; intros _ Hy;
    destruct y as [s'|s'| |s' m' e']; cbn; try reflexivity; congruence.
Qed.

Lemma ltb_negative_abs (t x : float) :
  PrimFloat.ltb t 0 = true -> PrimFloat.is_nan x = false ->
  PrimFloat.ltb t (PrimFloat.abs x) = true.
Proof.
  rewrite !FloatAxioms.ltb_spec, FloatAxioms.abs_spec, is_nan_spec.
  apply SFltb_negative_abs.
Qed.

Lemma negative_tenth_nonzero (m : float) :
  PrimFloat.ltb (PrimFloat.mul m 0.1) 0 = true -> Py.truthy m = true.
Proof.
  unfold Py.truthy.
  destruct (PrimFloat.eqb m 0) eqn:E; [|reflexivity].
  rewrite FloatAxioms.eqb_spec in E.
  rewrite FloatAxioms.ltb_spec, FloatAxioms.mul_spec.
  change (Prim2SF 0) with (S754_zero false) in *.
  destruct (Prim2SF m) as [s|s| |s m' e']; try discriminate.
  - destruct s; vm_compute; discriminate.
  - destruct s; discriminate.
Qed.

(** X16. A reading whose moving average is negative is always flagged: when
    a tenth of the moving average is below zero and the difference between
    the value and the average is a number, [process_readings] marks the
    reading as deviating, whatever the value (also when it equals the
    average), and [detect_anomalies] raises a HIGH_DEVIATION anomaly for
    it. *)
Theorem negative_average_always_deviates (self detector : IndustrialDAQSystem.t)
    (now : Z) (reading : Reading.t) (st : string) (v m : float) :
  reading.(Reading.sensor_type) = Some st ->
  reading.(Reading.value) = Some v ->
  IndustrialDAQSystem.calculate_moving_average self st v 5 = Py.Ok m ->
  PrimFloat.ltb (PrimFloat.mul m 0.1) 0 = true ->
  PrimFloat.is_nan (PrimFloat.sub v m) = false ->
  (processed_of self now reading).(Reading.high_deviation) = true
  /\ (processed_of self now reading).(Reading.deviation_from_avg)
     = Some (PrimFloat.abs (PrimFloat.sub v m))
  /\ exists a,
      In a (IndustrialDAQSystem.detect_step detector []
              (processed_of self now reading))
      /\ a.(IndustrialDAQSystem.anomaly_type) = "HIGH_DEVIATION".
Proof.
  intros Hst Hv Hm Hneg Hnan.
  assert (Hp : processed_of self now reading
    = Reading.set_metadata
        (Reading.set_high_deviation
           (Reading.set_deviation_from_avg
              (Reading.set_moving_average
                 (Reading.set_processed_at reading now) m)
              (PrimFloat.abs (PrimFloat.sub v m))))
        "1.0" "DAQ_001").
  { unfold processed_of, IndustrialDAQSystem.enrich.
    rewrite Hst, Hv. cbn [Py.getitem Py.bind]. rewrite Hm. cbn [Py.bind].
    rewrite (negative_tenth_nonzero m Hneg).
    rewrite (ltb_negative_abs _ _ Hneg Hnan). reflexivity. }
  rewrite Hp. split; [reflexivity|]. split; [reflexivity|].
  unfold IndustrialDAQSystem.detect_step.
  assert (Htag : exists a1,
    IndustrialDAQSystem.tagged_anomaly
      (Reading.set_metadata
         (Reading.set_high_deviation
            (Reading.set_deviation_from_avg
               (Reading.set_moving_average
                  (Reading.set_processed_at reading now) m)
               (PrimFloat.abs (PrimFloat.sub v m))))
         "1.0" "DAQ_001") = Py.Ok a1).
  { unfold IndustrialDAQSystem.tagged_anomaly,
      IndustrialDAQSystem._calculate_severity,
      IndustrialDAQSystem._get_anomaly_description. cbn.
    rewrite Hst, Hv.
    destruct (IndustrialDAQSystem.truthy_tag (Reading.anomaly reading)) eqn:T;
      [|eauto].
    unfold IndustrialDAQSystem.truthy_tag in T.
    destruct (Reading.anomaly reading) as [tag|]; [|discriminate].
    cbn.
    repeat match goal with
           | |- context [if ?b then _ else _] => destruct b; cbn
           end; eauto. }
  destruct Htag as [a1 ->].
  unfold IndustrialDAQSystem.deviation_anomaly. cbn. rewrite Hst, Hv. cbn.
  eexists. split.
  - destruct (IndustrialDAQSystem.rapid_change_anomaly detector _);
      rewrite ?in_app_iff; [left|]; right; left; reflexivity.
  - reflexivity.
Qed.

Lemma negative_average_always_deviates_witness :
  (processed_of IndustrialDAQSystem.init 0
     (Reading.acquired 0 DAQConfig.default "temperature" (-5)%float "°C" 100 "OK"))
    .(Reading.high_deviation) = true.
Proof.
  refine (proj1 (negative_average_always_deviates IndustrialDAQSystem.init
                   IndustrialDAQSystem.init 0 _ "temperature" (-5)%float
                   (-5)%float _ _ _ _ _)); reflexivity.
Defined.

(** ** The sensor simulator *)

Lemma SFltb_SFleb (x y : spec_float) :
  SFltb x y = true -> SFleb x y = true.
Proof.
  unfold SFltb, SFleb. destruct (SFcompare x y) as [[]|]; auto.
Qed.

Lemma SFcompare_refl (x : spec_float) :
  x <> S754_nan -> SFcompare x x = Some Eq.
Proof.
  destruct x as [s|s| |s m e]; cbn; try (destruct s; reflexivity).
  - congruence.
  - intros _. rewrite Z.compare_refl.
    change (Pcompare m m Eq) with (Pos.compare m m). rewrite Pos.compare_refl.
    destruct s; reflexivity.
Qed.

Lemma SFleb_operands (x y : spec_float) :
  SFleb x y = true -> SFleb x x = true /\ SFleb y y = true.
Proof.
  unfold SFleb. intros H.
  assert (Hx : x <> S754_nan) by (intros ->; discriminate).
  assert (Hy : y <> S754_nan)
    by (intros ->; destruct x as [| | |]; discriminate).
  now rewrite !SFcompare_refl.
Qed.

Lemma clamp_between (lo hi c : float) :
  PrimFloat.leb lo hi = true ->
  Py.between lo (Py.max2 lo (Py.min2 hi c)) hi = true.
Proof.
  intros Hle.
  assert (Hrefl : PrimFloat.leb lo lo = true /\ PrimFloat.leb hi hi = true).
  { rewrite !FloatAxioms.leb_spec in *. now apply SFleb_operands. }
  assert (Hlt : forall x y, PrimFloat.ltb x y = true -> PrimFloat.leb x y = true).
  { intros x y. rewrite FloatAxioms.ltb_spec, FloatAxioms.leb_spec.
    apply SFltb_SFleb. }
  destruct Hrefl as [Hlo Hhi].
  unfold Py.between, Py.max2, Py.min2.
  destruct (PrimFloat.ltb c hi) eqn:E1.
  - destruct (PrimFloat.ltb lo c) eqn:E2.
    + now rewrite (Hlt _ _ E1), (Hlt _ _ E2).
    + now rewrite Hlo, Hle.
  - destruct (PrimFloat.ltb lo hi) eqn:E2.
    + now rewrite Hle, Hhi.
    + now rewrite Hlo, Hle.
Qed.

(** X17. A sample of the simulator: [calculate_realistic_value] raises
    exactly when the configured range is empty ([max_value - min_value] is
    zero); otherwise it returns a value inside the configured range
    (whatever the sines and the noise, provided the bounds are ordered), a
    status among OK, WARNING and ERROR, and a quality between 70 and 100
    unless the status is ERROR, which it is exactly when the error draw is
    below 0.001 and then the quality is the one drawn, at most 50; the
    status OK comes with a quality of at least 80.  A reading with such an
    ERROR sample is rejected by [validate_readings] whenever the quality
    threshold is above 50, as the default of 80 is. *)
Theorem simulator_sample_bounds (config : IndustrialOPCServer.SensorConfig)
    (d : IndustrialOPCServer.draws) (cfg : DAQConfig.t) (ts : Z)
    (sensor_type unit_ : string) :
  let range :=
    PrimFloat.sub config.(IndustrialOPCServer.max_value)
                  config.(IndustrialOPCServer.min_value) in
  (PrimFloat.eqb range 0 = true ->
   IndustrialOPCServer.calculate_realistic_value config d
   = Py.Raise Py.ZeroDivisionError)
  /\ (PrimFloat.eqb range 0 = false ->
      exists value quality status,
        IndustrialOPCServer.calculate_realistic_value config d
        = Py.Ok (value, quality, status)
        /\ (PrimFloat.leb config.(IndustrialOPCServer.min_value)
                          config.(IndustrialOPCServer.max_value) = true ->
            Py.between config.(IndustrialOPCServer.min_value) value
                       config.(IndustrialOPCServer.max_value) = true)
        /\ (status = "OK" \/ status = "WARNING" \/ status = "ERROR")
        /\ (status = "ERROR"
            <-> PrimFloat.ltb d.(IndustrialOPCServer.error_draw) 0.001 = true)
        /\ (status <> "ERROR" -> (70 <= quality <= 100)%Z)
        /\ (status = "OK" -> (80 <= quality)%Z)
        /\ (status = "ERROR" -> quality = d.(IndustrialOPCServer.error_quality))
        /\ (status = "ERROR" ->
            (d.(IndustrialOPCServer.error_quality) <= 50)%Z ->
            (50 < cfg.(DAQConfig.min_quality_threshold))%Z ->
            IndustrialDAQSystem.validate_readings cfg
              [Reading.acquired ts cfg sensor_type value unit_ quality status]
            = [])).
Proof.
  intros range. subst range.
  unfold IndustrialOPCServer.calculate_realistic_value.
  split; [intros ->; reflexivity|]. intros ->.
  set (value := Py.max2 _ _).
  set (quality := Z.max 70 _).
  destruct (PrimFloat.ltb (IndustrialOPCServer.error_draw d) 0.001) eqn:Herr.
  - exists value, (IndustrialOPCServer.error_quality d), "ERROR".
    split; [reflexivity|]. split; [intros Hle; now apply clamp_between|].
    split; [auto|]. split; [tauto|]. split; [congruence|].
    split; [discriminate|]. split; [reflexivity|].
    intros _ Hq Hmin. unfold IndustrialDAQSystem.validate_readings.
    cbn [fold_left]. unfold IndustrialDAQSystem.validate_step,
      IndustrialDAQSystem.check_reading. cbn.
    destruct (Z.ltb_spec (IndustrialOPCServer.error_quality d)
                (DAQConfig.min_quality_threshold cfg)); [reflexivity|lia].
  - assert (Hq : (70 <= quality <= 100)%Z) by (unfold quality; lia).
    destruct (Z.ltb_spec quality 80) as [Hlow|Hhigh].
    + exists value, quality, "WARNING".
      split; [reflexivity|]. split; [intros Hle; now apply clamp_between|].
      split; [auto|]. split; [split; discriminate|]. split; [auto|].
      repeat split; discriminate.
    + match goal with
      | |- context [if ?b then (if ?c then _ else _) else _] =>
          destruct b; [destruct c|]
      end.
      * exists value, quality, "WARNING".
        split; [reflexivity|]. split; [intros Hle; now apply clamp_between|].
        split; [auto|]. split; [split; discriminate|]. split; [auto|].
        repeat split; discriminate.
      * exists value, quality, "OK".
        split; [reflexivity|]. split; [intros Hle; now apply clamp_between|].
        split; [auto|]. split; [split; discriminate|]. split; [auto|].
        split; [auto|]. split; discriminate.
      * exists value, quality, "OK".
        split; [reflexivity|]. split; [intros Hle; now apply clamp_between|].
        split; [auto|]. split; [split; discriminate|]. split; [auto|].
        split; [auto|]. split; discriminate.
Qed.

(** ** Discovery of the published sensors *)

Section PublishedSensors.

Import IndustrialOPCClient.

Lemma prefix_refl (s : string) : String.prefix s s = true.
Proof.
  induction s as [|a s IH]; cbn; [reflexivity|].
  destruct (Ascii.ascii_dec a a); [exact IH|congruence].
Qed.

Lemma contains_refl (s : string) : Py.contains s s = true.
Proof.
  destruct s as [|a s]; [reflexivity|].
  cbn [Py.contains]. now rewrite prefix_refl.
Qed.

Lemma find_folder_last (pattern : string) (children : list node) (last : node) :
  find_folder pattern children = None ->
  find_folder pattern (children ++ [last])
  = match name_of last with
    | Some name => if Py.contains pattern name then Some last else None
    | None => None
    end.
Proof.
  induction children as [|child children IH]; cbn [app find_folder].
  - intros _. destruct (name_of last) as [name|]; [|reflexivity].
    destruct (Py.contains pattern name); reflexivity.
  - destruct (name_of child) as [name|]; [|exact IH].
    destruct (Py.contains pattern name); [discriminate|exact IH].
Qed.

Lemma discover_loop_published
    (sensors : list (string * IndustrialOPCServer.SensorConfig))
    (mapped : list string) :
  discover_loop (map IndustrialOPCServer.sensor_folder sensors) mapped
  = (published_types sensors mapped, true).
Proof.
  unfold published_types. revert mapped.
  induction sensors as [|entry sensors IH]; intros mapped;
    cbn [map discover_loop fold_left]; [reflexivity|].
  cbn [IndustrialOPCServer.sensor_folder IndustrialOPCServer.folder
       name_of children_of].
  change (has_value_node _) with true. cbn iota.
  destruct (_determine_sensor_type _); apply IH.
Qed.

Lemma published_types_spec
    (sensors : list (string * IndustrialOPCServer.SensorConfig))
    (mapped : list string) (t : string) :
  In t (published_types sensors mapped)
  <-> In t mapped
      \/ exists entry,
           In entry sensors
           /\ _determine_sensor_type (snd entry).(IndustrialOPCServer.name)
              = Some t.
Proof.
  unfold published_types. revert mapped.
  induction sensors as [|entry sensors IH]; intros mapped; cbn [fold_left].
  - split; [auto|]. intros [H|(entry & [] & _)]. exact H.
  - rewrite IH. clear IH.
    destruct (_determine_sensor_type
                (IndustrialOPCServer.name (snd entry))) as [s|] eqn:E.
    + destruct (map_sensor_spec mapped s) as (H1 & H2 & H3 & _).
      split.
      * intros [Hin|(e & He & Hd)].
        -- destruct (H3 t Hin) as [Hm | ->]; [now left|].
           right. exists entry. split; [now left|exact E].
        -- right. exists e. split; [now right|exact Hd].
      * intros [Hin|(e & [<-|He] & Hd)].
        -- left. now apply H1.
        -- left. rewrite E in Hd. injection Hd as <-. exact H2.
        -- right. eauto.
    + split.
      * intros [Hin|(e & He & Hd)]; [now left|].
        right. exists e. split; [now right|exact Hd].
      * intros [Hin|(e & [<-|He] & Hd)]; [now left|congruence|].
        right. eauto.
Qed.

Lemma discover_published (cfg : DAQConfig.t)
    (sensors : list (string * IndustrialOPCServer.SensorConfig))
    (objects : list node) (self : t) :
  self.(connected) = true ->
  find_folder ("Machine_" ++ cfg.(DAQConfig.machine_id)) objects = None ->
  discover_sensor_nodes cfg
    (Some (IndustrialOPCServer.create_sensor_nodes cfg sensors objects)) self
  = (set_sensor_nodes self (published_types sensors self.(sensor_nodes)),
     (0 <? List.length (published_types sensors self.(sensor_nodes)))%nat).
Proof.
  intros Hc Hnone. unfold discover_sensor_nodes. rewrite Hc. cbn [negb].
  unfold IndustrialOPCServer.create_sensor_nodes.
  rewrite (find_folder_last _ _ _ Hnone).
  unfold IndustrialOPCServer.folder. cbn [name_of children_of].
  rewrite contains_refl.
  cbn [find_folder name_of children_of].
  change (Py.contains "Sensors" "Sensors") with true.
  cbn iota. cbn [children_of].
  rewrite discover_loop_published. reflexivity.
Qed.

End PublishedSensors.

(** X18. The client finds the sensors the server publishes: on the address
    space [create_sensor_nodes] builds for the same machine id, a connected
    client with nothing mapped yet maps exactly the sensor types it
    recognises in the configured names, and the discovery returns [True]
    when there is one; for the sensors configured by default it maps
    temperature, pressure and vibration, the keys under which the server
    configures them. *)
Theorem discovery_finds_published_sensors (cfg : DAQConfig.t)
    (sensors : list (string * IndustrialOPCServer.SensorConfig))
    (objects : list IndustrialOPCClient.node) (self : IndustrialOPCClient.t) :
  self.(IndustrialOPCClient.connected) = true ->
  self.(IndustrialOPCClient.sensor_nodes) = [] ->
  IndustrialOPCClient.find_folder ("Machine_" ++ cfg.(DAQConfig.machine_id))
    objects = None ->
  let discovery :=
    IndustrialOPCClient.discover_sensor_nodes cfg
      (Some (IndustrialOPCServer.create_sensor_nodes cfg sensors objects)) self in
  let mapped := (fst discovery).(IndustrialOPCClient.sensor_nodes) in
  (forall sensor_type,
     In sensor_type mapped
     <-> exists entry,
           In entry sensors
           /\ IndustrialOPCClient._determine_sensor_type
                (snd entry).(IndustrialOPCServer.name) = Some sensor_type)
  /\ snd discovery = (0 <? List.length mapped)%nat
  /\ (sensors = IndustrialOPCServer.default_sensors ->
      mapped = map fst IndustrialOPCServer.default_sensors
      /\ snd discovery = true).
Proof.
  intros Hc Hnodes Hnone discovery mapped. subst mapped discovery.
  rewrite (discover_published cfg sensors objects self Hc Hnone), Hnodes.
  cbn [fst snd IndustrialOPCClient.sensor_nodes
       IndustrialOPCClient.set_sensor_nodes].
  split; [|split; [reflexivity|]].
  - intros t. rewrite published_types_spec. split; [|auto].
    intros [[]|H]. exact H.
  - intros ->. split; reflexivity.
Qed.

Lemma discovery_finds_published_sensors_witness :
  (fst (IndustrialOPCClient.discover_sensor_nodes DAQConfig.default
          (Some (IndustrialOPCServer.create_sensor_nodes DAQConfig.default
                   IndustrialOPCServer.default_sensors
                   [IndustrialOPCServer.folder "Server" []]))
          (IndustrialOPCClient.set_connected IndustrialOPCClient.init true)))
    .(IndustrialOPCClient.sensor_nodes)
  = ["temperature"; "pressure"; "vibration"].
Proof.
  refine (proj1 (proj2 (proj2
    (discovery_finds_published_sensors DAQConfig.default
       IndustrialOPCServer.default_sensors
       [IndustrialOPCServer.folder "Server" []]
       (IndustrialOPCClient.set_connected IndustrialOPCClient.init true)
       _ _ _)) eq_refl)); reflexivity.
Defined.

(** ** From the bus to the storage *)

Section EndToEnd.

Import IndustrialDAQSystem.
Variable cfg : DAQConfig.t.

Lemma processed_of_base (self : t) (now : Z) (reading : Reading.t) :
  let p := processed_of self now reading in
  p.(Reading.timestamp) = reading.(Reading.timestamp)
  /\ p.(Reading.machine_id) = reading.(Reading.machine_id)
  /\ p.(Reading.location) = reading.(Reading.location)
  /\ p.(Reading.unit_) = reading.(Reading.unit_)
  /\ p.(Reading.quality) = reading.(Reading.quality)
  /\ p.(Reading.status) = reading.(Reading.status).
Proof.
  unfold processed_of, enrich.
  destruct (Reading.sensor_type reading) as [st|]; [|cbn; auto 10].
  destruct (Reading.value reading) as [v|]; [|cbn; auto 10].
  cbn [Py.getitem Py.bind].
  destruct (calculate_moving_average self st v 5) as [m|]; [|cbn; auto 10].
  cbn [Py.bind].
  destruct (Py.truthy m); [destruct (PrimFloat.ltb _ _)|]; cbn; auto 10.
Qed.

Lemma validated_reading_source (readings : list Reading.t) (r : Reading.t) :
  In r (validate_readings cfg readings) ->
  exists reading,
    In reading readings
    /\ (cfg.(DAQConfig.min_quality_threshold) <= reading.(Reading.quality))%Z
    /\ (r = reading \/ exists tag, r = Reading.set_anomaly reading tag).
Proof.
  rewrite validate_readings_flat_map, in_flat_map.
  intros (reading & Hin & Hr). exists reading. split; [exact Hin|].
  unfold validated_of in Hr.
  destruct (check_reading cfg reading) as [[r'|]|] eqn:E; try contradiction.
  destruct Hr as [<-|[]]. now apply check_reading_kept.
Qed.

Lemma acquired_reading_source (x : tick) (self : t) (reading : Reading.t) :
  In reading (acquired_readings cfg x self) ->
  exists n sample,
    In n self.(opc_client).(IndustrialOPCClient.sensor_nodes)
    /\ tick_bus x n = Some sample
    /\ read_from cfg x n sample reading.
Proof.
  rewrite acquired_readings_flat_map.
  destruct (negb _); [contradiction|].
  rewrite in_flat_map. intros (n & Hn & Hr).
  unfold read_of in Hr. destruct (tick_bus x n) as [sample|] eqn:E;
    [|contradiction].
  destruct Hr as [<-|[]]. exists n, sample.
  split; [exact Hn|]. split; [exact E|]. unfold read_from. cbn. auto 10.
Qed.

Lemma store_readings_events (db_ok : bool) (readings : list Reading.t)
    (client : IndustrialOPCClient.t) :
  readings <> [] ->
  snd (IndustrialOPCClient.store_readings cfg db_ok readings client)
  = if (cfg.(DAQConfig.batch_size)
        <=? Py.len (client.(IndustrialOPCClient.data_buffer) ++ readings))%Z
    then [Trace.InsertBatch (client.(IndustrialOPCClient.data_buffer) ++ readings)]
    else [].
Proof.
  intros Hne. unfold IndustrialOPCClient.store_readings.
  destruct readings as [|r readings]; [congruence|].
  destruct (_ <=? _)%Z; [|reflexivity].
  destruct (0 <? _)%Z; reflexivity.
Qed.

Lemma cycle_trace_parts (x : tick) (self : t) :
  cycle_trace cfg x self
  = map (fun a => Trace.InsertReading (anomaly_record cfg a))
        (cycle_anomalies cfg x self)
    ++ cycle_batch cfg x self.
Proof.
  unfold cycle_trace, cycle_batch. rewrite acquisition_cycle_state.
  destruct (reaches_storage cfg x self) eqn:Hreach; cbn [snd andb].
  - f_equal. unfold cycle_store.
    rewrite store_readings_events by now apply reaches_storage_processed.
    now rewrite client_after_read_buffer.
  - assert (Hp : snd (processed_cycle cfg x self) = []).
    { unfold processed_cycle. rewrite process_readings_map.
      unfold reaches_storage in Hreach.
      destruct (acquired_readings cfg x self) as [|r readings].
      - reflexivity.
      - destruct (validate_readings cfg (r :: readings)); [reflexivity|discriminate]. }
    unfold cycle_anomalies. rewrite detect_anomalies_flat_map, Hp. reflexivity.
Qed.

End EndToEnd.

(** X19. What a cycle stores is what it read: every reading a cycle
    processes, and so appends to the buffer and the history, passed the
    quality check and carries the sensor type, value, quality, status and
    time read from the bus for a mapped sensor during that cycle, with the
    configured machine and location and the unit of its type.  The events
    of the cycle are the anomaly rows followed by at most one batch, sent
    when the cycle validated a reading and the buffer reached the batch
    size: the rows that were waiting followed by the readings of the cycle,
    in order. *)
Theorem cycle_stores_what_it_read (cfg : DAQConfig.t)
    (x : IndustrialDAQSystem.tick) (self : IndustrialDAQSystem.t) :
  (forall p,
     In p (snd (processed_cycle cfg x self)) ->
     (cfg.(DAQConfig.min_quality_threshold) <= p.(Reading.quality))%Z
     /\ exists n sample,
          In n self.(IndustrialDAQSystem.opc_client)
                 .(IndustrialOPCClient.sensor_nodes)
          /\ x.(IndustrialDAQSystem.tick_bus) n = Some sample
          /\ read_from cfg x n sample p)
  /\ cycle_trace cfg x self
     = map (fun a => Trace.InsertReading
                       (IndustrialDAQSystem.anomaly_record cfg a))
           (cycle_anomalies cfg x self)
       ++ cycle_batch cfg x self.
Proof.
  split; [|apply cycle_trace_parts].
  intros p Hp. unfold processed_cycle in Hp.
  rewrite process_readings_map, in_map_iff in Hp.
  destruct Hp as (r & <- & Hr).
  destruct (validated_reading_source cfg _ _ Hr) as (reading & Hin & Hq & Hsame).
  destruct (acquired_reading_source cfg x self reading Hin)
    as (n & sample & Hn & Hbus & Hread).
  match goal with
  | |- context [processed_of ?s ?now r] =>
      destruct (processed_of_keeps s now r) as (K1 & K2 & _);
      destruct (processed_of_base s now r) as (B1 & B2 & B3 & B4 & B5 & B6)
  end.
  assert (Hr' : read_from cfg x n sample r /\ Reading.quality r = Reading.quality reading).
  { destruct Hsame as [->|(tag & ->)]; split; auto. }
  destruct Hr' as [(R1 & R2 & R3 & R4 & R5 & R6 & R7 & R8) Hqr].
  split; [rewrite B5, Hqr; exact Hq|].
  exists n, sample. split; [exact Hn|]. split; [exact Hbus|].
  unfold read_from. rewrite K1, K2, B1, B2, B3, B4, B5, B6. auto 10.
Qed.


(** ** Every reading is handed over *)

Section AtLeastOnce.

Import IndustrialDAQSystem.
Variable cfg : DAQConfig.t.

Lemma offered_app (tr1 tr2 : list Trace.event) (p : Reading.t) :
  offered tr1 p \/ offered tr2 p -> offered (tr1 ++ tr2) p.
Proof.
  unfold offered. intros [(rows & Hin & Hp)|(rows & Hin & Hp)];
    exists rows; rewrite in_app_iff; auto.
Qed.

Lemma store_readings_offers (db_ok : bool) (readings : list Reading.t)
    (client : IndustrialOPCClient.t) (p : Reading.t) :
  readings <> [] ->
  In p (client.(IndustrialOPCClient.data_buffer) ++ readings) ->
  In p (buffer_after cfg db_ok readings client)
  \/ offered (flush_attempts cfg db_ok readings client) p.
Proof.
  intros Hne Hp. unfold buffer_after, flush_attempts, offered,
    IndustrialOPCClient.store_readings.
  destruct readings as [|r readings]; [congruence|].
  destruct (_ <=? _)%Z; [|left; exact Hp].
  right. destruct (0 <? _)%Z; cbn [snd]; eexists; (split; [now left|exact Hp]).
Qed.

Lemma after_cycle_buffer (x : tick) (self : t) :
  (after_cycle cfg x self).(opc_client).(IndustrialOPCClient.data_buffer)
  = if reaches_storage cfg x self
    then buffer_after cfg (tick_db_ok x) (snd (processed_cycle cfg x self))
           (client_after_read cfg x self)
    else self.(opc_client).(IndustrialOPCClient.data_buffer).
Proof.
  unfold after_cycle. rewrite acquisition_cycle_state.
  destruct (reaches_storage cfg x self); cbn [fst opc_client set_opc_client].
  - reflexivity.
  - apply client_after_read_buffer.
Qed.

Lemma unreached_storage_processed (x : tick) (self : t) :
  reaches_storage cfg x self = false -> snd (processed_cycle cfg x self) = [].
Proof.
  intros Hreach. unfold processed_cycle. rewrite process_readings_map.
  unfold reaches_storage in Hreach.
  destruct (acquired_readings cfg x self) as [|r readings]; [reflexivity|].
  destruct (validate_readings cfg (r :: readings)); [reflexivity|discriminate].
Qed.

Lemma cycle_offers (x : tick) (self : t) (p : Reading.t) :
  In p (self.(opc_client).(IndustrialOPCClient.data_buffer)
        ++ snd (processed_cycle cfg x self)) ->
  In p (after_cycle cfg x self).(opc_client).(IndustrialOPCClient.data_buffer)
  \/ offered (cycle_trace cfg x self) p.
Proof.
  intros Hp. rewrite after_cycle_buffer.
  destruct (reaches_storage cfg x self) eqn:Hreach.
  - rewrite <- (client_after_read_buffer cfg x self) in Hp.
    destruct (store_readings_offers (tick_db_ok x) _ _ p
                (reaches_storage_processed cfg x self Hreach) Hp) as [H|H];
      [now left|right].
    unfold cycle_trace. rewrite acquisition_cycle_state, Hreach. cbn [snd].
    apply offered_app. right. exact H.
  - left. rewrite (unreached_storage_processed x self Hreach), app_nil_r in Hp.
    exact Hp.
Qed.

Lemma cycles_offer (ticks : list tick) (self : t) (p : Reading.t) :
  In p (self.(opc_client).(IndustrialOPCClient.data_buffer)
        ++ processed_during cfg ticks self) ->
  In p (after_cycles cfg ticks self).(opc_client).(IndustrialOPCClient.data_buffer)
  \/ offered (cycles_trace cfg ticks self) p.
Proof.
  unfold after_cycles. revert self.
  induction ticks as [|x ticks IH]; intros self;
    cbn [processed_during cycles_trace fold_left].
  - rewrite app_nil_r. now left.
  - rewrite app_assoc, in_app_iff. intros [Hp|Hp].
    + destruct (cycle_offers x self p Hp) as [Hb|Ho].
      * destruct (IH (after_cycle cfg x self)) as [H|H].
        -- rewrite in_app_iff. now left.
        -- now left.
        -- right. apply offered_app. now right.
      * right. apply offered_app. now left.
    + destruct (IH (after_cycle cfg x self)) as [H|H].
      * rewrite in_app_iff. now right.
      * now left.
      * right. apply offered_app. now right.
Qed.

Lemma shutdown_offers (bus_ok : bool) (self : t) (p : Reading.t) :
  In p self.(opc_client).(IndustrialOPCClient.data_buffer) ->
  offered (snd (shutdown bus_ok self)) p.
Proof.
  intros Hp. rewrite shutdown_outcome. cbn [snd]. unfold offered.
  destruct (IndustrialOPCClient.data_buffer (opc_client self)) as [|r rows] eqn:E;
    [contradiction|].
  exists (r :: rows). split; [now left|exact Hp].
Qed.

End AtLeastOnce.

(** X20. Every reading is handed to the database at least once: of the
    rows waiting in the buffer at the start and of the readings processed
    by any sequence of cycles, each one is among the rows of a batch sent
    during the cycles or by the [shutdown] that follows them, whatever the
    bus and the database answer; a reading can be evicted from the buffer
    only after a batch containing it was refused. *)
Theorem every_reading_is_offered (cfg : DAQConfig.t)
    (ticks : list IndustrialDAQSystem.tick) (bus_ok : bool)
    (self : IndustrialDAQSystem.t) :
  Forall
    (offered
       (cycles_trace cfg ticks self
        ++ snd (IndustrialDAQSystem.shutdown bus_ok (after_cycles cfg ticks self))))
    (self.(IndustrialDAQSystem.opc_client).(IndustrialOPCClient.data_buffer)
     ++ processed_during cfg ticks self)
  /\ Forall
       (fun p =>
          In p (after_cycles cfg ticks self).(IndustrialDAQSystem.opc_client)
                 .(IndustrialOPCClient.data_buffer)
          \/ offered (cycles_trace cfg ticks self) p)
       (self.(IndustrialDAQSystem.opc_client).(IndustrialOPCClient.data_buffer)
        ++ processed_during cfg ticks self).
Proof.
  split; apply Forall_forall; intros p Hp.
  - apply offered_app.
    destruct (cycles_offer cfg ticks self p Hp) as [Hb|Ho]; [right|now left].
    now apply shutdown_offers.
  - now apply cycles_offer.
Qed.
